(** * MT5 tick / bar downloaders: date-range chunking, accumulation, finalization

    Shallow embedding of the two scripts of the repository

      - [src/mt5_1minuto_por_chunks.py]  (bar pipeline,  module [Bars])
      - [src/download_tick_mt5.py]       (tick pipeline, module [Ticks])

    Modelling conventions.

      - A Python [datetime] is an integer number of microseconds (its
        resolution) since an arbitrary epoch; a [timedelta] is an integer
        number of microseconds.  The calendar bounds of [datetime]
        (years 1..9999, [OverflowError] beyond) are not modelled.
      - [int(x)] on a float truncates toward zero: [Z.quot].  Float
        arithmetic is read exactly, so
        [int((e - s).total_seconds() / 60)] is [(e - s) quot 60_000_000] and
        [int(max_bars * 0.9)] is [(9 * max_bars) quot 10].
      - [while] loops carry fuel; running out of fuel is the outcome
        [None] (resp. [Timeout]), and every result about a loop comes with
        the amount of fuel that is enough.
      - The MetaTrader5 terminal, pandas' CSV writer, the file system and
        the clock are an environment of oracles; the calls made to them are
        recorded in a trace of events.  A request for data is a function of
        its arguments: the history asked for does not change during a run.
      - An exception is a Python [Exception]; the requests for data and the
        CSV writer may raise one, and so may numpy and pandas on what was
        fetched (module [Fallible]).  [print] and [logger] calls are left
        out. *)

From Stdlib Require Import ZArith List Bool Lia.
From Stdlib Require Import String Ascii DecimalString.
From Stdlib Require Import Permutation Sorted.
Import ListNotations.
Open Scope Z_scope.

(** ** Dates and durations *)

Abbreviation datetime := Z (only parsing).
Abbreviation timedelta := Z (only parsing).

Definition minute : timedelta := 60000000.
Definition day : timedelta := 86400000000.

(** [timedelta(minutes=n)] and [timedelta(days=n)] *)
Definition minutes (n : Z) : timedelta := n * minute.
Definition days (n : Z) : timedelta := n * day.

(** A sub-range handed to the data source: [(from, to)]. *)
Definition range := (datetime * datetime)%type.

Definition in_range (t : datetime) (r : range) : Prop := fst r <= t <= snd r.

Definition in_rangeb (t : datetime) (r : range) : bool :=
  (fst r <=? t) && (t <=? snd r).

Definition covered (t : datetime) (rs : list range) : Prop :=
  Exists (in_range t) rs.

Definition coveredb (t : datetime) (rs : list range) : bool :=
  existsb (in_rangeb t) rs.

(** Consecutive elements of a list are related by [R]. *)
Fixpoint chain {A : Type} (R : A -> A -> Prop) (l : list A) : Prop :=
  match l with
  | [] => True
  | x :: tl =>
      match tl with
      | [] => True
      | y :: _ => R x y /\ chain R tl
      end
  end.

(** ** Records, the environment and the effect monad *)

(** A row of MT5 data (a tick or a bar).  The code reads only the column
    [time] (epoch seconds); the other columns travel along untouched.
    [pd.to_datetime(df['time'], unit='s')] is monotone and injective, so the
    column is kept in seconds. *)
Record row : Type := mk_row { time : Z; cols : list Z }.

Definition times (l : list row) : list Z := map time l.

(** What a call of the MT5 API gives back: an array (possibly of length 0),
    [None], or a Python exception. *)
Inductive response : Type :=
| Rows (l : list row)
| NoData
| ApiError.

Inductive write_result : Type :=
| WriteOk
| WriteError.

(** The world outside the scripts. *)
Record environment : Type := {
  mt5_initialize : bool;
  mt5_symbol_select : string -> bool;
  copy_ticks_range : string -> datetime -> datetime -> response;
  copy_rates_range : string -> Z -> datetime -> datetime -> response;
  to_csv : string -> list row -> write_result;
  path_exists : string -> bool;
  now : nat -> datetime
}.

(** Calls that leave the process, in the order they happen. *)
Inductive event : Type :=
| Initialize
| SymbolSelect (symbol : string)
| Shutdown
| CopyTicks (symbol : string) (date_from date_to : datetime)
| CopyRates (symbol : string) (timeframe : Z) (date_from date_to : datetime)
| Sleep
| ToCsv (filename : string) (rows : list row).

Definition trace := list event.

(** How a Python call ends: a value, an exception, or (fuel exhausted) not at
    all. *)
Inductive outcome (A : Type) : Type :=
| Return (a : A)
| Raise
| Timeout.
Arguments Return {A} a.
Arguments Raise {A}.
Arguments Timeout {A}.

Definition M (S A : Type) : Type := S -> outcome A * S.

Definition ret {S A} (a : A) : M S A := fun s => (Return a, s).

Definition bind {S A B} (m : M S A) (k : A -> M S B) : M S B :=
  fun s =>
    match m s with
    | (Return a, s') => k a s'
    | (Raise, s') => (Raise, s')
    | (Timeout, s') => (Timeout, s')
    end.

Definition raise {S A} : M S A := fun s => (Raise, s).
Definition timeout {S A} : M S A := fun s => (Timeout, s).

(** [try: body  except Exception: handler] *)
Definition try_except {S A} (body handler : M S A) : M S A :=
  fun s =>
    match body s with
    | (Raise, s') => handler s'
    | r => r
    end.

(** [try: body  finally: final]; the [finally] block runs when [body]
    returns and when it raises, and the outcome of [body] is kept. *)
Definition try_finally {S A} (body : M S A) (final : M S unit) : M S A :=
  fun s =>
    match body s with
    | (Return a, s') =>
        match final s' with
        | (Return _, s'') => (Return a, s'')
        | (Raise, s'') => (Raise, s'')
        | (Timeout, s'') => (Timeout, s'')
        end
    | (Raise, s') =>
        match final s' with
        | (Return _, s'') => (Raise, s'')
        | (Raise, s'') => (Raise, s'')
        | (Timeout, s'') => (Timeout, s'')
        end
    | (Timeout, s') => (Timeout, s')
    end.

Declare Scope monad_scope.
Delimit Scope monad_scope with monad.
Notation "x <- m ;; k" := (bind m (fun x => k))
  (at level 61, m at next level, right associativity) : monad_scope.
Notation "m ;;; k" := (bind m (fun _ => k))
  (at level 61, right associativity) : monad_scope.
Open Scope monad_scope.

(** A computation from which no exception escapes. *)
Definition never_raises {S A} (m : M S A) : Prop :=
  forall s, fst (m s) <> Raise.

(** [len(x) > 0] for the value a fetch returned ([None] has been excluded
    by the caller's [is not None]). *)
Definition nonempty {A} (l : list A) : bool := (0 <? Z.of_nat (List.length l)).

(** *** pandas: [sort_values('time')] and [drop_duplicates('time')]

    [sort_values] uses numpy's default sort, which is not stable: its
    contract is that the result is a rearrangement of the rows in
    non-decreasing order of [time].  The order it leaves among rows of equal
    [time] is not part of the contract. *)
Definition time_le (a b : row) : Prop := time a <= time b.
Definition time_lt (a b : row) : Prop := time a < time b.

Record sort_algorithm : Type := {
  sort_values : list row -> list row;
  sort_values_perm : forall l, Permutation (sort_values l) l;
  sort_values_sorted : forall l, StronglySorted time_le (sort_values l)
}.

(** [drop_duplicates('time')], [keep='first']: a row stays unless an earlier
    row has the same [time]. *)
Fixpoint drop_duplicates_from (seen : list Z) (l : list row) : list row :=
  match l with
  | [] => []
  | r :: tl =>
      if existsb (Z.eqb (time r)) seen then drop_duplicates_from seen tl
      else r :: drop_duplicates_from (time r :: seen) tl
  end.

Definition drop_duplicates (l : list row) : list row :=
  drop_duplicates_from [] l.

(** An insertion sort, one algorithm that meets the contract. *)
Fixpoint insert_row (r : row) (l : list row) : list row :=
  match l with
  | [] => [r]
  | x :: tl => if time r <=? time x then r :: l else x :: insert_row r tl
  end.

Fixpoint insertion_sort (l : list row) : list row :=
  match l with
  | [] => []
  | r :: tl => insert_row r (insertion_sort tl)
  end.

(** [df['time'].min()] and [.max()] of a frame. *)
Definition series_min (l : list Z) : Z :=
  match l with
  | [] => 0
  | x :: tl => fold_left Z.min tl x
  end.

Definition series_max (l : list Z) : Z :=
  match l with
  | [] => 0
  | x :: tl => fold_left Z.max tl x
  end.

(** *** [strftime('%Y%m%d')] of a timestamp given in epoch seconds (UTC),
    for years 0..9999.

    [civil_from_days] is the year, month and day of a day number counted from
    1970-01-01, in the proleptic Gregorian calendar. *)
Definition civil_from_days (z0 : Z) : Z * Z * Z :=
  let z := z0 + 719468 in
  let era := z / 146097 in
  let doe := z - era * 146097 in
  let yoe := (doe - doe / 1460 + doe / 36524 - doe / 146096) / 365 in
  let doy := doe - (365 * yoe + yoe / 4 - yoe / 100) in
  let mp := (5 * doy + 2) / 153 in
  let d := doy - (153 * mp + 2) / 5 + 1 in
  let m := if mp <? 10 then mp + 3 else mp - 9 in
  let y := yoe + era * 400 + (if m <=? 2 then 1 else 0) in
  (y, m, d).

Definition digit (n : Z) : ascii := ascii_of_nat (48 + Z.to_nat (n mod 10)).

Definition strftime_Ymd (t : Z) : string :=
  let '(y, m, d) := civil_from_days (t / 86400) in
  String (digit (y / 1000)) (String (digit (y / 100)) (String (digit (y / 10))
  (String (digit y) (String (digit (m / 10)) (String (digit m)
  (String (digit (d / 10)) (String (digit d) EmptyString))))))).

(** [str(n)] for a length. *)
Definition str_of_nat (n : nat) : string :=
  NilZero.string_of_uint (Nat.to_uint n).

(** ** Bar pipeline: [mt5_1minuto_por_chunks.py] *)

Module Bars.

Definition world := trace.

Definition emit (e : event) : M world unit := fun tr => (Return tt, tr ++ [e]).

(** [datetime.now()]: the clock is read off the environment, indexed by the
    number of events so far. *)
Definition datetime_now (env : environment) : M world datetime :=
  fun tr => (Return (now env (List.length tr)), tr).

Definition TIMEFRAME_M1 : Z := 1.

Definition initialize_mt5 (env : environment) : M world bool :=
  emit Initialize ;;;
  if negb (mt5_initialize env) then ret false else ret true.

(** [total_minutes = int((end_date - start_date).total_seconds() / 60)] *)
Definition total_minutes (start_date end_date : datetime) : Z :=
  Z.quot (end_date - start_date) minute.

(** [chunk_minutes = int(max_bars * 0.9)] *)
Definition chunk_minutes (max_bars : Z) : Z := Z.quot (9 * max_bars) 10.

(** The [while current_start < end_date] loop of [calculate_chunks];
    [chunks] is the list being appended to. *)
Fixpoint chunks_loop (fuel : nat) (current_start end_date : datetime)
    (chunk_delta : timedelta) (chunks : list range) : option (list range) :=
  if current_start <? end_date then
    match fuel with
    | O => None
    | S fuel' =>
        let chunk_end := Z.min (current_start + chunk_delta) end_date in
        chunks_loop fuel' (chunk_end + minutes 1) end_date chunk_delta
          (chunks ++ [(current_start, chunk_end)])
    end
  else Some chunks.

Definition calculate_chunks (fuel : nat) (start_date end_date : datetime)
    (max_bars : Z) : option (list range) :=
  if total_minutes start_date end_date <=? max_bars then
    Some [(start_date, end_date)]
  else
    chunks_loop fuel start_date end_date (minutes (chunk_minutes max_bars)) [].

(** Fuel that is enough for the loop when the chunk size is not negative:
    every iteration moves [current_start] at least one minute forward. *)
Definition chunks_fuel (start_date end_date : datetime) : nat :=
  S (Z.to_nat ((end_date - start_date) / minute)).

(** The call [mt5.copy_rates_range(symbol, timeframe, from_date, to_date)]. *)
Definition mt5_copy_rates_range (env : environment) (symbol : string)
    (timeframe : Z) (date_from date_to : datetime)
  : M world (option (list row)) :=
  emit (CopyRates symbol timeframe date_from date_to) ;;;
  match copy_rates_range env symbol timeframe date_from date_to with
  | Rows l => ret (Some l)
  | NoData => ret None
  | ApiError => raise
  end.

Definition download_chunk (env : environment) (symbol : string)
    (timeframe : Z) (chunk_start chunk_end : datetime)
  : M world (option (list row)) :=
  try_except
    (rates <- mt5_copy_rates_range env symbol timeframe chunk_start chunk_end ;;
     match rates with
     | None => ret None
     | Some df => if (Z.of_nat (List.length df) =? 0) then ret None
                  else ret (Some df)
     end)
    (ret None).

(** The [for i, (chunk_start, chunk_end) in enumerate(chunks)] loop of
    [download_historical_data]; [all_data] is the list being appended to. *)
Fixpoint fetch_chunks (env : environment) (symbol : string) (timeframe : Z)
    (chunks : list range) (all_data : list (list row))
  : M world (list (list row)) :=
  match chunks with
  | [] => ret all_data
  | (chunk_start, chunk_end) :: rest =>
      chunk_data <- download_chunk env symbol timeframe chunk_start chunk_end ;;
      let all_data :=
        match chunk_data with
        | Some df => if nonempty df then all_data ++ [df] else all_data
        | None => all_data
        end in
      emit Sleep ;;;
      fetch_chunks env symbol timeframe rest all_data
  end.

(** [pd.concat(all_data, ignore_index=True)], then [sort_values] and
    [drop_duplicates], both in place: what they compute.  That they may
    raise instead is in [Fallible.combined_frame]. *)
Definition combine (pd : sort_algorithm) (all_data : list (list row))
  : list row :=
  drop_duplicates (sort_values pd (List.concat all_data)).

Definition download_historical_data (fuel : nat) (env : environment)
    (pd : sort_algorithm) (symbol : string) (timeframe : Z)
    (start_date : datetime) (end_date : option datetime) (max_bars : Z)
  : M world (option (list row)) :=
  end_date <- match end_date with
              | None => datetime_now env
              | Some e => ret e
              end ;;
  match calculate_chunks fuel start_date end_date max_bars with
  | None => timeout
  | Some chunks =>
      all_data <- fetch_chunks env symbol timeframe chunks [] ;;
      match all_data with
      | _ :: _ => ret (Some (combine pd all_data))
      | [] => ret None
      end
  end.

Definition save_to_csv (env : environment) (df : list row) (filename : string)
  : M world bool :=
  try_except
    (emit (ToCsv filename df) ;;;
     match to_csv env filename df with
     | WriteOk => ret true
     | WriteError => raise
     end)
    (ret false).

(** [main] returns nothing in Python: [unit].  The requests and the save
    have their own handlers, so with pandas read as what it computes nothing
    raises into the [except] below; what it does with an exception is in
    [Fallible.main]. *)
Definition main (fuel : nat) (env : environment) (pd : sort_algorithm)
  : M world unit :=
  let symbol := "EURUSD"%string in
  let timeframe := TIMEFRAME_M1 in
  t0 <- datetime_now env ;;
  let start_date := t0 - days (365 * 10) in
  let output_filename := (symbol ++ "_M10_1year.csv")%string in
  let max_bars_per_chunk := 100000 in
  ok <- initialize_mt5 env ;;
  if negb ok then ret tt
  else
    try_finally
      (try_except
         (data <- download_historical_data fuel env pd symbol timeframe
                    start_date None max_bars_per_chunk ;;
          match data with
          | Some df =>
              saved <- save_to_csv env df output_filename ;;
              ret tt
          | None => ret tt
          end)
         (ret tt))
      (emit Shutdown).

End Bars.

(** ** Tick pipeline: [download_tick_mt5.py] *)

Module Ticks.

(** The fields of a [TickDownloader] object. *)
Record TickDownloader : Type := {
  symbol : string;
  start_date : datetime;
  end_date : datetime;
  max_ticks_per_batch : Z;
  downloaded_ticks : Z;
  all_ticks : option (list row)
}.

(** The object the methods run on, and the calls made so far. *)
Record world : Type := { self : TickDownloader; io : trace }.

Definition emit (e : event) : M world unit :=
  fun w => (Return tt, {| self := self w; io := io w ++ [e] |}).

Definition get_self : M world TickDownloader := fun w => (Return (self w), w).

Definition set_all_ticks (v : option (list row)) : M world unit :=
  fun w =>
    let o := self w in
    (Return tt,
     {| self := {| symbol := symbol o; start_date := start_date o;
                   end_date := end_date o;
                   max_ticks_per_batch := max_ticks_per_batch o;
                   downloaded_ticks := downloaded_ticks o;
                   all_ticks := v |};
        io := io w |}).

Definition set_downloaded_ticks (n : Z) : M world unit :=
  fun w =>
    let o := self w in
    (Return tt,
     {| self := {| symbol := symbol o; start_date := start_date o;
                   end_date := end_date o;
                   max_ticks_per_batch := max_ticks_per_batch o;
                   downloaded_ticks := n;
                   all_ticks := all_ticks o |};
        io := io w |}).

(** [TickDownloader.__init__]; a missing [end_date] is [datetime.now()]. *)
Definition new_TickDownloader (env : environment) (tr : trace)
    (symbol : string) (start_date : datetime) (end_date : option datetime)
    (max_ticks_per_batch : Z) : TickDownloader :=
  {| symbol := symbol;
     start_date := start_date;
     end_date := match end_date with
                 | Some e => e
                 | None => now env (List.length tr)
                 end;
     max_ticks_per_batch := max_ticks_per_batch;
     downloaded_ticks := 0;
     all_ticks := None |}.

Definition initialize_mt5 (env : environment) : M world bool :=
  this <- get_self ;;
  emit Initialize ;;;
  if negb (mt5_initialize env) then ret false
  else
    emit (SymbolSelect (symbol this)) ;;;
    if negb (mt5_symbol_select env (symbol this)) then
      emit Shutdown ;;; ret false
    else ret true.

(** The call [mt5.copy_ticks_range(self.symbol, start, end, COPY_TICKS_ALL)]. *)
Definition mt5_copy_ticks_range (env : environment) (symbol : string)
    (date_from date_to : datetime) : M world (option (list row)) :=
  emit (CopyTicks symbol date_from date_to) ;;;
  match copy_ticks_range env symbol date_from date_to with
  | Rows l => ret (Some l)
  | NoData => ret None
  | ApiError => raise
  end.

Definition get_ticks_by_date_range (env : environment)
    (start_date end_date : datetime) : M world (option (list row)) :=
  this <- get_self ;;
  try_except
    (ticks <- mt5_copy_ticks_range env (symbol this) start_date end_date ;;
     match ticks with
     | None => ret None
     | Some t => ret (Some t)
     end)
    (ret None).

(** The [while current_end > self.start_date] loop of [download_in_batches],
    with its [break] when the start date has been reached. *)
Fixpoint batches_loop (fuel : nat) (env : environment) (current_end : datetime)
    (batch_number : Z) (all_ticks_list : list (list row))
  : M world (list (list row)) :=
  this <- get_self ;;
  if current_end >? start_date this then
    match fuel with
    | O => timeout
    | S fuel' =>
        let batch_number := batch_number + 1 in
        let batch_start := current_end - days 1 in
        let batch_start :=
          if batch_start <? start_date this then start_date this
          else batch_start in
        ticks <- get_ticks_by_date_range env batch_start current_end ;;
        all_ticks_list <-
          match ticks with
          | Some t =>
              if nonempty t then
                this' <- get_self ;;
                set_downloaded_ticks
                  (downloaded_ticks this' + Z.of_nat (List.length t)) ;;;
                ret (all_ticks_list ++ [t])
              else ret all_ticks_list
          | None => ret all_ticks_list
          end ;;
        let current_end := batch_start in
        emit Sleep ;;;
        if current_end <=? start_date this then ret all_ticks_list
        else batches_loop fuel' env current_end batch_number all_ticks_list
    end
  else ret all_ticks_list.

(** [np.concatenate] is read as what it computes; that it may raise
    instead is in [Fallible.download_in_batches]. *)
Definition download_in_batches (fuel : nat) (env : environment)
  : M world bool :=
  this <- get_self ;;
  all_ticks_list <- batches_loop fuel env (end_date this) 0 [] ;;
  match all_ticks_list with
  | _ :: _ =>
      set_all_ticks (Some (List.concat all_ticks_list)) ;;;
      ret true
  | [] => ret false
  end.

(** One iteration per day of the range is enough fuel. *)
Definition batches_fuel (start_date end_date : datetime) : nat :=
  S (Z.to_nat ((end_date - start_date) / day)).

(** The requests have their own handler, so with [np.concatenate] read as
    what it computes nothing raises into the [except] below; what it does
    with an exception is in [Fallible.download_by_date_range]. *)
Definition download_by_date_range (fuel : nat) (env : environment)
  : M world bool :=
  ok <- initialize_mt5 env ;;
  if negb ok then ret false
  else
    try_finally
      (try_except
         (this <- get_self ;;
          ticks <- get_ticks_by_date_range env (start_date this) (end_date this) ;;
          match ticks with
          | Some t =>
              if nonempty t then
                set_all_ticks (Some t) ;;;
                set_downloaded_ticks (Z.of_nat (List.length t)) ;;;
                ret true
              else download_in_batches fuel env
          | None => download_in_batches fuel env
          end)
         (ret false))
      (emit Shutdown).

(** The name built when [filename is None]. *)
Definition auto_filename (symbol : string) (df : list row) : string :=
  (symbol ++ "_ticks_" ++ strftime_Ymd (series_min (times df))
          ++ "_to_" ++ strftime_Ymd (series_max (times df))
          ++ "_" ++ str_of_nat (List.length df) ++ ".csv")%string.

Definition save_ticks_to_csv (env : environment) (pd : sort_algorithm)
    (filename : option string) : M world (option string) :=
  this <- get_self ;;
  match all_ticks this with
  | None => ret None
  | Some ticks =>
      (* [self.all_ticks.size == 0], then [len(self.all_ticks) == 0] *)
      if Z.of_nat (List.length ticks) =? 0 then ret None
      else if Z.of_nat (List.length ticks) =? 0 then ret None
      else
        try_except
          (let df := sort_values pd ticks in
           let filename :=
             match filename with
             | None => auto_filename (symbol this) df
             | Some f => f
             end in
           emit (ToCsv filename df) ;;;
           match to_csv env filename df with
           | WriteError => raise
           | WriteOk =>
               if path_exists env filename then ret (Some filename)
               else ret None
           end)
          (ret None)
  end.

(** [show_statistics] only prints, inside its own [try]/[except]. *)
Definition show_statistics : M world unit := ret tt.

Definition DEFAULT_MAX_TICKS_PER_BATCH : Z := 100000000.

Definition download_ticks_by_date (fuel : nat) (env : environment)
    (pd : sort_algorithm) (symbol : string) (start_date : datetime)
    (end_date : option datetime) (output_file : option string)
    (tr : trace) : outcome (option string) * world :=
  let downloader :=
    new_TickDownloader env tr symbol start_date end_date
      DEFAULT_MAX_TICKS_PER_BATCH in
  (ok <- download_by_date_range fuel env ;;
   if ok then
     filename <- save_ticks_to_csv env pd output_file ;;
     match filename with
     | Some f =>
         if (f =? "")%string then ret None
         else show_statistics ;;; ret (Some f)
     | None => ret None
     end
   else ret None)
    {| self := downloader; io := tr |}.

(** [download_multiple_periods], the loop of the script over its table of
    periods [(start, end, name)].  [SYMBOL] is the script's global and
    [periods] its list literal; the pause between two periods is
    [time.sleep(1)]. *)
Fixpoint download_multiple_periods (fuel : nat) (env : environment)
    (pd : sort_algorithm) (SYMBOL : string)
    (periods : list (datetime * datetime * string)) (tr : trace)
  : outcome unit * trace :=
  match periods with
  | [] => (Return tt, tr)
  | (start, end_, name) :: rest =>
      let filename := (SYMBOL ++ "_" ++ name ++ ".csv")%string in
      match download_ticks_by_date fuel env pd SYMBOL start (Some end_)
              (Some filename) tr with
      | (Return result, w) =>
          download_multiple_periods fuel env pd SYMBOL rest (io w ++ [Sleep])
      | (Raise, w) => (Raise, io w)
      | (Timeout, w) => (Timeout, io w)
      end
  end.

End Ticks.

(** ** When numpy and pandas fail

    After the requests the scripts hand what was fetched to numpy and
    pandas: [np.concatenate] in [download_in_batches]; [pd.concat],
    [sort_values] and [drop_duplicates] in [download_historical_data];
    [pd.DataFrame] and [sort_values] in [save_ticks_to_csv].  On a history
    too large for the memory these calls raise [MemoryError], an
    [Exception].  The first two groups are inside no handler but the
    top-level one, the third is inside the handler of [save_ticks_to_csv].
    ([pd.DataFrame] in [download_chunk] is inside the handler of the
    request: its failure is the request's [ApiError].)  A [library] says on
    which arguments the calls raise.

    [Fallible] holds the functions of the two scripts that make these calls,
    and their callers, with the calls as the [library] has them.  With the
    [reliable] library they are the functions of [Bars] and [Ticks] above
    (lemmas [*_reliable]). *)
Record library : Type := {
  np_concatenate_raises : list (list row) -> bool;
  pandas_raises : list row -> bool
}.

Definition reliable : library :=
  {| np_concatenate_raises := fun _ => false;
     pandas_raises := fun _ => false |}.

(** No memory left for any array or frame. *)
Definition out_of_memory : library :=
  {| np_concatenate_raises := fun _ => true;
     pandas_raises := fun _ => true |}.

Module Fallible.

(** [np.concatenate(all_ticks_list)] *)
Definition np_concatenate (lib : library) (arrays : list (list row))
  : M Ticks.world (list row) :=
  if np_concatenate_raises lib arrays then raise
  else ret (List.concat arrays).

Definition download_in_batches (lib : library) (fuel : nat)
    (env : environment) : M Ticks.world bool :=
  this <- Ticks.get_self ;;
  all_ticks_list <- Ticks.batches_loop fuel env (Ticks.end_date this) 0 [] ;;
  match all_ticks_list with
  | _ :: _ =>
      all_ticks <- np_concatenate lib all_ticks_list ;;
      Ticks.set_all_ticks (Some all_ticks) ;;;
      ret true
  | [] => ret false
  end.

(** The body of the [try] of [download_by_date_range]. *)
Definition download_by_date_range_body (lib : library) (fuel : nat)
    (env : environment) : M Ticks.world bool :=
  this <- Ticks.get_self ;;
  ticks <- Ticks.get_ticks_by_date_range env (Ticks.start_date this)
             (Ticks.end_date this) ;;
  match ticks with
  | Some t =>
      if nonempty t then
        Ticks.set_all_ticks (Some t) ;;;
        Ticks.set_downloaded_ticks (Z.of_nat (List.length t)) ;;;
        ret true
      else download_in_batches lib fuel env
  | None => download_in_batches lib fuel env
  end.

Definition download_by_date_range (lib : library) (fuel : nat)
    (env : environment) : M Ticks.world bool :=
  ok <- Ticks.initialize_mt5 env ;;
  if negb ok then ret false
  else
    try_finally
      (try_except (download_by_date_range_body lib fuel env) (ret false))
      (Ticks.emit Shutdown).

(** [pd.DataFrame(self.all_ticks)], [pd.to_datetime] and [sort_values]. *)
Definition sorted_frame (lib : library) (pd : sort_algorithm)
    (ticks : list row) : M Ticks.world (list row) :=
  if pandas_raises lib ticks then raise else ret (sort_values pd ticks).

Definition save_ticks_to_csv (lib : library) (env : environment)
    (pd : sort_algorithm) (filename : option string)
  : M Ticks.world (option string) :=
  this <- Ticks.get_self ;;
  match Ticks.all_ticks this with
  | None => ret None
  | Some ticks =>
      if Z.of_nat (List.length ticks) =? 0 then ret None
      else if Z.of_nat (List.length ticks) =? 0 then ret None
      else
        try_except
          (df <- sorted_frame lib pd ticks ;;
           let filename :=
             match filename with
             | None => Ticks.auto_filename (Ticks.symbol this) df
             | Some f => f
             end in
           Ticks.emit (ToCsv filename df) ;;;
           match to_csv env filename df with
           | WriteError => raise
           | WriteOk =>
               if path_exists env filename then ret (Some filename)
               else ret None
           end)
          (ret None)
  end.

Definition download_ticks_by_date (lib : library) (fuel : nat)
    (env : environment) (pd : sort_algorithm) (symbol : string)
    (start_date : datetime) (end_date : option datetime)
    (output_file : option string) (tr : trace)
  : outcome (option string) * Ticks.world :=
  let downloader :=
    Ticks.new_TickDownloader env tr symbol start_date end_date
      Ticks.DEFAULT_MAX_TICKS_PER_BATCH in
  (ok <- download_by_date_range lib fuel env ;;
   if ok then
     filename <- save_ticks_to_csv lib env pd output_file ;;
     match filename with
     | Some f =>
         if (f =? "")%string then ret None
         else Ticks.show_statistics ;;; ret (Some f)
     | None => ret None
     end
   else ret None)
    {| Ticks.self := downloader; Ticks.io := tr |}.

(** [pd.concat(all_data, ignore_index=True)], [sort_values] and
    [drop_duplicates] of [download_historical_data]. *)
Definition combined_frame (lib : library) (pd : sort_algorithm)
    (all_data : list (list row)) : M Bars.world (list row) :=
  if pandas_raises lib (List.concat all_data) then raise
  else ret (Bars.combine pd all_data).

Definition download_historical_data (lib : library) (fuel : nat)
    (env : environment) (pd : sort_algorithm) (symbol : string)
    (timeframe : Z) (start_date : datetime) (end_date : option datetime)
    (max_bars : Z) : M Bars.world (option (list row)) :=
  end_date <- match end_date with
              | None => Bars.datetime_now env
              | Some e => ret e
              end ;;
  match Bars.calculate_chunks fuel start_date end_date max_bars with
  | None => timeout
  | Some chunks =>
      all_data <- Bars.fetch_chunks env symbol timeframe chunks [] ;;
      match all_data with
      | _ :: _ =>
          combined_df <- combined_frame lib pd all_data ;;
          ret (Some combined_df)
      | [] => ret None
      end
  end.

(** The body of the [try] of [main]. *)
Definition main_body (lib : library) (fuel : nat) (env : environment)
    (pd : sort_algorithm) (start_date : datetime) : M Bars.world unit :=
  data <- download_historical_data lib fuel env pd "EURUSD" Bars.TIMEFRAME_M1
            start_date None 100000 ;;
  match data with
  | Some df =>
      saved <- Bars.save_to_csv env df "EURUSD_M10_1year.csv" ;;
      ret tt
  | None => ret tt
  end.

Definition main (lib : library) (fuel : nat) (env : environment)
    (pd : sort_algorithm) : M Bars.world unit :=
  t0 <- Bars.datetime_now env ;;
  let start_date := t0 - days (365 * 10) in
  ok <- Bars.initialize_mt5 env ;;
  if negb ok then ret tt
  else
    try_finally
      (try_except (main_body lib fuel env pd start_date) (ret tt))
      (Bars.emit Shutdown).

End Fallible.

(** ** Reading a trace *)

(** How many times [mt5.initialize()] was called. *)
Definition initializations (tr : trace) : nat :=
  List.length (filter (fun e => match e with
                                | Initialize => true
                                | _ => false
                                end) tr).

(** The sub-ranges asked of [copy_ticks_range] / [copy_rates_range], in the
    order of the calls. *)
Definition tick_requests (tr : trace) : list range :=
  flat_map (fun e => match e with
                     | CopyTicks _ a b => [(a, b)]
                     | _ => []
                     end) tr.

Definition rate_requests (tr : trace) : list range :=
  flat_map (fun e => match e with
                     | CopyRates _ _ a b => [(a, b)]
                     | _ => []
                     end) tr.

(** The files handed to [to_csv], with their rows. *)
Definition files_written (tr : trace) : list (string * list row) :=
  flat_map (fun e => match e with
                     | ToCsv f rows => [(f, rows)]
                     | _ => []
                     end) tr.

(** Whether an MT5 session is open after the events of [tr], starting from
    [opened]: a successful [mt5.initialize()] opens it, [mt5.shutdown()]
    closes it. *)
Definition session_after (env : environment) (opened : bool) (tr : trace)
  : bool :=
  fold_left (fun o e => match e with
                        | Initialize => mt5_initialize env
                        | Shutdown => false
                        | _ => o
                        end) tr opened.

(** What a fetched sub-range adds to the accumulator: the array when there is
    one and it is not empty, nothing otherwise. *)
Definition kept (r : response) : list (list row) :=
  match r with
  | Rows l => if nonempty l then [l] else []
  | NoData => []
  | ApiError => []
  end.

(** ** The batch loop of the tick pipeline, read as a plan

    The control flow of [Ticks.batches_loop] alone: the sub-ranges it asks
    for, in the order it asks for them. *)
Fixpoint batch_plan (fuel : nat) (start_date current_end : datetime)
  : option (list range) :=
  if current_end >? start_date then
    match fuel with
    | O => None
    | S fuel' =>
        let batch_start := current_end - days 1 in
        let batch_start :=
          if batch_start <? start_date then start_date else batch_start in
        if batch_start <=? start_date then Some [(batch_start, current_end)]
        else option_map (cons (batch_start, current_end))
               (batch_plan fuel' start_date batch_start)
    end
  else Some [].

(** What the plan looks like: sub-ranges of one day, the last one clipped at
    [start_date], walking back from [ce]; each ends where the one asked
    before it begins. *)
Definition walks_back (start_date ce : datetime) (rs : list range) : Prop :=
  Forall (fun r => start_date <= fst r /\ fst r < snd r /\ snd r <= ce /\
                   fst r = Z.max start_date (snd r - day)) rs /\
  chain (fun r1 r2 => snd r2 = fst r1) rs /\
  (start_date < ce -> exists a rest, rs = (a, ce) :: rest) /\
  (start_date < ce -> exists init b, rs = init ++ [(start_date, b)]) /\
  (forall t, covered t rs <-> start_date <= t <= ce /\ start_date < ce) /\
  (ce <= start_date -> rs = []).

(** The calls, the data kept and the rows counted when the sub-ranges [rs]
    are fetched one after the other. *)
Definition batch_events (symbol : string) (rs : list range) : trace :=
  flat_map (fun r : range => [CopyTicks symbol (fst r) (snd r); Sleep]) rs.

Definition batch_data (env : environment) (symbol : string) (rs : list range)
  : list (list row) :=
  flat_map (fun r : range => kept (copy_ticks_range env symbol (fst r) (snd r)))
    rs.

Definition count_rows (ls : list (list row)) : Z :=
  fold_right (fun l n => Z.of_nat (List.length l) + n) 0 ls.

Definition with_downloaded_ticks (o : Ticks.TickDownloader) (n : Z)
  : Ticks.TickDownloader :=
  {| Ticks.symbol := Ticks.symbol o;
     Ticks.start_date := Ticks.start_date o;
     Ticks.end_date := Ticks.end_date o;
     Ticks.max_ticks_per_batch := Ticks.max_ticks_per_batch o;
     Ticks.downloaded_ticks := n;
     Ticks.all_ticks := Ticks.all_ticks o |}.

Definition with_all_ticks (o : Ticks.TickDownloader) (v : option (list row))
  : Ticks.TickDownloader :=
  {| Ticks.symbol := Ticks.symbol o;
     Ticks.start_date := Ticks.start_date o;
     Ticks.end_date := Ticks.end_date o;
     Ticks.max_ticks_per_batch := Ticks.max_ticks_per_batch o;
     Ticks.downloaded_ticks := Ticks.downloaded_ticks o;
     Ticks.all_ticks := v |}.

(** The same for the chunks of the bar pipeline. *)
Definition chunk_events (symbol : string) (timeframe : Z) (rs : list range)
  : trace :=
  flat_map (fun r : range => [CopyRates symbol timeframe (fst r) (snd r); Sleep])
    rs.

Definition chunk_data (env : environment) (symbol : string) (timeframe : Z)
    (rs : list range) : list (list row) :=
  flat_map (fun r : range =>
              kept (copy_rates_range env symbol timeframe (fst r) (snd r))) rs.

(** The rows of an answer; [None] and an exception have none. *)
Definition rows_of (r : response) : list row :=
  match r with
  | Rows l => l
  | NoData => []
  | ApiError => []
  end.

(** ** Environments to run the scripts in *)

(** A terminal that connects and has no data at all. *)
Definition silent_env : environment :=
  {| mt5_initialize := true;
     mt5_symbol_select := fun _ => true;
     copy_ticks_range := fun _ _ _ => NoData;
     copy_rates_range := fun _ _ _ _ => NoData;
     to_csv := fun _ _ => WriteOk;
     path_exists := fun _ => true;
     now := fun _ => 0 |}.

(** A terminal that holds the rows [history]: a request returns the rows
    whose time (seconds) lies in the closed range asked for (microseconds),
    and fails with [None] when the range is longer than [limit]. *)
Definition in_closed_range (a b : datetime) (r : row) : bool :=
  (a <=? time r * 1000000) && (time r * 1000000 <=? b).

Definition history_env (history : list row) (limit : timedelta) : environment :=
  {| mt5_initialize := true;
     mt5_symbol_select := fun _ => true;
     copy_ticks_range := fun _ a b =>
       if limit <? b - a then NoData
       else Rows (filter (in_closed_range a b) history);
     copy_rates_range := fun _ _ a b =>
       if limit <? b - a then NoData
       else Rows (filter (in_closed_range a b) history);
     to_csv := fun _ _ => WriteOk;
     path_exists := fun _ => true;
     now := fun _ => 0 |}.

(** A terminal whose every data request raises and whose disk is full. *)
Definition failing_env : environment :=
  {| mt5_initialize := true;
     mt5_symbol_select := fun _ => true;
     copy_ticks_range := fun _ _ _ => ApiError;
     copy_rates_range := fun _ _ _ _ => ApiError;
     to_csv := fun _ _ => WriteError;
     path_exists := fun _ => false;
     now := fun _ => 0 |}.

(** A downloader for the two days from 0, not yet run. *)
Definition two_day_world (env : environment) : Ticks.world :=
  {| Ticks.self :=
       Ticks.new_TickDownloader env [] "EURUSD" 0 (Some (days 2))
         Ticks.DEFAULT_MAX_TICKS_PER_BATCH;
     Ticks.io := [] |}.

(** The world [w] after the further calls [evs]. *)
Definition logged (w : Ticks.world) (evs : trace) : Ticks.world :=
  {| Ticks.self := Ticks.self w; Ticks.io := Ticks.io w ++ evs |}.

(** Three ticks of January 2024: two on the 1st, one on the 31st. *)
Definition january_ticks : list row :=
  [ mk_row 1706659200 [108350; 108352];
    mk_row 1704067200 [110420; 110423];
    mk_row 1704067200 [110421; 110424] ].

(** One tick stamped exactly one day after the epoch. *)
Definition boundary_tick : row := mk_row 86400 [108350; 108352].

(** ** The specification's wording, for comparison with the code *)

(** "Ordered": every sub-range runs forward and the sub-ranges begin in
    increasing order. *)
Definition spec_ordered (rs : list range) : Prop :=
  Forall (fun r => fst r <= snd r) rs /\
  chain (fun r1 r2 => fst r1 <= fst r2) rs.

(** "Contiguous": each sub-range begins where the one before it ends. *)
Definition spec_contiguous (rs : list range) : Prop :=
  chain (fun r1 r2 => fst r2 = snd r1) rs.

(** "Their union equals R": an instant is in some sub-range exactly when it
    is in [start, end]. *)
Definition spec_union (start_date end_date : datetime) (rs : list range)
  : Prop :=
  forall t, covered t rs <-> start_date <= t <= end_date.

Definition spec_chunk_plan (start_date end_date : datetime) (rs : list range)
  : Prop :=
  spec_ordered rs /\ spec_contiguous rs /\ spec_union start_date end_date rs.

(** "Advance monotonically from the start date toward the end date": the
    first sub-range begins at the start date and each next one begins later. *)
Definition spec_advances_from_start (start_date : datetime) (rs : list range)
  : Prop :=
  match rs with
  | [] => True
  | r :: _ => fst r = start_date
  end /\ chain (fun r1 r2 => fst r1 < fst r2) rs.

(** The file name pattern [<symbol>_<kind>_<start>_<end>_<count>.csv]. *)
Definition spec_filename (symbol kind start_s end_s count : string) : string :=
  (symbol ++ "_" ++ kind ++ "_" ++ start_s ++ "_" ++ end_s ++ "_" ++ count
          ++ ".csv")%string.

(** * Facts *)

Lemma in_rangeb_spec t r : in_rangeb t r = true <-> in_range t r.
Proof.
  unfold in_rangeb, in_range.
  rewrite andb_true_iff, !Z.leb_le. tauto.
Qed.

Lemma coveredb_spec t rs : coveredb t rs = true <-> covered t rs.
Proof.
  unfold coveredb, covered. rewrite existsb_exists, Exists_exists.
  split; intros [r [Hin Hr]]; exists r; split; auto; now apply in_rangeb_spec.
Qed.

Lemma chain_cons {A} (R : A -> A -> Prop) x y l :
  chain R (x :: y :: l) <-> R x y /\ chain R (y :: l).
Proof. simpl. tauto. Qed.

Lemma chain_snoc {A} (R : A -> A -> Prop) l x y :
  chain R (l ++ [x]) -> R x y -> chain R (l ++ [x; y]).
Proof.
  induction l as [|a l IH]; intros Hc Hxy.
  - simpl. auto.
  - destruct l as [|b l].
    + simpl in *. tauto.
    + change ((a :: b :: l) ++ [x]) with (a :: b :: (l ++ [x])) in Hc.
      change ((a :: b :: l) ++ [x; y]) with (a :: b :: (l ++ [x; y])).
      apply chain_cons in Hc. destruct Hc as [Hab Hc].
      apply chain_cons. split; [exact Hab|].
      apply (IH Hc Hxy).
Qed.

(** ** The chunk planner of the bar pipeline *)

Lemma minutes_add a b : minutes (a + b) = minutes a + minutes b.
Proof. unfold minutes, minute. lia. Qed.

Lemma minutes_1 : minutes 1 = minute.
Proof. reflexivity. Qed.

Lemma minutes_nonneg n : 0 <= n -> 0 <= minutes n.
Proof. unfold minutes, minute. lia. Qed.

Lemma chunk_minutes_nonneg max_bars : 0 <= max_bars -> 0 <= Bars.chunk_minutes max_bars.
Proof.
  intros H. unfold Bars.chunk_minutes. apply Z.quot_pos; lia.
Qed.

(** The accumulator only collects: the loop from [chunks] is the loop from
    the empty list with [chunks] in front. *)
Lemma chunks_loop_acc fuel : forall cs e d acc,
  Bars.chunks_loop fuel cs e d acc =
  option_map (app acc) (Bars.chunks_loop fuel cs e d []).
Proof.
  induction fuel as [|fuel IH]; intros cs e d acc; simpl.
  - destruct (cs <? e); simpl; [reflexivity | now rewrite app_nil_r].
  - destruct (cs <? e); simpl; [| now rewrite app_nil_r].
    rewrite IH.
    rewrite (IH _ _ _ [(cs, Z.min (cs + d) e)]).
    destruct (Bars.chunks_loop fuel _ e d []) as [rs|]; simpl; [|reflexivity].
    now rewrite <- app_assoc.
Qed.

Lemma chunks_loop_step fuel cs e d :
  cs < e ->
  Bars.chunks_loop (S fuel) cs e d [] =
  option_map (cons (cs, Z.min (cs + d) e))
    (Bars.chunks_loop fuel (Z.min (cs + d) e + minutes 1) e d []).
Proof.
  intros Hlt. simpl.
  apply Z.ltb_lt in Hlt. rewrite Hlt.
  now rewrite chunks_loop_acc.
Qed.

Lemma chunks_loop_done fuel cs e d acc :
  e <= cs -> Bars.chunks_loop fuel cs e d acc = Some acc.
Proof.
  intros Hle. apply Z.ltb_ge in Hle.
  destruct fuel; simpl; now rewrite Hle.
Qed.

(** Enough fuel: one unit per whole minute left, plus one. *)
Lemma chunks_loop_terminates d : 0 <= d -> forall fuel cs e,
  (Z.to_nat ((e - cs) / minute) < fuel)%nat ->
  exists rs, Bars.chunks_loop fuel cs e d [] = Some rs.
Proof.
  intros Hd. induction fuel as [|fuel IH]; intros cs e Hfuel; [lia|].
  destruct (Z.lt_ge_cases cs e) as [Hlt|Hge].
  - rewrite chunks_loop_step by assumption.
    set (cs' := Z.min (cs + d) e + minutes 1).
    assert (Hcs' : cs + minute <= cs')
      by (unfold cs'; rewrite minutes_1; unfold minute; lia).
    destruct (Z.lt_ge_cases cs' e) as [Hlt'|Hge'].
    + destruct (IH cs' e) as [rs Hrs].
      * assert ((e - cs') / minute < (e - cs) / minute).
        { unfold minute in *. Z.div_mod_to_equations. lia. }
        assert (0 <= (e - cs') / minute).
        { apply Z.div_pos; unfold minute; lia. }
        lia.
      * exists ((cs, Z.min (cs + d) e) :: rs). now rewrite Hrs.
    + exists [(cs, Z.min (cs + d) e)].
      now rewrite chunks_loop_done.
  - exists []. now apply chunks_loop_done.
Qed.

(** More fuel than needed changes nothing. *)
Lemma chunks_loop_fuel_mono fuel : forall cs e d rs,
  Bars.chunks_loop fuel cs e d [] = Some rs ->
  forall k, Bars.chunks_loop (fuel + k) cs e d [] = Some rs.
Proof.
  induction fuel as [|fuel IH]; intros cs e d rs H k.
  - simpl in H. destruct (cs <? e) eqn:E; [discriminate|].
    apply Z.ltb_ge in E. inversion H; subst. now apply chunks_loop_done.
  - destruct (Z.lt_ge_cases cs e) as [Hlt|Hge].
    + rewrite chunks_loop_step in H by assumption.
      change (S fuel + k)%nat with (S (fuel + k)).
      rewrite chunks_loop_step by assumption.
      destruct (Bars.chunks_loop fuel _ e d []) as [rs'|] eqn:E; [|discriminate].
      now rewrite (IH _ _ _ _ E k).
    + rewrite chunks_loop_done in H by assumption.
      now rewrite chunks_loop_done.
Qed.

Section ChunksLoop.

Variables (start_date end_date : datetime) (n : Z).
Hypothesis n_nonneg : 0 <= n.

Let d := minutes n.

(** What the loop builds from a [current_start] on the minute grid of
    [start_date]. *)
Lemma chunks_loop_shape fuel : forall cs j rs,
  cs = start_date + minutes j ->
  Bars.chunks_loop fuel cs end_date d [] = Some rs ->
  Forall (fun r => cs <= fst r /\ fst r <= snd r /\ snd r <= end_date) rs /\
  (cs < end_date -> exists e rest, rs = (cs, e) :: rest) /\
  chain (fun r1 r2 => fst r2 = snd r1 + minutes 1) rs /\
  (forall m, cs <= start_date + minutes m < end_date ->
             covered (start_date + minutes m) rs).
Proof.
  assert (Hd : 0 <= d) by (apply minutes_nonneg; exact n_nonneg).
  induction fuel as [|fuel IH]; intros cs j rs Hcs H.
  - simpl in H. destruct (cs <? end_date) eqn:E; [discriminate|].
    apply Z.ltb_ge in E. inversion H; subst rs.
    repeat split; try constructor; simpl; auto; intros; lia.
  - destruct (Z.lt_ge_cases cs end_date) as [Hlt|Hge].
    + rewrite chunks_loop_step in H by assumption.
      set (ce := Z.min (cs + d) end_date) in *.
      destruct (Bars.chunks_loop fuel (ce + minutes 1) end_date d []) as [rs'|] eqn:E;
        [|discriminate].
      simpl in H. inversion H; subst rs. clear H.
      assert (Hce : cs <= ce /\ ce <= end_date) by (unfold ce; lia).
      assert (Hmin : 0 < minutes 1) by (rewrite minutes_1; unfold minute; lia).
      destruct (Z.lt_ge_cases (cs + d) end_date) as [Hfull|Hclip].
      * (* a full chunk: the next start is again on the grid *)
        assert (Ece : ce = cs + d) by (unfold ce; lia).
        destruct (IH (ce + minutes 1) (j + n + 1) rs') as (HF & Hhd & Hch & Hcov).
        { rewrite Ece, Hcs. unfold d. rewrite !minutes_add. lia. }
        { exact E. }
        repeat split.
        -- constructor; [simpl; lia|].
           eapply Forall_impl; [|exact HF]. simpl. intros r Hr. lia.
        -- intros _. eauto.
        -- destruct rs' as [|r2 rs'']; [exact I|].
           apply chain_cons. split; [|exact Hch].
           destruct (Z.lt_ge_cases (ce + minutes 1) end_date) as [Hl|Hg].
           ++ destruct (Hhd Hl) as (e2 & rest & Heq). inversion Heq; subst. reflexivity.
           ++ rewrite chunks_loop_done in E by lia. discriminate.
        -- intros m Hm.
           destruct (Z.le_gt_cases (start_date + minutes m) ce) as [Hin|Hout].
           ++ apply Exists_cons_hd. unfold in_range. simpl. lia.
           ++ apply Exists_cons_tl. apply Hcov.
              split; [|lia].
              assert (j + n < m).
              { rewrite Ece, Hcs in Hout. unfold d, minutes, minute in Hout. lia. }
              rewrite Ece, Hcs. unfold d, minutes, minute. lia.
      * (* the clipped chunk ends the loop *)
        assert (Ece : ce = end_date) by (unfold ce; lia).
        rewrite chunks_loop_done in E by lia. inversion E; subst rs'.
        repeat split.
        -- constructor; [simpl; lia|constructor].
        -- intros _. eauto.
        -- intros m Hm. apply Exists_cons_hd. unfold in_range. simpl. lia.
    + rewrite chunks_loop_done in H by assumption. inversion H; subst rs.
      repeat split; try constructor; simpl; auto; intros; lia.
Qed.

End ChunksLoop.

(** A range whose exact length is at most [max_bars] minutes has at most
    [max_bars] whole minutes. *)
Lemma total_minutes_le start_date end_date max_bars :
  end_date - start_date <= minutes max_bars ->
  Bars.total_minutes start_date end_date <= max_bars.
Proof.
  intros H. unfold Bars.total_minutes.
  replace max_bars with (Z.quot (minutes max_bars) minute).
  - apply Z.quot_le_mono; [unfold minute; lia | exact H].
  - unfold minutes. apply Z.quot_mul. unfold minute. lia.
Qed.

Lemma calculate_chunks_small fuel start_date end_date max_bars :
  Bars.total_minutes start_date end_date <= max_bars ->
  Bars.calculate_chunks fuel start_date end_date max_bars =
  Some [(start_date, end_date)].
Proof.
  intros H. unfold Bars.calculate_chunks.
  apply Z.leb_le in H. now rewrite H.
Qed.

Lemma calculate_chunks_large fuel start_date end_date max_bars :
  max_bars < Bars.total_minutes start_date end_date ->
  Bars.calculate_chunks fuel start_date end_date max_bars =
  Bars.chunks_loop fuel start_date end_date
    (minutes (Bars.chunk_minutes max_bars)) [].
Proof.
  intros H. unfold Bars.calculate_chunks.
  apply Z.leb_gt in H. now rewrite H.
Qed.

(** With a maximum that is not negative the planner returns, given
    [chunks_fuel] units of fuel or more. *)
Lemma calculate_chunks_returns start_date end_date max_bars k :
  0 <= max_bars ->
  exists rs,
    Bars.calculate_chunks (Bars.chunks_fuel start_date end_date + k)
      start_date end_date max_bars = Some rs.
Proof.
  intros HM.
  destruct (Z.le_gt_cases (Bars.total_minutes start_date end_date) max_bars)
    as [Hs|Hl].
  - eexists. now apply calculate_chunks_small.
  - rewrite calculate_chunks_large by lia.
    destruct (chunks_loop_terminates (minutes (Bars.chunk_minutes max_bars))
                (minutes_nonneg _ (chunk_minutes_nonneg _ HM))
                (Bars.chunks_fuel start_date end_date) start_date end_date)
      as [rs Hrs].
    + unfold Bars.chunks_fuel. lia.
    + exists rs. now apply chunks_loop_fuel_mono.
Qed.

(** C1, as the code has it: for [start_date < end_date] and a maximum that
    is not negative, [calculate_chunks] returns a non-empty list of
    sub-ranges that begins at [start_date]; every sub-range runs forward
    inside [start_date, end_date]; each next sub-range begins exactly one
    minute after the one before it ends (ordered, disjoint, one minute
    apart); and every instant [start_date + m] minutes that is strictly
    before [end_date] lies in a sub-range. *)
Theorem calculate_chunks_plan (start_date end_date max_bars : Z) (k : nat) :
  start_date < end_date -> 0 <= max_bars ->
  exists rs,
    Bars.calculate_chunks (Bars.chunks_fuel start_date end_date + k)
      start_date end_date max_bars = Some rs /\
    (exists e rest, rs = (start_date, e) :: rest) /\
    Forall (fun r => start_date <= fst r /\ fst r <= snd r /\
                     snd r <= end_date) rs /\
    chain (fun r1 r2 => fst r2 = snd r1 + minutes 1) rs /\
    (forall m, 0 <= m -> start_date + minutes m < end_date ->
               covered (start_date + minutes m) rs).
Proof.
  intros Hlt HM.
  destruct (calculate_chunks_returns start_date end_date max_bars k HM)
    as [rs Hrs].
  exists rs. split; [exact Hrs|].
  destruct (Z.le_gt_cases (Bars.total_minutes start_date end_date) max_bars)
    as [Hs|Hl].
  - rewrite calculate_chunks_small in Hrs by assumption.
    inversion Hrs; subst rs. repeat split.
    + eauto.
    + constructor; [simpl; lia|constructor].
    + intros m Hm Hme. apply Exists_cons_hd. unfold in_range. simpl.
      pose proof (minutes_nonneg m Hm). lia.
  - rewrite calculate_chunks_large in Hrs by lia.
    destruct (chunks_loop_shape start_date end_date
                (Bars.chunk_minutes max_bars) (chunk_minutes_nonneg _ HM)
                (Bars.chunks_fuel start_date end_date + k)%nat
                start_date 0 rs) as (HF & Hhd & Hch & Hcov).
    + unfold minutes. lia.
    + exact Hrs.
    + repeat split.
      * apply Hhd. exact Hlt.
      * exact HF.
      * exact Hch.
      * intros m Hm Hme. apply Hcov.
        pose proof (minutes_nonneg m Hm). lia.
Qed.

Lemma calculate_chunks_plan_witness :
  exists rs,
    Bars.calculate_chunks (Bars.chunks_fuel 0 (minutes 25) + 0)
      0 (minutes 25) 10 = Some rs /\
    (exists e rest, rs = (0, e) :: rest) /\
    Forall (fun r => 0 <= fst r /\ fst r <= snd r /\
                     snd r <= minutes 25) rs /\
    chain (fun r1 r2 => fst r2 = snd r1 + minutes 1) rs /\
    (forall m, 0 <= m -> 0 + minutes m < minutes 25 ->
               covered (0 + minutes m) rs).
Proof.
  apply (calculate_chunks_plan 0 (minutes 25) 10 0); unfold minutes, minute; lia.
Defined.

(** C1 as the specification words it fails: with a maximum of 10 bars the
    25 minutes from 0 are planned as [0,9], [10,19], [20,25] (minutes); the
    second sub-range does not begin where the first ends, and the instant
    9 min 30 s of the requested range is in no sub-range. *)
Lemma calculate_chunks_not_contiguous :
  Bars.calculate_chunks 3 0 (minutes 25) 10 =
    Some [(0, minutes 9); (minutes 10, minutes 19); (minutes 20, minutes 25)] /\
  ~ spec_contiguous
      [(0, minutes 9); (minutes 10, minutes 19); (minutes 20, minutes 25)] /\
  ~ spec_union 0 (minutes 25)
      [(0, minutes 9); (minutes 10, minutes 19); (minutes 20, minutes 25)] /\
  ~ spec_chunk_plan 0 (minutes 25)
      [(0, minutes 9); (minutes 10, minutes 19); (minutes 20, minutes 25)].
Proof.
  assert (Hc : ~ spec_contiguous
      [(0, minutes 9); (minutes 10, minutes 19); (minutes 20, minutes 25)]).
  { unfold spec_contiguous. simpl. intros [H _]. vm_compute in H. discriminate. }
  assert (Hu : ~ spec_union 0 (minutes 25)
      [(0, minutes 9); (minutes 10, minutes 19); (minutes 20, minutes 25)]).
  { intros H. specialize (H 570000000).
    assert (Hin : 0 <= 570000000 <= minutes 25) by (vm_compute; split; discriminate).
    apply H in Hin. apply coveredb_spec in Hin. vm_compute in Hin. discriminate. }
  split; [reflexivity|]. split; [exact Hc|]. split; [exact Hu|].
  intros (_ & H & _). exact (Hc H).
Qed.

(** When the range is a whole number of steps long the loop stops with
    [current_start = end_date]: the last sub-range ends one minute short and
    the end of the range is requested by no sub-range. *)
Remark calculate_chunks_stops_short :
  Bars.calculate_chunks 2 0 (minutes 20) 10 =
    Some [(0, minutes 9); (minutes 10, minutes 19)] /\
  coveredb (minutes 20) [(0, minutes 9); (minutes 10, minutes 19)] = false.
Proof. split; reflexivity. Qed.

(** A negative maximum makes the step negative: the loop walks away from
    [end_date] and no amount of fuel lets it return. *)
Remark calculate_chunks_negative_max fuel :
  Bars.calculate_chunks fuel 0 (minutes 20) (-10) = None.
Proof.
  rewrite calculate_chunks_large by (vm_compute; reflexivity).
  change (minutes (Bars.chunk_minutes (-10))) with (- minutes 9).
  assert (H : forall e d, 0 < e -> d + minutes 1 <= 0 -> forall cs acc, cs <= 0 ->
            Bars.chunks_loop fuel cs e d acc = None).
  { intros e d He Hd.
    induction fuel as [|fuel IH]; intros cs acc Hcs; simpl;
      (assert (E : (cs <? e) = true) by (apply Z.ltb_lt; lia)); rewrite E.
    - reflexivity.
    - apply IH. unfold minutes, minute in *. lia. }
  apply H; vm_compute; congruence.
Qed.

(** C2: when the maximum is at least the size of the range in minutes (as
    the code counts them, in whole minutes, or exactly), the planner returns
    the range itself as the only chunk, whatever the fuel. *)
Theorem calculate_chunks_single (fuel : nat) (start_date end_date max_bars : Z) :
  Bars.total_minutes start_date end_date <= max_bars \/
  end_date - start_date <= minutes max_bars ->
  Bars.calculate_chunks fuel start_date end_date max_bars =
  Some [(start_date, end_date)].
Proof.
  intros [H|H]; apply calculate_chunks_small; [exact H|].
  now apply total_minutes_le.
Qed.

Lemma calculate_chunks_single_witness :
  Bars.calculate_chunks 0 0 (minutes 10) 10 = Some [(0, minutes 10)].
Proof.
  apply (calculate_chunks_single 0 0 (minutes 10) 10).
  left. vm_compute. discriminate.
Defined.

(** ** The batch loop of the tick pipeline *)

Lemma with_downloaded_ticks_same o :
  with_downloaded_ticks o (Ticks.downloaded_ticks o) = o.
Proof. now destruct o. Qed.

Lemma get_ticks_by_date_range_run env a b w :
  Ticks.get_ticks_by_date_range env a b w =
  (Return match copy_ticks_range env (Ticks.symbol (Ticks.self w)) a b with
          | Rows l => Some l
          | NoData => None
          | ApiError => None
          end,
   {| Ticks.self := Ticks.self w;
      Ticks.io := Ticks.io w ++ [CopyTicks (Ticks.symbol (Ticks.self w)) a b] |}).
Proof.
  unfold Ticks.get_ticks_by_date_range, Ticks.mt5_copy_ticks_range,
    try_except, bind, Ticks.get_self, Ticks.emit, ret, raise.
  simpl.
  destruct (copy_ticks_range env (Ticks.symbol (Ticks.self w)) a b); reflexivity.
Qed.

Lemma batch_plan_step fuel start_date ce :
  start_date < ce ->
  batch_plan (S fuel) start_date ce =
  if Z.max start_date (ce - day) <=? start_date
  then Some [(Z.max start_date (ce - day), ce)]
  else option_map (cons (Z.max start_date (ce - day), ce))
         (batch_plan fuel start_date (Z.max start_date (ce - day))).
Proof.
  intros H. simpl.
  assert (E : (ce >? start_date) = true) by (apply Z.gtb_lt; lia).
  rewrite E. change 86400000000 with day.
  destruct (ce - day <? start_date) eqn:E'.
  - apply Z.ltb_lt in E'. now rewrite Z.max_l by lia.
  - apply Z.ltb_ge in E'. now rewrite Z.max_r by lia.
Qed.

Lemma batch_plan_done fuel start_date ce :
  ce <= start_date -> batch_plan fuel start_date ce = Some [].
Proof.
  intros H.
  assert (E : (ce >? start_date) = false).
  { rewrite Z.gtb_ltb. apply Z.ltb_ge. lia. }
  destruct fuel; simpl; now rewrite E.
Qed.

Lemma batches_loop_done fuel env ce bn acc w :
  ce <= Ticks.start_date (Ticks.self w) ->
  Ticks.batches_loop fuel env ce bn acc w = (Return acc, w).
Proof.
  intros H.
  assert (E : (ce >? Ticks.start_date (Ticks.self w)) = false).
  { rewrite Z.gtb_ltb. apply Z.ltb_ge. lia. }
  destruct fuel; simpl; unfold bind, Ticks.get_self; rewrite E; reflexivity.
Qed.

(** One iteration of the loop. *)
Lemma batches_loop_step fuel env ce bn acc w :
  Ticks.start_date (Ticks.self w) < ce ->
  Ticks.batches_loop (S fuel) env ce bn acc w =
  let o := Ticks.self w in
  let bs := Z.max (Ticks.start_date o) (ce - day) in
  let resp := copy_ticks_range env (Ticks.symbol o) bs ce in
  let w' :=
    {| Ticks.self :=
         with_downloaded_ticks o
           (Ticks.downloaded_ticks o + count_rows (kept resp));
       Ticks.io := Ticks.io w ++ [CopyTicks (Ticks.symbol o) bs ce; Sleep] |} in
  if bs <=? Ticks.start_date o then (Return (acc ++ kept resp), w')
  else Ticks.batches_loop fuel env bs (bn + 1) (acc ++ kept resp) w'.
Proof.
  intros H.
  assert (E : (ce >? Ticks.start_date (Ticks.self w)) = true)
    by (apply Z.gtb_lt; lia).
  destruct w as [o tr]. simpl in *.
  unfold bind at 1. unfold Ticks.get_self at 1. simpl. rewrite E.
  change 86400000000 with day.
  unfold bind at 1. rewrite get_ticks_by_date_range_run. simpl.
  assert (Hdl : forall n, Ticks.downloaded_ticks o + (n + 0) =
                          Ticks.downloaded_ticks o + n) by (intros; lia).
  destruct (ce - day <? Ticks.start_date o) eqn:E';
    [ apply Z.ltb_lt in E'; rewrite Z.max_l by lia
    | apply Z.ltb_ge in E'; rewrite Z.max_r by lia ];
    (destruct (copy_ticks_range env (Ticks.symbol o) _ ce) as [l| |];
     [ destruct (nonempty l) eqn:En | | ]);
    unfold kept; rewrite ?En;
    unfold bind, ret, Ticks.emit, Ticks.get_self, Ticks.set_downloaded_ticks;
    simpl; rewrite ?Hdl, ?Z.add_0_r, ?app_nil_r, <- ?app_assoc; simpl;
    match goal with |- context [?a <=? ?b] => destruct (a <=? b) end;
    rewrite ?with_downloaded_ticks_same; reflexivity.
Qed.

Lemma count_rows_app l1 l2 : count_rows (l1 ++ l2) = count_rows l1 + count_rows l2.
Proof.
  induction l1 as [|x l1 IH]; simpl; [reflexivity|]. rewrite IH. lia.
Qed.

Lemma with_downloaded_ticks_twice o a b :
  with_downloaded_ticks (with_downloaded_ticks o a) b = with_downloaded_ticks o b.
Proof. reflexivity. Qed.

(** The loop does what its plan says: it asks for the sub-ranges of the plan
    in order, keeps the non-empty answers in that order and counts their
    rows. *)
Lemma batches_loop_run env fuel : forall ce bn acc w rs,
  batch_plan fuel (Ticks.start_date (Ticks.self w)) ce = Some rs ->
  Ticks.batches_loop fuel env ce bn acc w =
  (Return (acc ++ batch_data env (Ticks.symbol (Ticks.self w)) rs),
   {| Ticks.self :=
        with_downloaded_ticks (Ticks.self w)
          (Ticks.downloaded_ticks (Ticks.self w) +
           count_rows (batch_data env (Ticks.symbol (Ticks.self w)) rs));
      Ticks.io := Ticks.io w ++ batch_events (Ticks.symbol (Ticks.self w)) rs |}).
Proof.
  induction fuel as [|fuel IH]; intros ce bn acc w rs Hplan.
  - destruct (Z.lt_ge_cases (Ticks.start_date (Ticks.self w)) ce) as [Hlt|Hge].
    + simpl in Hplan.
      assert (E : (ce >? Ticks.start_date (Ticks.self w)) = true)
        by (apply Z.gtb_lt; lia).
      rewrite E in Hplan. discriminate.
    + rewrite batch_plan_done in Hplan by lia. inversion Hplan; subst rs.
      rewrite batches_loop_done by lia. simpl.
      rewrite !app_nil_r, Z.add_0_r, with_downloaded_ticks_same.
      now destruct w.
  - destruct (Z.lt_ge_cases (Ticks.start_date (Ticks.self w)) ce) as [Hlt|Hge].
    + rewrite batch_plan_step in Hplan by assumption.
      rewrite batches_loop_step by assumption. cbv zeta.
      destruct (Z.max (Ticks.start_date (Ticks.self w)) (ce - day)
                <=? Ticks.start_date (Ticks.self w)) eqn:Ebs.
      * inversion Hplan; subst rs. unfold batch_data, batch_events. simpl.
        now rewrite !app_nil_r.
      * destruct (batch_plan fuel _ _) as [rs'|] eqn:Erec; [|discriminate].
        simpl in Hplan. inversion Hplan; subst rs.
        rewrite (IH _ _ _ _ rs') by exact Erec.
        unfold batch_data, batch_events. simpl.
        rewrite with_downloaded_ticks_twice.
        rewrite <- !app_assoc, count_rows_app, Z.add_assoc. reflexivity.
    + rewrite batch_plan_done in Hplan by lia. inversion Hplan; subst rs.
      rewrite batches_loop_done by lia. simpl.
      rewrite !app_nil_r, Z.add_0_r, with_downloaded_ticks_same.
      now destruct w.
Qed.

(** One unit of fuel per day of the range, plus one, is enough. *)
Lemma batch_plan_terminates start_date : forall fuel ce,
  (Z.to_nat ((ce - start_date) / day) < fuel)%nat ->
  exists rs, batch_plan fuel start_date ce = Some rs.
Proof.
  induction fuel as [|fuel IH]; intros ce Hfuel; [lia|].
  destruct (Z.lt_ge_cases start_date ce) as [Hlt|Hge].
  - rewrite batch_plan_step by assumption.
    destruct (Z.max start_date (ce - day) <=? start_date) eqn:E; [eauto|].
    apply Z.leb_gt in E.
    destruct (IH (Z.max start_date (ce - day))) as [rs Hrs].
    + rewrite Z.max_r by lia.
      assert ((ce - day - start_date) / day < (ce - start_date) / day).
      { unfold day in *. Z.div_mod_to_equations. lia. }
      assert (0 <= (ce - day - start_date) / day).
      { apply Z.div_pos; unfold day in *; lia. }
      lia.
    + rewrite Hrs. simpl. eauto.
  - exists []. now apply batch_plan_done.
Qed.

Lemma batch_plan_fuel_mono start_date fuel : forall ce rs,
  batch_plan fuel start_date ce = Some rs ->
  forall k, batch_plan (fuel + k) start_date ce = Some rs.
Proof.
  induction fuel as [|fuel IH]; intros ce rs H k.
  - destruct (Z.lt_ge_cases start_date ce) as [Hlt|Hge].
    + simpl in H.
      assert (E : (ce >? start_date) = true) by (apply Z.gtb_lt; lia).
      rewrite E in H. discriminate.
    + rewrite batch_plan_done in H by lia. rewrite batch_plan_done by lia.
      exact H.
  - destruct (Z.lt_ge_cases start_date ce) as [Hlt|Hge].
    + change (S fuel + k)%nat with (S (fuel + k)).
      rewrite batch_plan_step in * by assumption.
      destruct (Z.max start_date (ce - day) <=? start_date); [exact H|].
      destruct (batch_plan fuel _ _) as [rs'|] eqn:E; [|discriminate].
      now rewrite (IH _ _ E k).
    + rewrite batch_plan_done in H by lia. rewrite batch_plan_done by lia.
      exact H.
Qed.

Lemma batch_plan_returns start_date end_date k :
  exists rs,
    batch_plan (Ticks.batches_fuel start_date end_date + k) start_date end_date
    = Some rs.
Proof.
  destruct (batch_plan_terminates start_date
              (Ticks.batches_fuel start_date end_date) end_date) as [rs Hrs].
  - unfold Ticks.batches_fuel. lia.
  - exists rs. now apply batch_plan_fuel_mono.
Qed.

Lemma walks_back_nil start_date ce :
  ce <= start_date -> walks_back start_date ce [].
Proof.
  intros Hge. unfold walks_back.
  split; [constructor|]. split; [exact I|].
  split; [intros; lia|]. split; [intros; lia|].
  split; [|reflexivity].
  intros t. split; [intros Hc; inversion Hc | intros; lia].
Qed.

Lemma covered_cons t r rs : covered t (r :: rs) <-> in_range t r \/ covered t rs.
Proof. unfold covered. apply Exists_cons. Qed.

Lemma covered_nil t : ~ covered t [].
Proof. intros H. inversion H. Qed.

Lemma batch_plan_shape start_date fuel : forall ce rs,
  batch_plan fuel start_date ce = Some rs -> walks_back start_date ce rs.
Proof.
  induction fuel as [|fuel IH]; intros ce rs H.
  - destruct (Z.lt_ge_cases start_date ce) as [Hlt|Hge].
    + simpl in H.
      assert (E : (ce >? start_date) = true) by (apply Z.gtb_lt; lia).
      rewrite E in H. discriminate.
    + rewrite batch_plan_done in H by lia. inversion H; subst rs.
      apply walks_back_nil. lia.
  - destruct (Z.lt_ge_cases start_date ce) as [Hlt|Hge].
    + rewrite batch_plan_step in H by assumption.
      set (bs := Z.max start_date (ce - day)) in *.
      assert (Hday : 0 < day) by (unfold day; lia).
      assert (Hbs : start_date <= bs /\ bs < ce) by (unfold bs; lia).
      destruct (bs <=? start_date) eqn:E.
      * apply Z.leb_le in E. inversion H; subst rs.
        assert (Ebs : bs = start_date) by lia.
        unfold walks_back.
        split; [constructor; [simpl; fold bs; lia|constructor]|].
        split; [exact I|].
        split; [eauto|].
        split; [intros _; exists [], ce; now rewrite Ebs|].
        split; [|intros; lia].
        intros t. rewrite covered_cons. unfold in_range. simpl.
        pose proof (covered_nil t). intuition lia.
      * apply Z.leb_gt in E.
        destruct (batch_plan fuel start_date bs) as [rs'|] eqn:Erec;
          [|discriminate].
        simpl in H. inversion H; subst rs. clear H.
        destruct (IH bs rs' Erec) as (HF & Hch & Hhd & Hlast & Hcov & _).
        unfold walks_back.
        split.
        { constructor; [simpl; fold bs; lia|].
          eapply Forall_impl; [|exact HF]. simpl. intros r Hr. lia. }
        split.
        { destruct (Hhd E) as (a & rest & Heq). subst rs'.
          apply chain_cons. split; [reflexivity|exact Hch]. }
        split; [eauto|].
        split.
        { intros _. destruct (Hlast E) as (init & b & Heq). subst rs'.
          exists ((bs, ce) :: init), b. reflexivity. }
        split; [|intros; lia].
        intros t. rewrite covered_cons, Hcov. unfold in_range. simpl. lia.
    + rewrite batch_plan_done in H by lia. inversion H; subst rs.
      apply walks_back_nil. lia.
Qed.

Lemma download_in_batches_run env fuel w rs :
  batch_plan fuel (Ticks.start_date (Ticks.self w)) (Ticks.end_date (Ticks.self w))
    = Some rs ->
  Ticks.download_in_batches fuel env w =
  let o := Ticks.self w in
  let data := batch_data env (Ticks.symbol o) rs in
  let o' := with_downloaded_ticks o (Ticks.downloaded_ticks o + count_rows data) in
  let tr' := Ticks.io w ++ batch_events (Ticks.symbol o) rs in
  match data with
  | [] => (Return false, {| Ticks.self := o'; Ticks.io := tr' |})
  | _ :: _ =>
      (Return true,
       {| Ticks.self := with_all_ticks o' (Some (List.concat data));
          Ticks.io := tr' |})
  end.
Proof.
  intros Hplan. unfold Ticks.download_in_batches.
  unfold bind at 1. unfold Ticks.get_self at 1.
  unfold bind at 1.
  rewrite (batches_loop_run env fuel _ 0 [] w rs Hplan).
  cbv zeta. simpl app.
  destruct (batch_data env (Ticks.symbol (Ticks.self w)) rs) as [|d data];
    reflexivity.
Qed.

(** ** The fetch loop of the bar pipeline *)

Lemma download_chunk_run env symbol timeframe a b tr :
  Bars.download_chunk env symbol timeframe a b tr =
  (Return match copy_rates_range env symbol timeframe a b with
          | Rows [] => None
          | Rows (r :: l) => Some (r :: l)
          | NoData => None
          | ApiError => None
          end,
   tr ++ [CopyRates symbol timeframe a b]).
Proof.
  unfold Bars.download_chunk, Bars.mt5_copy_rates_range, try_except, bind,
    Bars.emit, ret, raise.
  destruct (copy_rates_range env symbol timeframe a b) as [[|r l]| |];
    reflexivity.
Qed.

Lemma fetch_chunks_run env symbol timeframe : forall chunks acc tr,
  Bars.fetch_chunks env symbol timeframe chunks acc tr =
  (Return (acc ++ chunk_data env symbol timeframe chunks),
   tr ++ chunk_events symbol timeframe chunks).
Proof.
  induction chunks as [|[a b] chunks IH]; intros acc tr.
  - simpl. unfold ret. now rewrite !app_nil_r.
  - simpl. unfold bind at 1. rewrite download_chunk_run.
    unfold bind at 1. unfold Bars.emit at 1.
    rewrite IH. unfold chunk_data, chunk_events. simpl.
    rewrite <- !app_assoc. simpl.
    destruct (copy_rates_range env symbol timeframe a b) as [[|r l]| |];
      simpl; rewrite ?app_nil_r, <- ?app_assoc; reflexivity.
Qed.

(** ** Traces *)

Lemma tick_requests_app tr1 tr2 :
  tick_requests (tr1 ++ tr2) = tick_requests tr1 ++ tick_requests tr2.
Proof. apply flat_map_app. Qed.

Lemma files_written_app tr1 tr2 :
  files_written (tr1 ++ tr2) = files_written tr1 ++ files_written tr2.
Proof. apply flat_map_app. Qed.

Lemma session_after_app env o tr1 tr2 :
  session_after env o (tr1 ++ tr2) =
  session_after env (session_after env o tr1) tr2.
Proof. apply fold_left_app. Qed.

Lemma tick_requests_batch_events symbol rs :
  tick_requests (batch_events symbol rs) = rs.
Proof.
  induction rs as [|[a b] rs IH]; simpl; [reflexivity|]. now rewrite IH.
Qed.

Lemma files_written_batch_events symbol rs :
  files_written (batch_events symbol rs) = [].
Proof.
  induction rs as [|[a b] rs IH]; simpl; [reflexivity|]. exact IH.
Qed.

Lemma session_after_batch_events env o symbol rs :
  session_after env o (batch_events symbol rs) = o.
Proof.
  revert o. induction rs as [|[a b] rs IH]; intros o; simpl; [reflexivity|].
  apply IH.
Qed.

Lemma rate_requests_chunk_events symbol timeframe rs :
  rate_requests (chunk_events symbol timeframe rs) = rs.
Proof.
  induction rs as [|[a b] rs IH]; simpl; [reflexivity|]. now rewrite IH.
Qed.

Lemma files_written_chunk_events symbol timeframe rs :
  files_written (chunk_events symbol timeframe rs) = [].
Proof.
  induction rs as [|[a b] rs IH]; simpl; [reflexivity|]. exact IH.
Qed.

Lemma session_after_chunk_events env o symbol timeframe rs :
  session_after env o (chunk_events symbol timeframe rs) = o.
Proof.
  revert o. induction rs as [|[a b] rs IH]; intros o; simpl; [reflexivity|].
  apply IH.
Qed.

(** ** The sub-ranges the tick pipeline fetches *)

(** C3, as the code has it: when [start_date < end_date] the batch loop
    returns, and the sub-ranges it fetched, in the order of the calls, walk
    back from the end date to the start date: the first ends at the end
    date, every one runs forward, each next one ends exactly where the one
    before it begins (so they come in decreasing order), the last begins at
    the start date, and their union is the requested range. *)
Theorem download_in_batches_walks_back (env : environment) (w : Ticks.world)
    (k : nat) :
  Ticks.start_date (Ticks.self w) < Ticks.end_date (Ticks.self w) ->
  exists ok w' evs,
    Ticks.download_in_batches
      (Ticks.batches_fuel (Ticks.start_date (Ticks.self w))
         (Ticks.end_date (Ticks.self w)) + k) env w = (Return ok, w') /\
    Ticks.io w' = Ticks.io w ++ evs /\
    (exists a rest,
        tick_requests evs = (a, Ticks.end_date (Ticks.self w)) :: rest) /\
    Forall (fun r => fst r < snd r) (tick_requests evs) /\
    chain (fun r1 r2 => snd r2 = fst r1 /\ fst r2 < fst r1) (tick_requests evs) /\
    (exists init b,
        tick_requests evs = init ++ [(Ticks.start_date (Ticks.self w), b)]) /\
    spec_union (Ticks.start_date (Ticks.self w)) (Ticks.end_date (Ticks.self w))
      (tick_requests evs).
Proof.
  intros Hlt.
  set (s := Ticks.start_date (Ticks.self w)) in *.
  set (e := Ticks.end_date (Ticks.self w)) in *.
  destruct (batch_plan_returns s e k) as [rs Hplan].
  pose proof (batch_plan_shape _ _ _ _ Hplan) as (HF & Hch & Hhd & Hlast & Hcov & _).
  pose proof (download_in_batches_run env _ w rs Hplan) as Hrun.
  cbv zeta in Hrun.
  assert (Hgoal : forall ok w',
    Ticks.download_in_batches (Ticks.batches_fuel s e + k) env w = (Return ok, w') ->
    Ticks.io w' = Ticks.io w ++ batch_events (Ticks.symbol (Ticks.self w)) rs ->
    exists ok w' evs,
      Ticks.download_in_batches (Ticks.batches_fuel s e + k) env w = (Return ok, w') /\
      Ticks.io w' = Ticks.io w ++ evs /\
      (exists a rest, tick_requests evs = (a, e) :: rest) /\
      Forall (fun r => fst r < snd r) (tick_requests evs) /\
      chain (fun r1 r2 => snd r2 = fst r1 /\ fst r2 < fst r1) (tick_requests evs) /\
      (exists init b, tick_requests evs = init ++ [(s, b)]) /\
      spec_union s e (tick_requests evs)).
  { intros ok w' Hr Hio.
    exists ok, w', (batch_events (Ticks.symbol (Ticks.self w)) rs).
    rewrite tick_requests_batch_events.
    split; [exact Hr|]. split; [exact Hio|].
    split; [apply Hhd; exact Hlt|].
    split; [eapply Forall_impl; [|exact HF]; simpl; intros r Hr'; lia|].
    split.
    { clear - HF Hch. induction rs as [|r1 rs IH]; [exact I|].
      destruct rs as [|r2 rs]; [exact I|].
      apply chain_cons in Hch. destruct Hch as [H12 Hch].
      inversion HF as [|? ? H1 HF']; subst. inversion HF' as [|? ? H2 _]; subst.
      cbv beta in H1, H2.
      apply chain_cons. split; [split; [exact H12|lia]|].
      apply IH; assumption. }
    split; [apply Hlast; exact Hlt|].
    intros t. rewrite Hcov. lia. }
  destruct (batch_data env (Ticks.symbol (Ticks.self w)) rs);
    eapply Hgoal; try exact Hrun; reflexivity.
Qed.

Lemma download_in_batches_walks_back_witness :
  0 < days 2 /\
  exists ok w' evs,
    Ticks.download_in_batches (Ticks.batches_fuel 0 (days 2) + 0) silent_env
      (two_day_world silent_env) = (Return ok, w') /\
    Ticks.io w' = [] ++ evs /\
    (exists a rest, tick_requests evs = (a, days 2) :: rest) /\
    Forall (fun r => fst r < snd r) (tick_requests evs) /\
    chain (fun r1 r2 => snd r2 = fst r1 /\ fst r2 < fst r1) (tick_requests evs) /\
    (exists init b, tick_requests evs = init ++ [(0, b)]) /\
    spec_union 0 (days 2) (tick_requests evs).
Proof.
  split; [reflexivity|].
  apply (download_in_batches_walks_back silent_env (two_day_world silent_env) 0).
  reflexivity.
Defined.

(** C3 as the specification words it fails: over the two days from 0 the
    loop asks first for the second day and then for the first, so the
    sub-ranges do not advance from the start date. *)
Lemma download_in_batches_not_from_start :
  tick_requests
    (Ticks.io (snd (Ticks.download_in_batches 2 silent_env
                      (two_day_world silent_env))))
    = [(days 1, days 2); (0, days 1)] /\
  ~ chain (fun r1 r2 : range => fst r1 < fst r2)
      [(days 1, days 2); (0, days 1)] /\
  ~ spec_advances_from_start 0 [(days 1, days 2); (0, days 1)].
Proof.
  assert (Hc : ~ chain (fun r1 r2 : range => fst r1 < fst r2)
                   [(days 1, days 2); (0, days 1)]).
  { simpl. intros [H _]. vm_compute in H. discriminate. }
  split; [reflexivity|]. split; [exact Hc|].
  intros [_ H]. exact (Hc H).
Qed.

(** ** The tick pipeline from connection to teardown *)

Lemma initialize_mt5_run env w :
  Ticks.initialize_mt5 env w =
  let sym := Ticks.symbol (Ticks.self w) in
  if negb (mt5_initialize env) then (Return false, logged w [Initialize])
  else if negb (mt5_symbol_select env sym) then
    (Return false, logged w [Initialize; SymbolSelect sym; Shutdown])
  else (Return true, logged w [Initialize; SymbolSelect sym]).
Proof.
  unfold Ticks.initialize_mt5, bind, Ticks.get_self, Ticks.emit, ret, logged.
  simpl.
  destruct (mt5_initialize env); simpl; [|reflexivity].
  destruct (mt5_symbol_select env _); simpl; rewrite <- ?app_assoc; reflexivity.
Qed.

Lemma download_by_date_range_run env fuel w rs :
  batch_plan fuel (Ticks.start_date (Ticks.self w)) (Ticks.end_date (Ticks.self w))
    = Some rs ->
  Ticks.download_by_date_range fuel env w =
  let o := Ticks.self w in
  let sym := Ticks.symbol o in
  let s := Ticks.start_date o in
  let e := Ticks.end_date o in
  if negb (mt5_initialize env) then (Return false, logged w [Initialize])
  else if negb (mt5_symbol_select env sym) then
    (Return false, logged w [Initialize; SymbolSelect sym; Shutdown])
  else
    match kept (copy_ticks_range env sym s e) with
    | l :: _ =>
        (Return true,
         {| Ticks.self :=
              with_downloaded_ticks (with_all_ticks o (Some l))
                (Z.of_nat (List.length l));
            Ticks.io :=
              Ticks.io w ++
              [Initialize; SymbolSelect sym; CopyTicks sym s e; Shutdown] |})
    | [] =>
        let data := batch_data env sym rs in
        let o' :=
          with_downloaded_ticks o (Ticks.downloaded_ticks o + count_rows data) in
        let tr' :=
          Ticks.io w ++
          [Initialize; SymbolSelect sym; CopyTicks sym s e] ++
          batch_events sym rs ++ [Shutdown] in
        match data with
        | [] => (Return false, {| Ticks.self := o'; Ticks.io := tr' |})
        | _ :: _ =>
            (Return true,
             {| Ticks.self := with_all_ticks o' (Some (List.concat data));
                Ticks.io := tr' |})
        end
    end.
Proof.
  intros Hplan. unfold Ticks.download_by_date_range.
  unfold bind at 1. rewrite initialize_mt5_run. cbv zeta.
  destruct (mt5_initialize env); simpl negb; cbv iota; [|reflexivity].
  destruct (mt5_symbol_select env (Ticks.symbol (Ticks.self w))); simpl negb;
    cbv iota; [|reflexivity].
  unfold try_finally, try_except.
  unfold bind at 1. unfold Ticks.get_self at 1.
  unfold bind at 1. cbv beta iota delta [negb].
  rewrite get_ticks_by_date_range_run. unfold logged.
  simpl Ticks.self. simpl Ticks.io.
  set (w1 := {| Ticks.self := Ticks.self w;
                Ticks.io := (Ticks.io w ++ [Initialize; SymbolSelect (Ticks.symbol (Ticks.self w))]) ++
                            [CopyTicks (Ticks.symbol (Ticks.self w))
                               (Ticks.start_date (Ticks.self w))
                               (Ticks.end_date (Ticks.self w))] |}).
  assert (Hb : Ticks.download_in_batches fuel env w1 = _)
    by (apply (download_in_batches_run env fuel w1 rs); exact Hplan).
  cbv zeta in Hb. simpl Ticks.self in Hb. simpl Ticks.io in Hb.
  unfold kept.
  destruct (copy_ticks_range env _ _ _) as [l| |].
  - destruct (nonempty l) eqn:En.
    + unfold bind, Ticks.set_all_ticks, Ticks.set_downloaded_ticks, ret,
        Ticks.emit. simpl. rewrite <- !app_assoc. reflexivity.
    + rewrite Hb.
      destruct (batch_data env _ rs); unfold Ticks.emit; simpl;
        rewrite <- !app_assoc; reflexivity.
  - rewrite Hb.
    destruct (batch_data env _ rs); unfold Ticks.emit; simpl;
      rewrite <- !app_assoc; reflexivity.
  - rewrite Hb.
    destruct (batch_data env _ rs); unfold Ticks.emit; simpl;
      rewrite <- !app_assoc; reflexivity.
Qed.

Lemma save_ticks_to_csv_run env pd filename w :
  Ticks.save_ticks_to_csv env pd filename w =
  match Ticks.all_ticks (Ticks.self w) with
  | None => (Return None, w)
  | Some [] => (Return None, w)
  | Some (t :: ticks) =>
      let df := sort_values pd (t :: ticks) in
      let f := match filename with
               | None => Ticks.auto_filename (Ticks.symbol (Ticks.self w)) df
               | Some f => f
               end in
      (Return match to_csv env f df with
              | WriteOk => if path_exists env f then Some f else None
              | WriteError => None
              end,
       logged w [ToCsv f df])
  end.
Proof.
  unfold Ticks.save_ticks_to_csv, bind, Ticks.get_self, try_except, Ticks.emit,
    ret, raise, logged.
  destruct (Ticks.all_ticks (Ticks.self w)) as [[|t ticks]|]; try reflexivity.
  cbv zeta. simpl Z.eqb. cbv iota.
  destruct (to_csv env _ _); [|reflexivity].
  destruct (path_exists env _); reflexivity.
Qed.

Lemma batch_data_nil env symbol rs :
  Forall (fun r => kept (copy_ticks_range env symbol (fst r) (snd r)) = []) rs ->
  batch_data env symbol rs = [].
Proof.
  unfold batch_data.
  induction 1 as [|r rs Hr _ IH]; simpl; [reflexivity|].
  now rewrite Hr, IH.
Qed.

Lemma chunk_data_nil env symbol timeframe rs :
  Forall (fun r => kept (copy_rates_range env symbol timeframe (fst r) (snd r)) = [])
    rs ->
  chunk_data env symbol timeframe rs = [].
Proof.
  unfold chunk_data.
  induction 1 as [|r rs Hr _ IH]; simpl; [reflexivity|].
  now rewrite Hr, IH.
Qed.

(** Every chunk of the plan lies inside the requested range. *)
Lemma calculate_chunks_within fuel start_date end_date max_bars rs :
  0 <= max_bars ->
  Bars.calculate_chunks fuel start_date end_date max_bars = Some rs ->
  Forall (fun r => start_date <= fst r /\ snd r <= end_date) rs.
Proof.
  intros HM H.
  destruct (Z.le_gt_cases (Bars.total_minutes start_date end_date) max_bars)
    as [Hs|Hl].
  - rewrite calculate_chunks_small in H by assumption.
    inversion H; subst rs. constructor; [simpl; lia|constructor].
  - rewrite calculate_chunks_large in H by lia.
    destruct (chunks_loop_shape start_date end_date
                (Bars.chunk_minutes max_bars) (chunk_minutes_nonneg _ HM)
                fuel start_date 0 rs) as (HF & _).
    + unfold minutes. lia.
    + exact H.
    + eapply Forall_impl; [|exact HF]. simpl. intros r Hr. lia.
Qed.

Lemma download_historical_data_run fuel env pd symbol timeframe start_date
    end_date max_bars tr chunks :
  Bars.calculate_chunks fuel start_date
    match end_date with Some e => e | None => now env (List.length tr) end
    max_bars = Some chunks ->
  Bars.download_historical_data fuel env pd symbol timeframe start_date end_date
    max_bars tr =
  (Return match chunk_data env symbol timeframe chunks with
          | [] => None
          | d :: data => Some (Bars.combine pd (d :: data))
          end,
   tr ++ chunk_events symbol timeframe chunks).
Proof.
  intros Hplan. unfold Bars.download_historical_data.
  unfold bind at 1.
  assert (E : match end_date with
              | Some e => ret e
              | None => Bars.datetime_now env
              end tr =
              (Return match end_date with
                      | Some e => e
                      | None => now env (List.length tr)
                      end, tr)) by (destruct end_date; reflexivity).
  rewrite E, Hplan. unfold bind. rewrite fetch_chunks_run. simpl app.
  destruct (chunk_data env symbol timeframe chunks); reflexivity.
Qed.

Lemma save_to_csv_run env df filename tr :
  Bars.save_to_csv env df filename tr =
  (Return match to_csv env filename df with
          | WriteOk => true
          | WriteError => false
          end,
   tr ++ [ToCsv filename df]).
Proof.
  unfold Bars.save_to_csv, try_except, bind, Bars.emit, ret, raise.
  destruct (to_csv env filename df); reflexivity.
Qed.

Lemma bars_initialize_mt5_run env tr :
  Bars.initialize_mt5 env tr = (Return (mt5_initialize env), tr ++ [Initialize]).
Proof.
  unfold Bars.initialize_mt5, bind, Bars.emit, ret.
  destruct (mt5_initialize env); reflexivity.
Qed.

(** [main], given the chunks its range is planned into. *)
Lemma main_run fuel env pd tr chunks :
  Bars.calculate_chunks fuel (now env (List.length tr) - days (365 * 10))
    (now env (S (List.length tr))) 100000 = Some chunks ->
  Bars.main fuel env pd tr =
  if negb (mt5_initialize env) then (Return tt, tr ++ [Initialize])
  else
    (Return tt,
     tr ++ [Initialize] ++
     chunk_events "EURUSD" Bars.TIMEFRAME_M1 chunks ++
     match chunk_data env "EURUSD" Bars.TIMEFRAME_M1 chunks with
     | [] => []
     | d :: data => [ToCsv "EURUSD_M10_1year.csv" (Bars.combine pd (d :: data))]
     end ++ [Shutdown]).
Proof.
  intros Hplan. unfold Bars.main. cbv zeta.
  unfold bind at 1. unfold Bars.datetime_now at 1.
  unfold bind at 1. rewrite bars_initialize_mt5_run.
  destruct (mt5_initialize env); cbv beta iota delta [negb]; [|reflexivity].
  unfold try_finally, try_except. unfold bind at 1.
  rewrite (download_historical_data_run fuel env pd _ _ _ None _ _ chunks).
  - destruct (chunk_data env _ _ chunks) as [|d data].
    + unfold ret, Bars.emit. simpl. rewrite <- !app_assoc. reflexivity.
    + unfold bind. rewrite save_to_csv_run. unfold ret, Bars.emit.
      simpl. rewrite <- !app_assoc. reflexivity.
  - rewrite length_app. simpl List.length.
    replace (List.length tr + 1)%nat with (S (List.length tr)) by lia.
    exact Hplan.
Qed.

(** ** Sorting and dropping duplicates *)

Lemma insert_row_perm r l : Permutation (insert_row r l) (r :: l).
Proof.
  induction l as [|x l IH]; simpl; [reflexivity|].
  destruct (time r <=? time x); [reflexivity|].
  rewrite IH. apply perm_swap.
Qed.

Lemma insertion_sort_perm l : Permutation (insertion_sort l) l.
Proof.
  induction l as [|r l IH]; simpl; [reflexivity|].
  rewrite insert_row_perm. now constructor.
Qed.

Lemma insert_row_sorted r l :
  StronglySorted time_le l -> StronglySorted time_le (insert_row r l).
Proof.
  induction 1 as [|x l Hs IH Hx]; simpl.
  - constructor; constructor.
  - destruct (time r <=? time x) eqn:E.
    + apply Z.leb_le in E. constructor.
      * now constructor.
      * constructor; [exact E|].
        eapply Forall_impl; [|exact Hx]. unfold time_le. intros y Hy. lia.
    + apply Z.leb_gt in E. constructor; [exact IH|].
      rewrite (Forall_forall (time_le x)). intros y Hy.
      apply (Permutation_in _ (insert_row_perm r l)) in Hy.
      destruct Hy as [<-|Hy].
      * unfold time_le. lia.
      * rewrite Forall_forall in Hx. now apply Hx.
Qed.

Lemma insertion_sort_sorted l : StronglySorted time_le (insertion_sort l).
Proof.
  induction l as [|r l IH]; simpl; [constructor|].
  now apply insert_row_sorted.
Qed.

(** The contract of [sort_values] can be met. *)
Definition insertion_sorter : sort_algorithm :=
  {| sort_values := insertion_sort;
     sort_values_perm := insertion_sort_perm;
     sort_values_sorted := insertion_sort_sorted |}.

(** ** No data: failure and no file *)

Ltac files_tidy :=
  repeat first
    [ rewrite files_written_app
    | rewrite files_written_batch_events
    | rewrite files_written_chunk_events
    | rewrite app_nil_r
    | progress simpl ].

(** What follows a download in [download_ticks_by_date]: the file is saved
    and its name reported; no data is asked for any more. *)
Lemma save_and_report_run env pd output_file w :
  exists res w' evs,
    (filename <- Ticks.save_ticks_to_csv env pd output_file ;;
     match filename with
     | Some f =>
         if (f =? "")%string then ret None
         else Ticks.show_statistics ;;; ret (Some f)
     | None => ret None
     end) w = (Return res, w') /\
    Ticks.io w' = Ticks.io w ++ evs /\
    tick_requests evs = [].
Proof.
  unfold bind at 1. rewrite save_ticks_to_csv_run.
  destruct (Ticks.all_ticks (Ticks.self w)) as [[|t ticks]|].
  - exists None, w, []. now rewrite app_nil_r.
  - cbv zeta.
    set (f := match output_file with
              | Some f => f
              | None => Ticks.auto_filename _ _
              end).
    set (df := sort_values pd (t :: ticks)).
    destruct (to_csv env f df);
      [destruct (path_exists env f);
       [cbv beta iota; destruct (f =? "")%string|]|];
      (eexists _, (logged w [ToCsv f df]), [ToCsv f df];
       split; [reflexivity|]; split; reflexivity).
  - exists None, w, []. now rewrite app_nil_r.
Qed.

(** [download_by_date_range] writes no file, and succeeds only when one of
    its requests brought records. *)
Lemma download_by_date_range_no_records env w k :
  exists ok w' evs,
    Ticks.download_by_date_range
      (Ticks.batches_fuel (Ticks.start_date (Ticks.self w))
         (Ticks.end_date (Ticks.self w)) + k) env w = (Return ok, w') /\
    Ticks.io w' = Ticks.io w ++ evs /\
    files_written evs = [] /\
    (Forall (fun r => kept (copy_ticks_range env (Ticks.symbol (Ticks.self w))
                              (fst r) (snd r)) = [])
       (tick_requests evs) -> ok = false).
Proof.
  destruct (batch_plan_returns (Ticks.start_date (Ticks.self w))
              (Ticks.end_date (Ticks.self w)) k) as [rs Hplan].
  rewrite (download_by_date_range_run env _ w rs Hplan). cbv zeta.
  destruct (mt5_initialize env); simpl negb; cbv iota.
  - destruct (mt5_symbol_select env _); simpl negb; cbv iota.
    + destruct (kept (copy_ticks_range env _ _ _)) as [|l ls] eqn:Efull.
      * destruct (batch_data env _ rs) as [|d data] eqn:Edata;
          (eexists _, _, _; split; [reflexivity|]; split; [reflexivity|]);
          (split; [files_tidy; reflexivity|]); [reflexivity|].
        intros HF. simpl in HF. rewrite tick_requests_app in HF.
        rewrite tick_requests_batch_events in HF.
        apply Forall_cons_iff in HF. destruct HF as [_ HF].
        apply Forall_app in HF. destruct HF as [HF _].
        apply batch_data_nil in HF. rewrite HF in Edata. discriminate.
      * eexists _, _, _. split; [reflexivity|]. split; [reflexivity|].
        split; [reflexivity|].
        intros HF. simpl in HF. apply Forall_cons_iff in HF.
        destruct HF as [HF _]. simpl in HF. rewrite HF in Efull. discriminate.
    + eexists _, _, _. split; [reflexivity|]. split; [reflexivity|].
      split; reflexivity.
  - eexists _, _, _. split; [reflexivity|]. split; [reflexivity|].
    split; reflexivity.
Qed.

(** C4, as the code has it: with a maximum bar count that is not negative,
    each pipeline returns, and when every sub-range it asked the terminal
    for yielded zero records (the requests of the run, read off its trace:
    for the tick pipeline the whole range and the batches, for the bar
    pipeline the chunks) the tick batch loop returns [False] and leaves
    [all_ticks] unset, the tick pipeline returns [None], the bar downloader
    returns [None], and none of them, nor [main], hands a file to
    [to_csv]. *)
Theorem no_records_no_file (env : environment) (pd : sort_algorithm)
    (symbol : string) (timeframe : Z) (start_date end_date max_bars : Z)
    (k : nat) (output_file : option string) (tr : trace) :
  0 <= max_bars ->
  let fuel_t := (Ticks.batches_fuel start_date end_date + k)%nat in
  let fuel_b := (Bars.chunks_fuel start_date end_date + k)%nat in
  let w := {| Ticks.self :=
                Ticks.new_TickDownloader env tr symbol start_date
                  (Some end_date) Ticks.DEFAULT_MAX_TICKS_PER_BATCH;
              Ticks.io := tr |} in
  (exists ok w' evs,
      Ticks.download_in_batches fuel_t env w = (Return ok, w') /\
      Ticks.io w' = tr ++ evs /\
      (Forall (fun r => kept (copy_ticks_range env symbol (fst r) (snd r)) = [])
         (tick_requests evs) ->
       ok = false /\ Ticks.all_ticks (Ticks.self w') = None /\
       files_written evs = [])) /\
  (exists res w' evs,
      Ticks.download_ticks_by_date fuel_t env pd symbol start_date
        (Some end_date) output_file tr = (Return res, w') /\
      Ticks.io w' = tr ++ evs /\
      (Forall (fun r => kept (copy_ticks_range env symbol (fst r) (snd r)) = [])
         (tick_requests evs) ->
       res = None /\ files_written evs = [])) /\
  (exists res evs,
      Bars.download_historical_data fuel_b env pd symbol timeframe start_date
        (Some end_date) max_bars tr = (Return res, tr ++ evs) /\
      (Forall (fun r => kept (copy_rates_range env symbol timeframe
                                (fst r) (snd r)) = [])
         (rate_requests evs) ->
       res = None /\ files_written evs = [])) /\
  (let s := now env (List.length tr) - days (365 * 10) in
   let e := now env (S (List.length tr)) in
   exists evs,
     Bars.main (Bars.chunks_fuel s e + k) env pd tr = (Return tt, tr ++ evs) /\
     (Forall (fun r => kept (copy_rates_range env "EURUSD" Bars.TIMEFRAME_M1
                               (fst r) (snd r)) = [])
        (rate_requests evs) ->
      files_written evs = [])).
Proof.
  intros HM fuel_t fuel_b w.
  split; [|split; [|split]].
  - destruct (batch_plan_returns start_date end_date k) as [rs Hplan].
    pose proof (download_in_batches_run env fuel_t w rs Hplan) as Hrun.
    cbv zeta in Hrun. simpl Ticks.symbol in Hrun.
    destruct (batch_data env symbol rs) as [|d data] eqn:Edata.
    + eexists _, _, _. split; [exact Hrun|]. split; [reflexivity|].
      intros _. split; [reflexivity|]. split; [reflexivity|].
      apply files_written_batch_events.
    + eexists _, _, _. split; [exact Hrun|]. split; [reflexivity|].
      intros HF. rewrite tick_requests_batch_events in HF.
      apply batch_data_nil in HF. rewrite HF in Edata. discriminate.
  - unfold Ticks.download_ticks_by_date. fold w.
    destruct (download_by_date_range_no_records env w k)
      as (ok & w1 & evs & Hrun & Hio & Hfiles & Hok).
    simpl Ticks.start_date in Hrun. simpl Ticks.end_date in Hrun.
    simpl Ticks.symbol in Hok. simpl Ticks.io in Hio.
    unfold bind at 1. fold fuel_t in Hrun. rewrite Hrun.
    destruct ok.
    + destruct (save_and_report_run env pd output_file w1)
        as (res & w2 & files & Hsave & Hio2 & Hreq).
      exists res, w2, (evs ++ files).
      split; [exact Hsave|].
      split; [rewrite Hio2, Hio; now rewrite app_assoc|].
      intros HF. rewrite tick_requests_app, Hreq, app_nil_r in HF.
      specialize (Hok HF). discriminate.
    + exists None, w1, evs. split; [reflexivity|]. split; [exact Hio|].
      intros _. split; [reflexivity|exact Hfiles].
  - destruct (calculate_chunks_returns start_date end_date max_bars k HM)
      as [chunks Hchunks].
    rewrite (download_historical_data_run _ _ _ _ _ _ (Some end_date) _ _ chunks)
      by exact Hchunks.
    eexists _, _. split; [reflexivity|].
    intros HF. rewrite rate_requests_chunk_events in HF.
    apply chunk_data_nil in HF. rewrite HF.
    split; [reflexivity|apply files_written_chunk_events].
  - intros s e.
    assert (H0 : 0 <= 100000) by lia.
    destruct (calculate_chunks_returns s e 100000 k H0) as [chunks Hchunks].
    rewrite (main_run _ env pd tr chunks) by exact Hchunks.
    destruct (mt5_initialize env); simpl negb; cbv iota.
    + destruct (chunk_data env "EURUSD" Bars.TIMEFRAME_M1 chunks)
        as [|d data] eqn:Edata.
      * eexists. split; [reflexivity|]. intros _. files_tidy. reflexivity.
      * eexists. split; [reflexivity|]. intros HF.
        unfold rate_requests in HF. simpl in HF. rewrite flat_map_app in HF.
        apply Forall_app in HF. destruct HF as [HF _].
        change (flat_map _ (chunk_events "EURUSD" Bars.TIMEFRAME_M1 chunks))
          with (rate_requests (chunk_events "EURUSD" Bars.TIMEFRAME_M1 chunks))
          in HF.
        rewrite rate_requests_chunk_events in HF.
        apply chunk_data_nil in HF. rewrite HF in Edata. discriminate.
    + eexists. split; [reflexivity|]. intros _. reflexivity.
Qed.

(** A bar stamped 20 min, planned with a maximum of 10: the chunks are
    0..9 min and 10..19 min, the bar is in neither, and every chunk asked
    for is empty. *)
Lemma no_records_no_file_witness :
  0 <= 10 /\
  exists res evs,
    Bars.download_historical_data (Bars.chunks_fuel 0 (minutes 20) + 0)
      (history_env [mk_row 1200 [1]] (days 1)) insertion_sorter "EURUSD"
      Bars.TIMEFRAME_M1 0 (Some (minutes 20)) 10 [] = (Return res, [] ++ evs) /\
    (Forall (fun r => kept (copy_rates_range
                              (history_env [mk_row 1200 [1]] (days 1)) "EURUSD"
                              Bars.TIMEFRAME_M1 (fst r) (snd r)) = [])
       (rate_requests evs) ->
     res = None /\ files_written evs = []).
Proof.
  assert (H0 : 0 <= 10) by lia.
  split; [exact H0|].
  pose proof (no_records_no_file (history_env [mk_row 1200 [1]] (days 1))
                insertion_sorter "EURUSD" Bars.TIMEFRAME_M1 0 (minutes 20) 10
                0 None [] H0) as H.
  cbv zeta in H. destruct H as (_ & _ & H3 & _). exact H3.
Defined.

(** With a negative maximum the planner never hands over its list, and the
    bar downloader does not return, whatever the terminal holds. *)
Lemma no_records_negative_max_never_returns :
  0 <= minutes 20 /\
  (forall a b,
      kept (copy_rates_range silent_env "EURUSD" Bars.TIMEFRAME_M1 a b) = []) /\
  (forall fuel,
      Bars.download_historical_data fuel silent_env insertion_sorter "EURUSD"
        Bars.TIMEFRAME_M1 0 (Some (minutes 20)) (-10) [] = (Timeout, [])).
Proof.
  split; [unfold minutes, minute; lia|].
  split; [reflexivity|].
  intros fuel. unfold Bars.download_historical_data, bind, ret, timeout.
  now rewrite calculate_chunks_negative_max.
Qed.

(** The bar of 20 min is there, no chunk asks for it, and the downloader
    returns [None]. *)
Example bar_outside_chunks_run :
  Bars.download_historical_data 3 (history_env [mk_row 1200 [1]] (days 1))
    insertion_sorter "EURUSD" Bars.TIMEFRAME_M1 0 (Some (minutes 20)) 10 [] =
  (Return None,
   chunk_events "EURUSD" Bars.TIMEFRAME_M1
     [(0, minutes 9); (minutes 10, minutes 19)]) /\
  copy_rates_range (history_env [mk_row 1200 [1]] (days 1)) "EURUSD"
    Bars.TIMEFRAME_M1 0 (minutes 20) = Rows [mk_row 1200 [1]].
Proof. split; reflexivity. Qed.

(** ** Accumulating the answers *)

Lemma nonempty_true {A} (l : list A) : nonempty l = true -> l <> [].
Proof. destruct l; [discriminate|]. intros _. discriminate. Qed.

Lemma concat_kept (r : response) : List.concat (kept r) = rows_of r.
Proof.
  destruct r as [[|x l]| |]; simpl; try reflexivity.
  now rewrite app_nil_r.
Qed.

Lemma kept_nonempty (r : response) : Forall (fun l => l <> []) (kept r).
Proof.
  destruct r as [l| |]; simpl; try constructor.
  destruct (nonempty l) eqn:E; constructor; [|constructor].
  now apply nonempty_true.
Qed.

Section Kept.

Variable f : range -> response.

Lemma concat_flat_map_kept rs :
  List.concat (flat_map (fun r => kept (f r)) rs) =
  flat_map (fun r => rows_of (f r)) rs.
Proof.
  induction rs as [|r rs IH]; simpl; [reflexivity|].
  now rewrite concat_app, concat_kept, IH.
Qed.

Lemma flat_map_kept_nonempty rs :
  Forall (fun l => l <> []) (flat_map (fun r => kept (f r)) rs).
Proof.
  induction rs as [|r rs IH]; simpl; [constructor|].
  apply Forall_app. split; [apply kept_nonempty|exact IH].
Qed.

(** Nothing was kept exactly when the answers have no rows. *)
Lemma flat_map_kept_nil rs :
  flat_map (fun r => kept (f r)) rs = [] <->
  flat_map (fun r => rows_of (f r)) rs = [].
Proof.
  rewrite <- concat_flat_map_kept.
  pose proof (flat_map_kept_nonempty rs) as HF.
  destruct (flat_map (fun r => kept (f r)) rs) as [|d data].
  - simpl. tauto.
  - inversion HF as [|? ? Hd _]; subst. simpl.
    split; [discriminate|].
    destruct d; [congruence|discriminate].
Qed.

End Kept.

(** C5: in both pipelines the accumulated data is the rows of the answers,
    in the order the sub-ranges were fetched; an answer that is [None], has
    length 0 or is an exception adds nothing.  In the bar pipeline this is
    the frame before [sort_values] and [drop_duplicates]; in the tick
    pipeline it is [all_ticks]. *)
Theorem accumulated_is_nonempty_answers (env : environment)
    (pd : sort_algorithm) (symbol : string) (timeframe : Z) :
  (forall chunks acc tr,
      let rows := flat_map (fun r => rows_of (copy_rates_range env symbol
                                               timeframe (fst r) (snd r)))
                    chunks in
      exists all_data,
        Bars.fetch_chunks env symbol timeframe chunks acc tr =
          (Return (acc ++ all_data), tr ++ chunk_events symbol timeframe chunks) /\
        Forall (fun df => df <> []) all_data /\
        List.concat all_data = rows /\
        forall fuel start_date end_date max_bars,
          Bars.calculate_chunks fuel start_date end_date max_bars = Some chunks ->
          Bars.download_historical_data fuel env pd symbol timeframe start_date
            (Some end_date) max_bars tr =
          (Return match rows with
                  | [] => None
                  | _ :: _ => Some (drop_duplicates (sort_values pd rows))
                  end,
           tr ++ chunk_events symbol timeframe chunks)) /\
  (forall w k,
      exists ok w' rs,
        let rows := flat_map (fun r => rows_of (copy_ticks_range env
                                                 (Ticks.symbol (Ticks.self w))
                                                 (fst r) (snd r))) rs in
        Ticks.download_in_batches
          (Ticks.batches_fuel (Ticks.start_date (Ticks.self w))
             (Ticks.end_date (Ticks.self w)) + k) env w = (Return ok, w') /\
        Ticks.io w' =
          Ticks.io w ++ batch_events (Ticks.symbol (Ticks.self w)) rs /\
        (ok, Ticks.all_ticks (Ticks.self w')) =
        match rows with
        | [] => (false, Ticks.all_ticks (Ticks.self w))
        | _ :: _ => (true, Some rows)
        end).
Proof.
  split.
  - intros chunks acc tr rows.
    exists (chunk_data env symbol timeframe chunks).
    split; [apply fetch_chunks_run|].
    split; [apply (flat_map_kept_nonempty
                     (fun r => copy_rates_range env symbol timeframe (fst r) (snd r)))|].
    split; [apply (concat_flat_map_kept
                     (fun r => copy_rates_range env symbol timeframe (fst r) (snd r)))|].
    intros fuel start_date end_date max_bars Hplan.
    rewrite (download_historical_data_run _ _ _ _ _ _ (Some end_date) _ _ chunks)
      by exact Hplan.
    assert (Hcat : List.concat (chunk_data env symbol timeframe chunks) = rows)
      by apply (concat_flat_map_kept
                  (fun r => copy_rates_range env symbol timeframe (fst r) (snd r))).
    assert (Hnil : chunk_data env symbol timeframe chunks = [] <-> rows = [])
      by apply (flat_map_kept_nil
                  (fun r => copy_rates_range env symbol timeframe (fst r) (snd r))).
    destruct (chunk_data env symbol timeframe chunks) as [|d data] eqn:Ed.
    + rewrite (proj1 Hnil eq_refl). reflexivity.
    + unfold Bars.combine. rewrite Hcat.
      destruct rows as [|x rows']; [|reflexivity].
      destruct Hnil as [_ Hnil]. specialize (Hnil eq_refl). discriminate.
  - intros w k.
    destruct (batch_plan_returns (Ticks.start_date (Ticks.self w))
                (Ticks.end_date (Ticks.self w)) k) as [rs Hplan].
    pose proof (download_in_batches_run env _ w rs Hplan) as Hrun.
    cbv zeta in Hrun.
    clear symbol. set (symbol := Ticks.symbol (Ticks.self w)) in *.
    set (rows := flat_map (fun r : range => rows_of (copy_ticks_range env symbol
                                                        (fst r) (snd r))) rs).
    assert (Hcat : List.concat (batch_data env symbol rs) = rows)
      by apply (concat_flat_map_kept
                  (fun r => copy_ticks_range env symbol (fst r) (snd r))).
    assert (Hnil : batch_data env symbol rs = [] <-> rows = [])
      by apply (flat_map_kept_nil
                  (fun r => copy_ticks_range env symbol (fst r) (snd r))).
    destruct (batch_data env symbol rs) as [|d data] eqn:Ed.
    + eexists _, _, rs. cbv zeta.
      split; [exact Hrun|]. split; [reflexivity|].
      change (flat_map _ rs) with rows.
      rewrite (proj1 Hnil eq_refl). simpl. now destruct w as [[]].
    + eexists _, _, rs. cbv zeta.
      split; [exact Hrun|]. split; [reflexivity|].
      change (flat_map _ rs) with rows.
      rewrite Hcat. simpl Ticks.all_ticks.
      destruct rows as [|x rows']; [|reflexivity].
      destruct Hnil as [_ Hnil]. specialize (Hnil eq_refl). discriminate.
Qed.

(** ** Finalization: sorted, and without repeated times for bars *)

Lemma existsb_eqb_in t seen : existsb (Z.eqb t) seen = true <-> In t seen.
Proof.
  rewrite existsb_exists. split.
  - intros (x & Hin & Heq). apply Z.eqb_eq in Heq. now subst.
  - intros Hin. exists t. split; [exact Hin|apply Z.eqb_refl].
Qed.

Lemma drop_duplicates_from_in seen l r :
  In r (drop_duplicates_from seen l) -> In r l /\ ~ In (time r) seen.
Proof.
  revert seen. induction l as [|x l IH]; intros seen H; simpl in *; [tauto|].
  destruct (existsb (Z.eqb (time x)) seen) eqn:E.
  - apply IH in H. tauto.
  - destruct H as [<-|H].
    + split; [now left|]. intros Hin. apply existsb_eqb_in in Hin. congruence.
    + apply IH in H. simpl in H. tauto.
Qed.

Lemma drop_duplicates_from_nodup seen l :
  NoDup (times (drop_duplicates_from seen l)).
Proof.
  revert seen. induction l as [|x l IH]; intros seen; simpl; [constructor|].
  destruct (existsb (Z.eqb (time x)) seen) eqn:E; [apply IH|].
  simpl. constructor; [|apply IH].
  intros Hin. apply in_map_iff in Hin. destruct Hin as (r & Hr & Hin).
  apply drop_duplicates_from_in in Hin. destruct Hin as [_ Hin].
  apply Hin. left. now symmetry.
Qed.

Lemma drop_duplicates_from_times seen l t :
  In t (times l) -> In t seen \/ In t (times (drop_duplicates_from seen l)).
Proof.
  revert seen. induction l as [|x l IH]; intros seen H; simpl in *; [tauto|].
  destruct (existsb (Z.eqb (time x)) seen) eqn:E.
  - destruct H as [<-|H]; [left; now apply existsb_eqb_in|now apply IH].
  - destruct H as [<-|H]; [right; now left|].
    destruct (IH (time x :: seen) H) as [[<-|Hs]|Hr]; simpl; tauto.
Qed.

Lemma drop_duplicates_from_sorted (R : row -> row -> Prop) seen l :
  StronglySorted R l -> StronglySorted R (drop_duplicates_from seen l).
Proof.
  intros Hs. revert seen.
  induction Hs as [|x l Hs IH Hx]; intros seen; simpl; [constructor|].
  destruct (existsb (Z.eqb (time x)) seen); [apply IH|].
  constructor; [apply IH|].
  rewrite Forall_forall in *. intros r Hr.
  apply drop_duplicates_from_in in Hr. now apply Hx.
Qed.

(** Non-decreasing times without repetition are increasing times. *)
Lemma sorted_nodup_increasing l :
  StronglySorted time_le l -> NoDup (times l) -> StronglySorted time_lt l.
Proof.
  induction 1 as [|x l Hs IH Hx]; intros Hnd; [constructor|].
  simpl in Hnd. inversion Hnd as [|? ? Hnotin Hnd']; subst.
  constructor; [now apply IH|].
  rewrite Forall_forall in *. intros r Hr.
  specialize (Hx r Hr). unfold time_le, time_lt in *.
  assert (time x <> time r).
  { intros Heq. apply Hnotin. rewrite Heq. now apply in_map. }
  lia.
Qed.

Lemma combine_sorted pd all_data :
  StronglySorted time_lt (Bars.combine pd all_data).
Proof.
  unfold Bars.combine, drop_duplicates.
  apply sorted_nodup_increasing.
  - apply drop_duplicates_from_sorted. apply sort_values_sorted.
  - apply drop_duplicates_from_nodup.
Qed.

Lemma increasing_non_decreasing l :
  StronglySorted time_lt l -> StronglySorted time_le l.
Proof.
  induction 1 as [|x l Hs IH Hx]; constructor; [exact IH|].
  eapply Forall_impl; [|exact Hx]. unfold time_lt, time_le. intros; lia.
Qed.

Lemma increasing_nodup l : StronglySorted time_lt l -> NoDup (times l).
Proof.
  induction 1 as [|x l Hs IH Hx]; simpl; constructor; [|exact IH].
  intros Hin. apply in_map_iff in Hin. destruct Hin as (r & Heq & Hr).
  rewrite Forall_forall in Hx. specialize (Hx r Hr). unfold time_lt in Hx. lia.
Qed.

(** C6: what the bar downloader returns is in non-decreasing order of time,
    no two of its rows have the same time, every row of it was fetched and
    every fetched time is still there; what the tick pipeline hands to
    [to_csv] is in non-decreasing order of time and is a rearrangement of
    [all_ticks]: nothing is dropped there. *)
Theorem finalization_sorted (env : environment) (pd : sort_algorithm) :
  (forall fuel symbol timeframe start_date end_date max_bars tr out tr',
      Bars.download_historical_data fuel env pd symbol timeframe
        start_date end_date max_bars tr = (Return (Some out), tr') ->
      exists chunks,
        let rows := flat_map (fun r => rows_of (copy_rates_range env symbol
                                                 timeframe (fst r) (snd r)))
                      chunks in
        tr' = tr ++ chunk_events symbol timeframe chunks /\
        StronglySorted time_le out /\ NoDup (times out) /\
        (forall r, In r out -> In r rows) /\
        (forall r, In r rows -> In (time r) (times out))) /\
  (forall filename w,
      exists res evs,
        Ticks.save_ticks_to_csv env pd filename w = (Return res, logged w evs) /\
        forall f rows, In (f, rows) (files_written evs) ->
          StronglySorted time_le rows /\
          exists ticks, Ticks.all_ticks (Ticks.self w) = Some ticks /\
                        Permutation rows ticks).
Proof.
  split.
  - intros fuel symbol timeframe start_date end_date max_bars tr out tr' Hrun.
    destruct (Bars.calculate_chunks fuel start_date
                match end_date with Some e => e | None => now env (List.length tr) end
                max_bars) as [chunks|] eqn:Hplan.
    + rewrite (download_historical_data_run _ _ _ _ _ _ _ _ _ chunks Hplan) in Hrun.
      assert (Hcat : List.concat (chunk_data env symbol timeframe chunks) =
                     flat_map (fun r : range => rows_of (copy_rates_range env symbol
                                                   timeframe (fst r) (snd r))) chunks)
        by apply (concat_flat_map_kept
                    (fun r => copy_rates_range env symbol timeframe (fst r) (snd r))).
      pose proof (combine_sorted pd (chunk_data env symbol timeframe chunks)) as Hs.
      destruct (chunk_data env symbol timeframe chunks) as [|d data] eqn:Ed;
        [discriminate|].
      inversion Hrun; subst out tr'. clear Hrun.
      exists chunks. cbv zeta.
      split; [reflexivity|].
      split; [now apply increasing_non_decreasing|].
      split; [now apply increasing_nodup|].
      split.
      * intros r Hr. unfold Bars.combine, drop_duplicates in Hr.
        apply drop_duplicates_from_in in Hr. destruct Hr as [Hr _].
        apply (Permutation_in _ (sort_values_perm pd _)) in Hr.
        now rewrite Hcat in Hr.
      * intros r Hr. unfold Bars.combine, drop_duplicates.
        destruct (drop_duplicates_from_times []
                    (sort_values pd (List.concat (d :: data))) (time r))
          as [[]|H]; [|exact H].
        apply in_map.
        apply (Permutation_in _ (Permutation_sym (sort_values_perm pd _))).
        now rewrite Hcat.
    + unfold Bars.download_historical_data in Hrun.
      unfold bind at 1 in Hrun.
      destruct end_date as [e|]; simpl in Hrun, Hplan; rewrite Hplan in Hrun;
        discriminate.
  - intros filename w. rewrite save_ticks_to_csv_run.
    destruct (Ticks.all_ticks (Ticks.self w)) as [[|t ticks]|].
    + exists None, []. split; [unfold logged; rewrite app_nil_r; now destruct w|].
      intros f rows [].
    + eexists _, _. split; [reflexivity|].
      intros f rows [Heq|[]]. inversion Heq; subst.
      split; [apply sort_values_sorted|].
      exists (t :: ticks). split; [reflexivity|apply sort_values_perm].
    + exists None, []. split; [unfold logged; rewrite app_nil_r; now destruct w|].
      intros f rows [].
Qed.

(** ** The generated file name *)

Lemma fold_min_spec l : forall a,
  fold_left Z.min l a <= a /\
  Forall (fun x => fold_left Z.min l a <= x) l /\
  (fold_left Z.min l a = a \/ In (fold_left Z.min l a) l).
Proof.
  induction l as [|x l IH]; intros a; simpl.
  - repeat split; [lia|constructor|now left].
  - destruct (IH (Z.min a x)) as (H1 & H2 & H3).
    split; [lia|]. split; [constructor; [lia|exact H2]|].
    destruct H3 as [H3|H3]; [|tauto].
    rewrite H3. destruct (Z.min_spec a x) as [[_ ->]|[_ ->]]; tauto.
Qed.

Lemma fold_max_spec l : forall a,
  a <= fold_left Z.max l a /\
  Forall (fun x => x <= fold_left Z.max l a) l /\
  (fold_left Z.max l a = a \/ In (fold_left Z.max l a) l).
Proof.
  induction l as [|x l IH]; intros a; simpl.
  - repeat split; [lia|constructor|now left].
  - destruct (IH (Z.max a x)) as (H1 & H2 & H3).
    split; [lia|]. split; [constructor; [lia|exact H2]|].
    destruct H3 as [H3|H3]; [|tauto].
    rewrite H3. destruct (Z.max_spec a x) as [[_ ->]|[_ ->]]; tauto.
Qed.

(** [series_min] is the least element, [series_max] the greatest. *)
Lemma series_min_spec l :
  l <> [] -> In (series_min l) l /\ Forall (fun x => series_min l <= x) l.
Proof.
  destruct l as [|a l]; [congruence|]. intros _. simpl.
  destruct (fold_min_spec l a) as (H1 & H2 & H3).
  split; [destruct H3; [left; now symmetry|now right]|].
  constructor; assumption.
Qed.

Lemma series_max_spec l :
  l <> [] -> In (series_max l) l /\ Forall (fun x => x <= series_max l) l.
Proof.
  destruct l as [|a l]; [congruence|]. intros _. simpl.
  destruct (fold_max_spec l a) as (H1 & H2 & H3).
  split; [destruct H3; [left; now symmetry|now right]|].
  constructor; assumption.
Qed.

(** Sorting does not change the earliest and the latest time. *)
Lemma series_min_perm l l' :
  Permutation l l' -> l <> [] -> series_min l = series_min l'.
Proof.
  intros Hp Hl.
  assert (Hl' : l' <> []).
  { intros ->. apply Permutation_sym, Permutation_nil in Hp. contradiction. }
  destruct (series_min_spec l Hl) as [Hin Hle].
  destruct (series_min_spec l' Hl') as [Hin' Hle'].
  rewrite Forall_forall in Hle, Hle'.
  apply (Permutation_in _ Hp) in Hin.
  apply (Permutation_in _ (Permutation_sym Hp)) in Hin'.
  specialize (Hle _ Hin'). specialize (Hle' _ Hin). lia.
Qed.

Lemma series_max_perm l l' :
  Permutation l l' -> l <> [] -> series_max l = series_max l'.
Proof.
  intros Hp Hl.
  assert (Hl' : l' <> []).
  { intros ->. apply Permutation_sym, Permutation_nil in Hp. contradiction. }
  destruct (series_max_spec l Hl) as [Hin Hle].
  destruct (series_max_spec l' Hl') as [Hin' Hle'].
  rewrite Forall_forall in Hle, Hle'.
  apply (Permutation_in _ Hp) in Hin.
  apply (Permutation_in _ (Permutation_sym Hp)) in Hin'.
  specialize (Hle _ Hin'). specialize (Hle' _ Hin). lia.
Qed.

(** C7, as the code has it: with no file name given and ticks to save, the
    file handed to [to_csv] is named
    [<symbol>_ticks_<first>_to_<last>_<count>.csv], where [<first>] and
    [<last>] are the days ([%Y%m%d]) of the earliest and of the latest tick
    and [<count>] is the number of ticks; that name is returned when the
    file was written. *)
Theorem save_ticks_to_csv_auto_filename (env : environment)
    (pd : sort_algorithm) (o : Ticks.TickDownloader) (tr : trace)
    (t : row) (ticks : list row) :
  let all := t :: ticks in
  let w := {| Ticks.self := with_all_ticks o (Some all); Ticks.io := tr |} in
  let name :=
    (Ticks.symbol o ++ "_ticks_" ++ strftime_Ymd (series_min (times all))
       ++ "_to_" ++ strftime_Ymd (series_max (times all))
       ++ "_" ++ str_of_nat (List.length all) ++ ".csv")%string in
  exists res,
    Ticks.save_ticks_to_csv env pd None w =
      (Return res, logged w [ToCsv name (sort_values pd all)]) /\
    (res = Some name \/ res = None) /\
    (to_csv env name (sort_values pd all) = WriteOk ->
     path_exists env name = true -> res = Some name).
Proof.
  intros all w name. subst w.
  rewrite save_ticks_to_csv_run.
  assert (Hp : Permutation (times (sort_values pd all)) (times all))
    by (apply Permutation_map, sort_values_perm).
  assert (Hne : times (sort_values pd all) <> []).
  { intros E. rewrite E in Hp. apply Permutation_nil in Hp. discriminate. }
  assert (Hname : Ticks.auto_filename (Ticks.symbol o) (sort_values pd all) = name).
  { unfold Ticks.auto_filename, name.
    rewrite (series_min_perm _ _ Hp Hne), (series_max_perm _ _ Hp Hne).
    now rewrite (Permutation_length (sort_values_perm pd all)). }
  cbn [Ticks.all_ticks Ticks.self with_all_ticks Ticks.symbol].
  unfold all at 1. cbv iota zeta. fold all. rewrite Hname.
  eexists. split; [reflexivity|].
  destruct (to_csv env name (sort_values pd all));
    [destruct (path_exists env name)|]; split; auto; intros; congruence.
Qed.

(** C7 as the specification words it fails: the three ticks of January 2024
    are saved as [EURUSD_ticks_20240101_to_20240131_3.csv], which has the
    word [to] between the two dates and is not
    [<symbol>_<kind>_<start>_<end>_<count>.csv] for any [<kind>]. *)
Lemma auto_filename_has_to :
  files_written
    (Ticks.io (snd (Ticks.save_ticks_to_csv silent_env insertion_sorter None
                      {| Ticks.self :=
                           with_all_ticks
                             (Ticks.new_TickDownloader silent_env [] "EURUSD"
                                0 None Ticks.DEFAULT_MAX_TICKS_PER_BATCH)
                             (Some january_ticks);
                         Ticks.io := [] |})))
  = [("EURUSD_ticks_20240101_to_20240131_3.csv"%string,
      insertion_sort january_ticks)] /\
  strftime_Ymd (series_min (times january_ticks)) = "20240101"%string /\
  strftime_Ymd (series_max (times january_ticks)) = "20240131"%string /\
  str_of_nat (List.length january_ticks) = "3"%string /\
  forall kind,
    "EURUSD_ticks_20240101_to_20240131_3.csv"%string <>
    spec_filename "EURUSD" kind "20240101" "20240131" "3".
Proof.
  split; [vm_compute; reflexivity|].
  split; [vm_compute; reflexivity|].
  split; [vm_compute; reflexivity|].
  split; [vm_compute; reflexivity|].
  intros kind H. unfold spec_filename in H. simpl in H.
  injection H as H.
  repeat (destruct kind as [|? kind];
          [ simpl in H; discriminate
          | simpl in H; injection H as _ H ]).
  destruct kind; discriminate.
Qed.

(** ** Exceptions and teardown *)

Section NeverRaises.

Context {S : Type}.

Lemma never_raises_ret {A} (a : A) : never_raises (@ret S A a).
Proof. intros s. simpl. discriminate. Qed.

Lemma never_raises_timeout {A} : never_raises (@timeout S A).
Proof. intros s. simpl. discriminate. Qed.

Lemma never_raises_bind {A B} (m : M S A) (k : A -> M S B) :
  never_raises m -> (forall a, never_raises (k a)) -> never_raises (bind m k).
Proof.
  intros Hm Hk s. unfold bind. specialize (Hm s).
  destruct (m s) as [[a| |] s']; simpl in *; try congruence;
    try apply Hk.
Qed.

(** [except Exception] stops whatever the body raised. *)
Lemma never_raises_try_except {A} (body handler : M S A) :
  never_raises handler -> never_raises (try_except body handler).
Proof.
  intros Hh s. unfold try_except.
  destruct (body s) as [[a| |] s']; simpl; try congruence;
    try apply Hh.
Qed.

Lemma never_raises_try_finally {A} (body : M S A) (final : M S unit) :
  never_raises body -> never_raises final ->
  never_raises (try_finally body final).
Proof.
  intros Hb Hf s. unfold try_finally. specialize (Hb s).
  destruct (body s) as [[a| |] s']; simpl in *; try congruence.
  specialize (Hf s').
  destruct (final s') as [[u| |] s'']; simpl in *; congruence.
Qed.

End NeverRaises.

Lemma never_raises_ticks_emit e : never_raises (Ticks.emit e).
Proof. intros s. simpl. discriminate. Qed.

Lemma never_raises_get_self : never_raises Ticks.get_self.
Proof. intros s. simpl. discriminate. Qed.

Lemma never_raises_set_all_ticks v : never_raises (Ticks.set_all_ticks v).
Proof. intros s. simpl. discriminate. Qed.

Lemma never_raises_set_downloaded_ticks n :
  never_raises (Ticks.set_downloaded_ticks n).
Proof. intros s. simpl. discriminate. Qed.

Lemma never_raises_bars_emit e : never_raises (Bars.emit e).
Proof. intros s. simpl. discriminate. Qed.

Lemma never_raises_datetime_now env : never_raises (Bars.datetime_now env).
Proof. intros s. simpl. discriminate. Qed.

Create HintDb never_raises.
#[local] Hint Resolve never_raises_ret never_raises_timeout
  never_raises_try_except never_raises_try_finally
  never_raises_ticks_emit never_raises_get_self never_raises_set_all_ticks
  never_raises_set_downloaded_ticks never_raises_bars_emit
  never_raises_datetime_now : never_raises.

(** Walk down a computation: binds, branches and handlers. *)
Ltac never_raises_step :=
  first
    [ apply never_raises_bind; [|intros ?]
    | match goal with
      | |- never_raises (match ?x with _ => _ end) => destruct x
      | |- never_raises (if ?x then _ else _) => destruct x
      end
    | solve [auto with never_raises] ].

Ltac never_raises_walk := cbv zeta; repeat never_raises_step.

Lemma never_raises_get_ticks_by_date_range env a b :
  never_raises (Ticks.get_ticks_by_date_range env a b).
Proof. unfold Ticks.get_ticks_by_date_range. never_raises_walk. Qed.

Lemma never_raises_batches_loop env fuel : forall ce bn acc,
  never_raises (Ticks.batches_loop fuel env ce bn acc).
Proof.
  pose proof never_raises_get_ticks_by_date_range as Hg.
  induction fuel as [|fuel IH]; intros ce bn acc; simpl; never_raises_walk;
    auto.
Qed.

Lemma never_raises_download_in_batches env fuel :
  never_raises (Ticks.download_in_batches fuel env).
Proof.
  pose proof never_raises_batches_loop as Hl.
  unfold Ticks.download_in_batches. never_raises_walk; auto.
Qed.

Lemma never_raises_ticks_initialize_mt5 env :
  never_raises (Ticks.initialize_mt5 env).
Proof. unfold Ticks.initialize_mt5. never_raises_walk. Qed.

Lemma never_raises_download_by_date_range env fuel :
  never_raises (Ticks.download_by_date_range fuel env).
Proof.
  pose proof never_raises_ticks_initialize_mt5 as Hi.
  unfold Ticks.download_by_date_range. never_raises_walk; auto.
Qed.

Lemma never_raises_save_ticks_to_csv env pd filename :
  never_raises (Ticks.save_ticks_to_csv env pd filename).
Proof. unfold Ticks.save_ticks_to_csv. never_raises_walk. Qed.

Lemma never_raises_download_chunk env symbol timeframe a b :
  never_raises (Bars.download_chunk env symbol timeframe a b).
Proof. unfold Bars.download_chunk. never_raises_walk. Qed.

Lemma never_raises_fetch_chunks env symbol timeframe : forall chunks acc,
  never_raises (Bars.fetch_chunks env symbol timeframe chunks acc).
Proof.
  pose proof never_raises_download_chunk as Hd.
  induction chunks as [|[a b] chunks IH]; intros acc; simpl;
    never_raises_walk; auto.
Qed.

Lemma never_raises_save_to_csv env df filename :
  never_raises (Bars.save_to_csv env df filename).
Proof. unfold Bars.save_to_csv. never_raises_walk. Qed.

Lemma never_raises_main fuel env pd : never_raises (Bars.main fuel env pd).
Proof.
  unfold Bars.main, Bars.initialize_mt5. never_raises_walk.
Qed.

Ltac session_tidy :=
  repeat first
    [ rewrite session_after_app
    | rewrite session_after_batch_events
    | rewrite session_after_chunk_events
    | progress simpl ].

(** *** With a reliable library: the functions of [Ticks] and [Bars] *)

Lemma download_in_batches_reliable fuel env w :
  Fallible.download_in_batches reliable fuel env w =
  Ticks.download_in_batches fuel env w.
Proof. reflexivity. Qed.

Lemma download_by_date_range_reliable fuel env w :
  Fallible.download_by_date_range reliable fuel env w =
  Ticks.download_by_date_range fuel env w.
Proof. reflexivity. Qed.

Lemma save_ticks_to_csv_reliable env pd filename w :
  Fallible.save_ticks_to_csv reliable env pd filename w =
  Ticks.save_ticks_to_csv env pd filename w.
Proof. reflexivity. Qed.

Lemma download_ticks_by_date_reliable fuel env pd symbol start_date end_date
    output_file tr :
  Fallible.download_ticks_by_date reliable fuel env pd symbol start_date
    end_date output_file tr =
  Ticks.download_ticks_by_date fuel env pd symbol start_date end_date
    output_file tr.
Proof. reflexivity. Qed.

Lemma download_historical_data_reliable fuel env pd symbol timeframe start_date
    end_date max_bars tr :
  Fallible.download_historical_data reliable fuel env pd symbol timeframe
    start_date end_date max_bars tr =
  Bars.download_historical_data fuel env pd symbol timeframe start_date
    end_date max_bars tr.
Proof. reflexivity. Qed.

Lemma main_reliable fuel env pd tr :
  Fallible.main reliable fuel env pd tr = Bars.main fuel env pd tr.
Proof. reflexivity. Qed.

(** *** No exception leaves the pipelines *)

Lemma never_raises_fallible_download_by_date_range lib env fuel :
  never_raises (Fallible.download_by_date_range lib fuel env).
Proof.
  pose proof never_raises_ticks_initialize_mt5 as Hi.
  unfold Fallible.download_by_date_range. never_raises_walk; auto.
Qed.

Lemma never_raises_fallible_save_ticks_to_csv lib env pd filename :
  never_raises (Fallible.save_ticks_to_csv lib env pd filename).
Proof. unfold Fallible.save_ticks_to_csv. never_raises_walk. Qed.

Lemma never_raises_fallible_main lib fuel env pd :
  never_raises (Fallible.main lib fuel env pd).
Proof.
  unfold Fallible.main, Bars.initialize_mt5. never_raises_walk.
Qed.

(** *** The runs, with the exception of the library in them *)

Lemma fallible_download_in_batches_run lib env fuel w rs :
  batch_plan fuel (Ticks.start_date (Ticks.self w)) (Ticks.end_date (Ticks.self w))
    = Some rs ->
  Fallible.download_in_batches lib fuel env w =
  let o := Ticks.self w in
  let data := batch_data env (Ticks.symbol o) rs in
  let o' := with_downloaded_ticks o (Ticks.downloaded_ticks o + count_rows data) in
  let tr' := Ticks.io w ++ batch_events (Ticks.symbol o) rs in
  match data with
  | [] => (Return false, {| Ticks.self := o'; Ticks.io := tr' |})
  | _ :: _ =>
      if np_concatenate_raises lib data then
        (Raise, {| Ticks.self := o'; Ticks.io := tr' |})
      else
        (Return true,
         {| Ticks.self := with_all_ticks o' (Some (List.concat data));
            Ticks.io := tr' |})
  end.
Proof.
  intros Hplan. unfold Fallible.download_in_batches.
  unfold bind at 1. unfold Ticks.get_self at 1.
  unfold bind at 1.
  rewrite (batches_loop_run env fuel _ 0 [] w rs Hplan).
  cbv zeta. simpl app.
  destruct (batch_data env (Ticks.symbol (Ticks.self w)) rs) as [|d data];
    [reflexivity|].
  unfold bind, Fallible.np_concatenate. cbn [app].
  destruct (np_concatenate_raises lib (d :: data)); reflexivity.
Qed.

Lemma fallible_download_by_date_range_body_run lib env fuel w rs :
  batch_plan fuel (Ticks.start_date (Ticks.self w)) (Ticks.end_date (Ticks.self w))
    = Some rs ->
  Fallible.download_by_date_range_body lib fuel env w =
  let o := Ticks.self w in
  let sym := Ticks.symbol o in
  let s := Ticks.start_date o in
  let e := Ticks.end_date o in
  match kept (copy_ticks_range env sym s e) with
  | l :: _ =>
      (Return true,
       {| Ticks.self :=
            with_downloaded_ticks (with_all_ticks o (Some l))
              (Z.of_nat (List.length l));
          Ticks.io := Ticks.io w ++ [CopyTicks sym s e] |})
  | [] =>
      let data := batch_data env sym rs in
      let o' :=
        with_downloaded_ticks o (Ticks.downloaded_ticks o + count_rows data) in
      let tr' := (Ticks.io w ++ [CopyTicks sym s e]) ++ batch_events sym rs in
      match data with
      | [] => (Return false, {| Ticks.self := o'; Ticks.io := tr' |})
      | _ :: _ =>
          if np_concatenate_raises lib data then
            (Raise, {| Ticks.self := o'; Ticks.io := tr' |})
          else
            (Return true,
             {| Ticks.self := with_all_ticks o' (Some (List.concat data));
                Ticks.io := tr' |})
      end
  end.
Proof.
  intros Hplan. unfold Fallible.download_by_date_range_body.
  unfold bind at 1. unfold Ticks.get_self at 1.
  unfold bind at 1. cbv beta iota.
  rewrite get_ticks_by_date_range_run. unfold logged.
  set (w1 := {| Ticks.self := Ticks.self w;
                Ticks.io := Ticks.io w ++
                            [CopyTicks (Ticks.symbol (Ticks.self w))
                               (Ticks.start_date (Ticks.self w))
                               (Ticks.end_date (Ticks.self w))] |}).
  assert (Hb : Fallible.download_in_batches lib fuel env w1 = _)
    by (apply (fallible_download_in_batches_run lib env fuel w1 rs); exact Hplan).
  cbv zeta in Hb. simpl Ticks.self in Hb. simpl Ticks.io in Hb.
  cbv zeta. unfold kept.
  destruct (copy_ticks_range env _ _ _) as [l| |].
  - destruct (nonempty l) eqn:En.
    + reflexivity.
    + exact Hb.
  - exact Hb.
  - exact Hb.
Qed.

(** [download_by_date_range] returns, and closes the session it opened,
    also when the library raised. *)
Lemma fallible_download_by_date_range_teardown lib env w k :
  exists ok w' evs,
    Fallible.download_by_date_range lib
      (Ticks.batches_fuel (Ticks.start_date (Ticks.self w))
         (Ticks.end_date (Ticks.self w)) + k) env w = (Return ok, w') /\
    Ticks.io w' = Ticks.io w ++ evs /\
    session_after env false evs = false /\
    (mt5_initialize env = true -> In Shutdown evs).
Proof.
  destruct (batch_plan_returns (Ticks.start_date (Ticks.self w))
              (Ticks.end_date (Ticks.self w)) k) as [rs Hplan].
  unfold Fallible.download_by_date_range.
  unfold bind at 1. rewrite initialize_mt5_run. cbv zeta.
  destruct (mt5_initialize env) eqn:Ei; cbv beta iota delta [negb].
  - destruct (mt5_symbol_select env _); cbv beta iota delta [negb].
    + unfold try_finally, try_except.
      rewrite (fallible_download_by_date_range_body_run lib env _ _ rs)
        by exact Hplan.
      cbv zeta. simpl Ticks.self. simpl Ticks.io.
      destruct (kept (copy_ticks_range env _ _ _)) as [|l ls];
        [destruct (batch_data env _ rs) as [|d data];
         [|destruct (np_concatenate_raises lib (d :: data))]|];
        (eexists _, _, _; split; [reflexivity|];
         split; [simpl; rewrite <- !app_assoc; reflexivity|];
         split; [session_tidy; now rewrite ?Ei|]);
        intros _; simpl;
          repeat first [left; reflexivity | right | apply in_or_app; right].
    + eexists _, _, _. split; [reflexivity|]. split; [reflexivity|].
      split; [session_tidy; now rewrite ?Ei | intros _; simpl; tauto].
  - eexists _, _, _. split; [reflexivity|]. split; [reflexivity|].
    split; [simpl; exact Ei | discriminate].
Qed.

Lemma fallible_save_ticks_to_csv_run lib env pd filename w :
  Fallible.save_ticks_to_csv lib env pd filename w =
  match Ticks.all_ticks (Ticks.self w) with
  | None => (Return None, w)
  | Some [] => (Return None, w)
  | Some (t :: ticks) =>
      if pandas_raises lib (t :: ticks) then (Return None, w)
      else
        let df := sort_values pd (t :: ticks) in
        let f := match filename with
                 | None => Ticks.auto_filename (Ticks.symbol (Ticks.self w)) df
                 | Some f => f
                 end in
        (Return match to_csv env f df with
                | WriteOk => if path_exists env f then Some f else None
                | WriteError => None
                end,
         logged w [ToCsv f df])
  end.
Proof.
  unfold Fallible.save_ticks_to_csv, Fallible.sorted_frame, bind,
    Ticks.get_self, try_except, Ticks.emit, ret, raise, logged.
  destruct (Ticks.all_ticks (Ticks.self w)) as [[|t ticks]|]; try reflexivity.
  cbv zeta. simpl Z.eqb. cbv iota.
  destruct (pandas_raises lib (t :: ticks)); [reflexivity|].
  destruct (to_csv env _ _); [|reflexivity].
  destruct (path_exists env _); reflexivity.
Qed.

Lemma fallible_download_historical_data_run lib fuel env pd symbol timeframe
    start_date end_date max_bars tr chunks :
  Bars.calculate_chunks fuel start_date
    match end_date with Some e => e | None => now env (List.length tr) end
    max_bars = Some chunks ->
  Fallible.download_historical_data lib fuel env pd symbol timeframe start_date
    end_date max_bars tr =
  (match chunk_data env symbol timeframe chunks with
   | [] => Return None
   | d :: data =>
       if pandas_raises lib (List.concat (d :: data)) then Raise
       else Return (Some (Bars.combine pd (d :: data)))
   end,
   tr ++ chunk_events symbol timeframe chunks).
Proof.
  intros Hplan. unfold Fallible.download_historical_data.
  unfold bind at 1.
  assert (E : match end_date with
              | Some e => ret e
              | None => Bars.datetime_now env
              end tr =
              (Return match end_date with
                      | Some e => e
                      | None => now env (List.length tr)
                      end, tr)) by (destruct end_date; reflexivity).
  rewrite E, Hplan. unfold bind at 1. rewrite fetch_chunks_run. simpl app.
  destruct (chunk_data env symbol timeframe chunks) as [|d data];
    [reflexivity|].
  unfold bind, Fallible.combined_frame. cbn [app].
  destruct (pandas_raises lib (List.concat (d :: data))); reflexivity.
Qed.

(** [main], given the chunks its range is planned into. *)
Lemma fallible_main_run lib fuel env pd tr chunks :
  Bars.calculate_chunks fuel (now env (List.length tr) - days (365 * 10))
    (now env (S (List.length tr))) 100000 = Some chunks ->
  Fallible.main lib fuel env pd tr =
  if negb (mt5_initialize env) then (Return tt, tr ++ [Initialize])
  else
    (Return tt,
     tr ++ [Initialize] ++
     chunk_events "EURUSD" Bars.TIMEFRAME_M1 chunks ++
     match chunk_data env "EURUSD" Bars.TIMEFRAME_M1 chunks with
     | [] => []
     | d :: data =>
         if pandas_raises lib (List.concat (d :: data)) then []
         else [ToCsv "EURUSD_M10_1year.csv" (Bars.combine pd (d :: data))]
     end ++ [Shutdown]).
Proof.
  intros Hplan. unfold Fallible.main. cbv zeta.
  unfold bind at 1. unfold Bars.datetime_now at 1.
  unfold bind at 1. rewrite bars_initialize_mt5_run.
  destruct (mt5_initialize env); cbv beta iota delta [negb]; [|reflexivity].
  unfold try_finally, try_except, Fallible.main_body. unfold bind at 1.
  rewrite (fallible_download_historical_data_run lib fuel env pd _ _ _ None _ _
             chunks).
  - destruct (chunk_data env _ _ chunks) as [|d data].
    + unfold ret, Bars.emit. simpl. rewrite <- !app_assoc. reflexivity.
    + destruct (pandas_raises lib (List.concat (d :: data))).
      * unfold ret, Bars.emit. simpl. rewrite <- !app_assoc. reflexivity.
      * unfold bind. rewrite save_to_csv_run. unfold ret, Bars.emit.
        simpl. rewrite <- !app_assoc. reflexivity.
  - rewrite length_app. simpl List.length.
    replace (List.length tr + 1)%nat with (S (List.length tr)) by lia.
    exact Hplan.
Qed.


(** ** Termination and the shape of the batches *)

Lemma chain_Forall_impl {A} (P : A -> Prop) (R1 R2 : A -> A -> Prop) l :
  (forall x y, P x -> P y -> R1 x y -> R2 x y) ->
  Forall P l -> chain R1 l -> chain R2 l.
Proof.
  intros Himp HF. induction HF as [|x l Hx HF IH]; intros Hc; [exact I|].
  destruct l as [|y l]; [exact I|].
  apply chain_cons in Hc. destruct Hc as [Hxy Hc].
  apply chain_cons. split; [|now apply IH].
  inversion HF; subst. now apply Himp.
Qed.

(** C9, as the code has it: with a maximum that is not negative the
    planner's loop returns from any [current_start] (for a start date before
    or after the end date), and the values [current_start] takes (the starts
    of the chunks) are at least one minute apart, also when
    [int(max_bars * 0.9)] is 0; the batch loop returns for every range,
    the values [current_end] takes (the ends of the batches) decrease
    strictly, every batch begins before it ends and not before the start
    date, and the last batch begins at the start date. *)
Theorem chunking_loops_terminate (start_date end_date max_bars : Z) (k : nat)
    (env : environment) (w : Ticks.world) :
  0 <= max_bars ->
  (exists rs,
      Bars.chunks_loop (Bars.chunks_fuel start_date end_date + k) start_date
        end_date (minutes (Bars.chunk_minutes max_bars)) [] = Some rs /\
      chain (fun r1 r2 => fst r1 + minutes 1 <= fst r2) rs) /\
  (exists rs,
      Bars.calculate_chunks (Bars.chunks_fuel start_date end_date + k)
        start_date end_date max_bars = Some rs) /\
  (exists ok w' evs,
      Ticks.download_in_batches
        (Ticks.batches_fuel (Ticks.start_date (Ticks.self w))
           (Ticks.end_date (Ticks.self w)) + k) env w = (Return ok, w') /\
      Ticks.io w' = Ticks.io w ++ evs /\
      chain (fun r1 r2 => snd r2 < snd r1) (tick_requests evs) /\
      Forall (fun r => Ticks.start_date (Ticks.self w) <= fst r /\ fst r < snd r)
        (tick_requests evs) /\
      (Ticks.start_date (Ticks.self w) < Ticks.end_date (Ticks.self w) ->
       exists init b,
         tick_requests evs = init ++ [(Ticks.start_date (Ticks.self w), b)])).
Proof.
  intros HM.
  pose proof (chunk_minutes_nonneg _ HM) as Hn.
  split; [|split].
  - destruct (chunks_loop_terminates (minutes (Bars.chunk_minutes max_bars))
                (minutes_nonneg _ Hn)
                (Bars.chunks_fuel start_date end_date) start_date end_date)
      as [rs Hrs]; [unfold Bars.chunks_fuel; lia|].
    apply chunks_loop_fuel_mono with (k := k) in Hrs.
    exists rs. split; [exact Hrs|].
    destruct (chunks_loop_shape start_date end_date _ Hn
                (Bars.chunks_fuel start_date end_date + k)%nat start_date 0 rs)
      as (HF & _ & Hch & _); [unfold minutes; lia|exact Hrs|].
    eapply chain_Forall_impl; [|exact HF|exact Hch].
    simpl. intros x y Hx Hy Hxy. lia.
  - now apply calculate_chunks_returns.
  - set (s := Ticks.start_date (Ticks.self w)).
    set (e := Ticks.end_date (Ticks.self w)).
    destruct (batch_plan_returns s e k) as [rs Hplan].
    pose proof (batch_plan_shape _ _ _ _ Hplan) as (HF & Hch & _ & Hlast & _).
    pose proof (download_in_batches_run env _ w rs Hplan) as Hrun.
    cbv zeta in Hrun.
    assert (Hrs :
      chain (fun r1 r2 : range => snd r2 < snd r1) rs /\
      Forall (fun r : range => s <= fst r /\ fst r < snd r) rs).
    { split.
      - eapply chain_Forall_impl; [|exact HF|exact Hch].
        simpl. intros x y Hx Hy Hxy. lia.
      - eapply Forall_impl; [|exact HF]. simpl. intros r Hr. lia. }
    destruct Hrs as [Hdec Hfwd].
    destruct (batch_data env (Ticks.symbol (Ticks.self w)) rs);
      (eexists _, _, (batch_events (Ticks.symbol (Ticks.self w)) rs);
       split; [exact Hrun|]; split; [reflexivity|];
       rewrite tick_requests_batch_events; repeat split; assumption).
Qed.

Lemma chunking_loops_terminate_witness :
  (exists rs,
      Bars.chunks_loop (Bars.chunks_fuel 0 (minutes 20) + 0) 0 (minutes 20)
        (minutes (Bars.chunk_minutes 1)) [] = Some rs /\
      chain (fun r1 r2 => fst r1 + minutes 1 <= fst r2) rs) /\
  Bars.chunk_minutes 1 = 0.
Proof.
  split; [|reflexivity].
  assert (H0 : 0 <= 1) by lia.
  exact (proj1 (chunking_loops_terminate 0 (minutes 20) 1 0 silent_env
                  (two_day_world silent_env) H0)).
Defined.

(** From 0 to 20 min with a maximum of -10: the start date is before the end
    date, the step [int(max_bars * 0.9)] is -9 min, so after the first
    iteration [current_start] is -8 min, below the 0 it began with, and the
    planner returns for no amount of fuel. *)
Lemma chunking_loop_negative_max_diverges :
  0 <= minutes 20 /\
  Bars.total_minutes 0 (minutes 20) > -10 /\
  Z.min (0 + minutes (Bars.chunk_minutes (-10))) (minutes 20) + minutes 1
    = - minutes 8 /\
  - minutes 8 < 0 /\
  (forall fuel, Bars.calculate_chunks fuel 0 (minutes 20) (-10) = None).
Proof.
  split; [unfold minutes, minute; lia|].
  split; [reflexivity|].
  split; [reflexivity|].
  split; [reflexivity|].
  intros fuel. apply calculate_chunks_negative_max.
Qed.

Lemma chain_rev {A} (R : A -> A -> Prop) l :
  chain R l -> chain (fun x y => R y x) (rev l).
Proof.
  induction l as [|a l IH]; intros Hc; [exact I|].
  destruct l as [|b l]; [exact I|].
  apply chain_cons in Hc. destruct Hc as [Hab Hc].
  specialize (IH Hc). simpl rev in *.
  rewrite <- app_assoc. simpl. now apply chain_snoc.
Qed.

(** C10: the batches are asked for from the end date backwards; each is one
    day long, or shorter and beginning at the start date; each ends
    exactly where the one asked before it begins (read in the order of
    time: each begins exactly where the earlier one ends), so two
    consecutive batches share that instant.  With a terminal that answers closed
    ranges and refuses the whole two days, the tick stamped on the shared
    instant is fetched twice and is written twice. *)
Theorem batches_share_boundary (env : environment) (w : Ticks.world) (k : nat) :
  (exists ok w' evs,
      Ticks.download_in_batches
        (Ticks.batches_fuel (Ticks.start_date (Ticks.self w))
           (Ticks.end_date (Ticks.self w)) + k) env w = (Return ok, w') /\
      Ticks.io w' = Ticks.io w ++ evs /\
      Forall (fun r => fst r = Z.max (Ticks.start_date (Ticks.self w))
                                 (snd r - days 1) /\
                       snd r <= Ticks.end_date (Ticks.self w))
        (tick_requests evs) /\
      chain (fun r1 r2 => snd r2 = fst r1 /\ snd r2 < snd r1)
        (tick_requests evs) /\
      chain (fun earlier later => fst later = snd earlier)
        (rev (tick_requests evs))) /\
  (let run := Ticks.download_ticks_by_date 2 (history_env [boundary_tick] (days 1))
                insertion_sorter "EURUSD" 0 (Some (days 2)) None [] in
   fst run = Return (Some "EURUSD_ticks_19700102_to_19700102_2.csv"%string) /\
   tick_requests (Ticks.io (snd run)) =
     [(0, days 2); (days 1, days 2); (0, days 1)] /\
   files_written (Ticks.io (snd run)) =
     [("EURUSD_ticks_19700102_to_19700102_2.csv"%string,
       [boundary_tick; boundary_tick])]).
Proof.
  split.
  - set (s := Ticks.start_date (Ticks.self w)).
    set (e := Ticks.end_date (Ticks.self w)).
    destruct (batch_plan_returns s e k) as [rs Hplan].
    pose proof (batch_plan_shape _ _ _ _ Hplan) as (HF & Hch & _).
    pose proof (download_in_batches_run env _ w rs Hplan) as Hrun.
    cbv zeta in Hrun.
    assert (Hrs :
      Forall (fun r : range => fst r = Z.max s (snd r - days 1) /\ snd r <= e) rs /\
      chain (fun r1 r2 : range => snd r2 = fst r1 /\ snd r2 < snd r1) rs).
    { split.
      - eapply Forall_impl; [|exact HF]. simpl. intros r Hr.
        change (days 1) with day. tauto.
      - eapply chain_Forall_impl; [|exact HF|exact Hch].
        simpl. intros x y Hx Hy Hxy. split; [exact Hxy|lia]. }
    destruct Hrs as [Hday Hshare].
    assert (Hchron : chain (fun earlier later : range => fst later = snd earlier)
                       (rev rs)).
    { apply (chain_rev (fun r1 r2 : range => fst r1 = snd r2)).
      eapply chain_Forall_impl; [|exact HF|exact Hch].
      simpl. intros x y _ _ Hxy. now symmetry. }
    destruct (batch_data env (Ticks.symbol (Ticks.self w)) rs);
      (eexists _, _, (batch_events (Ticks.symbol (Ticks.self w)) rs);
       split; [exact Hrun|]; split; [reflexivity|];
       rewrite tick_requests_batch_events; repeat split; assumption).
  - vm_compute. repeat split.
Qed.


(** ** Runs *)

(** Every request raises: the tick pipeline asks for the whole range, then
    for each day, gives up with [None], writes nothing and has shut the
    session down. *)
Example failing_terminal_run :
  Ticks.download_ticks_by_date 2 failing_env insertion_sorter "EURUSD" 0
    (Some (days 2)) None [] =
  (Return None,
   {| Ticks.self :=
        Ticks.new_TickDownloader failing_env [] "EURUSD" 0 (Some (days 2))
          Ticks.DEFAULT_MAX_TICKS_PER_BATCH;
      Ticks.io :=
        [Initialize; SymbolSelect "EURUSD";
         CopyTicks "EURUSD" 0 (days 2);
         CopyTicks "EURUSD" (days 1) (days 2); Sleep;
         CopyTicks "EURUSD" 0 (days 1); Sleep; Shutdown] |}).
Proof. reflexivity. Qed.

(** Bars at 1 min, 9 min 30 s and twice at 10 min, planned with a maximum of
    10: the bar between the first two chunks is not asked for, and of the
    two bars of 10 min one is kept. *)
Example bars_run :
  Bars.download_historical_data 3
    (history_env [mk_row 600 [1]; mk_row 60 [2]; mk_row 600 [3]; mk_row 570 [4]]
       (days 1))
    insertion_sorter "EURUSD" Bars.TIMEFRAME_M1 0 (Some (minutes 25)) 10 [] =
  (Return (Some [mk_row 60 [2]; mk_row 600 [1]]),
   chunk_events "EURUSD" Bars.TIMEFRAME_M1
     [(0, minutes 9); (minutes 10, minutes 19); (minutes 20, minutes 25)]).
Proof. reflexivity. Qed.

(** The last second of 29 February 2024 and the first of 1 March. *)
Example strftime_Ymd_leap_day :
  strftime_Ymd 1709251199 = "20240229"%string /\
  strftime_Ymd 1709251200 = "20240301"%string /\
  strftime_Ymd 0 = "19700101"%string.
Proof. repeat split. Qed.

(** * More of the bar pipeline *)

(** ** The size, the number and the end of the chunks *)

Lemma chunks_loop_head fuel cs e d rs :
  0 <= d -> cs < e ->
  Bars.chunks_loop fuel cs e d [] = Some rs ->
  exists rest,
    rs = (cs, Z.min (cs + d) e) :: rest /\
    Bars.chunks_loop (pred fuel) (Z.min (cs + d) e + minutes 1) e d [] = Some rest.
Proof.
  intros Hd Hlt H. destruct fuel as [|fuel].
  - simpl in H. apply Z.ltb_lt in Hlt. rewrite Hlt in H. discriminate.
  - rewrite chunks_loop_step in H by assumption. simpl pred.
    destruct (Bars.chunks_loop fuel _ e d []) as [rest|]; [|discriminate].
    inversion H; subst. eauto.
Qed.

(** Every window but the last is exactly [d] long, none is longer, and the
    last one ends at [e] or at most one minute before it. *)
Lemma chunks_loop_sizes d e : 0 <= d -> forall fuel cs rs,
  Bars.chunks_loop fuel cs e d [] = Some rs ->
  Forall (fun r => snd r - fst r <= d) rs /\
  Forall (fun r => snd r - fst r = d) (removelast rs) /\
  (cs < e -> e - minutes 1 <= snd (last rs (e, e)) <= e).
Proof.
  intros Hd. induction fuel as [|fuel IH]; intros cs rs H.
  - simpl in H. destruct (cs <? e) eqn:E; [discriminate|].
    apply Z.ltb_ge in E. inversion H; subst rs. simpl.
    repeat split; try constructor; lia.
  - destruct (Z.lt_ge_cases cs e) as [Hlt|Hge].
    + destruct (chunks_loop_head _ _ _ _ _ Hd Hlt H) as (rest & -> & Hrest).
      simpl pred in Hrest.
      set (ce := Z.min (cs + d) e) in *.
      destruct (IH _ _ Hrest) as (Hle & Heq & Hlast).
      destruct (Z.lt_ge_cases (ce + minutes 1) e) as [Hnext|Hstop].
      * destruct (chunks_loop_head _ _ _ _ _ Hd Hnext Hrest) as (rest' & -> & _).
        assert (Ece : ce = cs + d).
        { clear - Hnext Hd. unfold minutes, minute in Hnext. subst ce. lia. }
        split; [constructor; [simpl; lia|exact Hle]|].
        split.
        -- change (removelast ((cs, ce) :: ?x :: rest'))
             with ((cs, ce) :: removelast (x :: rest')).
           constructor; [simpl; lia|exact Heq].
        -- intros _. exact (Hlast Hnext).
      * rewrite chunks_loop_done in Hrest by lia. inversion Hrest; subst rest.
        split; [constructor; [simpl; unfold ce; lia|constructor]|].
        split; [constructor|].
        intros _. simpl. clear - Hstop Hlt Hd.
        unfold minutes, minute in *. subst ce. lia.
    + rewrite chunks_loop_done in H by assumption. inversion H; subst rs.
      simpl. repeat split; try constructor; lia.
Qed.

Lemma div_add_one a p : 0 < p -> (a + p) / p = a / p + 1.
Proof.
  intros Hp. replace (a + p) with (a + 1 * p) by lia.
  apply Z.div_add. lia.
Qed.

Lemma div_below a p : 0 < p -> a < p -> a / p <= 0.
Proof.
  intros Hp Ha.
  assert (a / p < 1) by (apply Z.div_lt_upper_bound; lia). lia.
Qed.

Lemma div_first a p : 0 < p -> 0 < a <= p -> (a + p - 1) / p = 1.
Proof.
  intros Hp Ha. replace (a + p - 1) with (a - 1 + p) by lia.
  rewrite div_add_one by assumption. rewrite Z.div_small; lia.
Qed.

(** The loop makes one chunk per step of [d] plus one minute, rounded up. *)
Lemma chunks_loop_count d e : 0 <= d -> forall fuel cs rs,
  Bars.chunks_loop fuel cs e d [] = Some rs ->
  Z.of_nat (List.length rs) =
  Z.max 0 ((e - cs + (d + minute) - 1) / (d + minute)).
Proof.
  intros Hd.
  assert (Hp : 0 < d + minute) by (unfold minute; lia).
  induction fuel as [|fuel IH]; intros cs rs H.
  - simpl in H. destruct (cs <? e) eqn:E; [discriminate|].
    apply Z.ltb_ge in E. inversion H; subst rs. simpl.
    pose proof (div_below (e - cs + (d + minute) - 1) _ Hp). lia.
  - destruct (Z.lt_ge_cases cs e) as [Hlt|Hge].
    + destruct (chunks_loop_head _ _ _ _ _ Hd Hlt H) as (rest & -> & Hrest).
      simpl pred in Hrest. apply IH in Hrest.
      change (minutes 1) with minute in Hrest.
      simpl List.length. rewrite Nat2Z.inj_succ, Hrest.
      destruct (Z.lt_ge_cases (Z.min (cs + d) e + minute) e) as [Hnext|Hstop].
      * assert (Ece : Z.min (cs + d) e = cs + d) by (unfold minute in *; lia).
        rewrite Ece.
        replace (e - (cs + d + minute) + (d + minute) - 1) with (e - cs - 1) by lia.
        replace (e - cs + (d + minute) - 1) with (e - cs - 1 + (d + minute)) by lia.
        rewrite div_add_one by assumption.
        assert (0 <= (e - cs - 1) / (d + minute)) by (apply Z.div_pos; lia).
        lia.
      * pose proof (div_below (e - (Z.min (cs + d) e + minute) + (d + minute) - 1)
                      _ Hp).
        rewrite (div_first (e - cs) _ Hp) by lia. lia.
    + rewrite chunks_loop_done in H by assumption. inversion H; subst rs. simpl.
      pose proof (div_below (e - cs + (d + minute) - 1) _ Hp). lia.
Qed.

(** X1: with a maximum that is not negative, no planned chunk spans more
    than [max_bars] whole minutes; when the range is split, no chunk is
    longer than [int(max_bars * 0.9)] minutes and every chunk but the last
    is exactly that long. *)
Theorem chunks_within_limit (start_date end_date max_bars : Z) (k : nat) :
  0 <= max_bars ->
  exists rs,
    Bars.calculate_chunks (Bars.chunks_fuel start_date end_date + k)
      start_date end_date max_bars = Some rs /\
    Forall (fun r => Bars.total_minutes (fst r) (snd r) <= max_bars) rs /\
    (max_bars < Bars.total_minutes start_date end_date ->
     Forall (fun r => snd r - fst r <= minutes (Bars.chunk_minutes max_bars)) rs /\
     Forall (fun r => snd r - fst r = minutes (Bars.chunk_minutes max_bars))
       (removelast rs)).
Proof.
  intros HM.
  destruct (calculate_chunks_returns start_date end_date max_bars k HM)
    as [rs Hrs].
  exists rs. split; [exact Hrs|].
  pose proof (chunk_minutes_nonneg _ HM) as Hn.
  destruct (Z.le_gt_cases (Bars.total_minutes start_date end_date) max_bars)
    as [Hs|Hl].
  - rewrite calculate_chunks_small in Hrs by assumption.
    inversion Hrs; subst rs.
    split; [constructor; [exact Hs|constructor]|]. intros; lia.
  - rewrite calculate_chunks_large in Hrs by lia.
    destruct (chunks_loop_sizes _ end_date (minutes_nonneg _ Hn) _ _ _ Hrs)
      as (Hle & Heq & _).
    split; [|intros _; split; assumption].
    eapply Forall_impl; [|exact Hle]. simpl. intros r Hr.
    apply Z.le_trans with (Bars.chunk_minutes max_bars).
    + apply total_minutes_le. exact Hr.
    + unfold Bars.chunk_minutes.
      apply Z.quot_le_upper_bound; lia.
Qed.

Lemma chunks_within_limit_witness :
  exists rs,
    Bars.calculate_chunks (Bars.chunks_fuel 0 (minutes 25) + 0) 0 (minutes 25) 10
      = Some rs /\
    Forall (fun r => Bars.total_minutes (fst r) (snd r) <= 10) rs /\
    (10 < Bars.total_minutes 0 (minutes 25) ->
     Forall (fun r => snd r - fst r <= minutes (Bars.chunk_minutes 10)) rs /\
     Forall (fun r => snd r - fst r = minutes (Bars.chunk_minutes 10))
       (removelast rs)).
Proof. apply (chunks_within_limit 0 (minutes 25) 10 0). lia. Defined.

(** X2: for [start_date < end_date] and a maximum that is not negative, the
    last planned chunk ends at [end_date] or at most one minute before it:
    the plan can stop up to a minute short of the end of the range. *)
Theorem last_chunk_near_end (start_date end_date max_bars : Z) (k : nat) :
  start_date < end_date -> 0 <= max_bars ->
  exists rs,
    Bars.calculate_chunks (Bars.chunks_fuel start_date end_date + k)
      start_date end_date max_bars = Some rs /\
    end_date - minutes 1 <= snd (last rs (end_date, end_date)) <= end_date.
Proof.
  intros Hlt HM.
  destruct (calculate_chunks_returns start_date end_date max_bars k HM)
    as [rs Hrs].
  exists rs. split; [exact Hrs|].
  pose proof (chunk_minutes_nonneg _ HM) as Hn.
  destruct (Z.le_gt_cases (Bars.total_minutes start_date end_date) max_bars)
    as [Hs|Hl].
  - rewrite calculate_chunks_small in Hrs by assumption.
    inversion Hrs; subst rs. simpl. unfold minutes, minute. lia.
  - rewrite calculate_chunks_large in Hrs by lia.
    destruct (chunks_loop_sizes _ end_date (minutes_nonneg _ Hn) _ _ _ Hrs)
      as (_ & _ & Hlast).
    now apply Hlast.
Qed.

Lemma last_chunk_near_end_witness :
  exists rs,
    Bars.calculate_chunks (Bars.chunks_fuel 0 (minutes 20) + 0) 0 (minutes 20) 10
      = Some rs /\
    minutes 20 - minutes 1 <= snd (last rs (minutes 20, minutes 20)) <= minutes 20.
Proof.
  apply (last_chunk_near_end 0 (minutes 20) 10 0); unfold minutes, minute; lia.
Defined.

(** X3: with a maximum that is not negative, a range of at most [max_bars]
    whole minutes is one chunk, and a longer one is split into as many
    chunks as there are steps of [int(max_bars * 0.9) + 1] minutes in it,
    rounded up. *)
Theorem chunk_count (start_date end_date max_bars : Z) (k : nat) :
  0 <= max_bars ->
  exists rs,
    Bars.calculate_chunks (Bars.chunks_fuel start_date end_date + k)
      start_date end_date max_bars = Some rs /\
    Z.of_nat (List.length rs) =
    if Bars.total_minutes start_date end_date <=? max_bars then 1
    else (end_date - start_date + minutes (Bars.chunk_minutes max_bars + 1) - 1)
         / minutes (Bars.chunk_minutes max_bars + 1).
Proof.
  intros HM.
  destruct (calculate_chunks_returns start_date end_date max_bars k HM)
    as [rs Hrs].
  exists rs. split; [exact Hrs|].
  pose proof (chunk_minutes_nonneg _ HM) as Hn.
  destruct (Bars.total_minutes start_date end_date <=? max_bars) eqn:E.
  - apply Z.leb_le in E. rewrite calculate_chunks_small in Hrs by assumption.
    now inversion Hrs.
  - apply Z.leb_gt in E. rewrite calculate_chunks_large in Hrs by lia.
    rewrite (chunks_loop_count _ end_date (minutes_nonneg _ Hn) _ _ _ Hrs).
    rewrite minutes_add, minutes_1.
    assert (Hlt : minute <= end_date - start_date).
    { unfold Bars.total_minutes in E.
      assert (0 < Z.quot (end_date - start_date) minute) by lia.
      destruct (Z.lt_ge_cases (end_date - start_date) minute) as [Hsmall|]; [|lia].
      destruct (Z.lt_ge_cases (end_date - start_date) 0).
      - assert (Z.quot (end_date - start_date) minute <= 0)
          by (apply Z.quot_le_upper_bound; unfold minute; lia). lia.
      - rewrite Z.quot_small in H by lia. lia. }
    pose proof (minutes_nonneg _ Hn).
    assert (0 <= (end_date - start_date + (minutes (Bars.chunk_minutes max_bars) + minute) - 1)
                 / (minutes (Bars.chunk_minutes max_bars) + minute)).
    { apply Z.div_pos; unfold minute in *; lia. }
    lia.
Qed.

Lemma chunk_count_witness :
  exists rs,
    Bars.calculate_chunks (Bars.chunks_fuel 0 (minutes 25) + 0) 0 (minutes 25) 10
      = Some rs /\
    Z.of_nat (List.length rs) =
    if Bars.total_minutes 0 (minutes 25) <=? 10 then 1
    else (minutes 25 - 0 + minutes (Bars.chunk_minutes 10 + 1) - 1)
         / minutes (Bars.chunk_minutes 10 + 1).
Proof. apply (chunk_count 0 (minutes 25) 10 0). lia. Defined.

(** ** Ranges that are empty or run backwards *)

(** X4: the planner does not check its range.  When [end_date] is not after
    [start_date] (and the maximum is not negative) the plan is the range as
    given, and the downloader sends that one request to the terminal. *)
Theorem backward_range_is_requested (fuel : nat) (env : environment)
    (pd : sort_algorithm) (symbol : string) (timeframe : Z)
    (start_date end_date max_bars : Z) (tr : trace) :
  end_date <= start_date -> 0 <= max_bars ->
  Bars.calculate_chunks fuel start_date end_date max_bars =
    Some [(start_date, end_date)] /\
  exists res,
    Bars.download_historical_data fuel env pd symbol timeframe start_date
      (Some end_date) max_bars tr =
    (Return res, tr ++ [CopyRates symbol timeframe start_date end_date; Sleep]).
Proof.
  intros Hle HM.
  assert (Hplan : Bars.calculate_chunks fuel start_date end_date max_bars =
                  Some [(start_date, end_date)]).
  { apply calculate_chunks_small. unfold Bars.total_minutes.
    apply Z.le_trans with 0; [|exact HM].
    apply Z.quot_le_upper_bound; unfold minute; lia. }
  split; [exact Hplan|].
  rewrite (download_historical_data_run _ _ _ _ _ _ (Some end_date) _ _ _ Hplan).
  eexists. reflexivity.
Qed.

Lemma backward_range_is_requested_witness :
  Bars.calculate_chunks 0 (minutes 5) 0 10 = Some [(minutes 5, 0)] /\
  exists res,
    Bars.download_historical_data 0 silent_env insertion_sorter "EURUSD"
      Bars.TIMEFRAME_M1 (minutes 5) (Some 0) 10 [] =
    (Return res, [] ++ [CopyRates "EURUSD" Bars.TIMEFRAME_M1 (minutes 5) 0; Sleep]).
Proof.
  apply (backward_range_is_requested 0 silent_env insertion_sorter "EURUSD"
           Bars.TIMEFRAME_M1 (minutes 5) 0 10 []); unfold minutes, minute; lia.
Defined.

(** ** One chunk, and the chunks of a download *)

(** X5: [download_chunk] sends one request and always returns: the frame
    when the terminal answers with rows, [None] when it answers [None], an
    array of length 0, or raises.  It never returns an empty frame. *)
Theorem download_chunk_result (env : environment) (symbol : string)
    (timeframe : Z) (chunk_start chunk_end : Z) (tr : trace) :
  exists res,
    Bars.download_chunk env symbol timeframe chunk_start chunk_end tr =
      (Return res, tr ++ [CopyRates symbol timeframe chunk_start chunk_end]) /\
    res <> Some [] /\
    (res = None <->
     rows_of (copy_rates_range env symbol timeframe chunk_start chunk_end) = []) /\
    (forall df, res = Some df ->
       copy_rates_range env symbol timeframe chunk_start chunk_end = Rows df).
Proof.
  rewrite download_chunk_run.
  destruct (copy_rates_range env symbol timeframe chunk_start chunk_end)
    as [[|r l]| |]; eexists; (split; [reflexivity|]); simpl;
    (split; [discriminate|]); (split; [split; congruence|]);
    intros df H; congruence.
Qed.

(** X6: with a maximum that is not negative, [download_historical_data]
    returns; the requests it sent are the chunks of the plan, in order; it
    hands no file to [to_csv] and neither opens nor closes the session; and
    it returns [None] exactly when no answer had a row. *)
Theorem download_historical_data_requests (env : environment)
    (pd : sort_algorithm) (symbol : string) (timeframe : Z)
    (start_date end_date max_bars : Z) (k : nat) (tr : trace) :
  0 <= max_bars ->
  exists res chunks evs,
    Bars.calculate_chunks (Bars.chunks_fuel start_date end_date + k)
      start_date end_date max_bars = Some chunks /\
    Bars.download_historical_data (Bars.chunks_fuel start_date end_date + k)
      env pd symbol timeframe start_date (Some end_date) max_bars tr =
      (Return res, tr ++ evs) /\
    rate_requests evs = chunks /\
    files_written evs = [] /\
    (forall o, session_after env o evs = o) /\
    (res = None <->
     flat_map (fun r => rows_of (copy_rates_range env symbol timeframe
                                   (fst r) (snd r))) chunks = []).
Proof.
  intros HM.
  destruct (calculate_chunks_returns start_date end_date max_bars k HM)
    as [chunks Hplan].
  rewrite (download_historical_data_run _ _ _ _ _ _ (Some end_date) _ _ _ Hplan).
  eexists _, chunks, _. split; [exact Hplan|]. split; [reflexivity|].
  split; [apply rate_requests_chunk_events|].
  split; [apply files_written_chunk_events|].
  split; [intros o; apply session_after_chunk_events|].
  pose proof (flat_map_kept_nil
                (fun r => copy_rates_range env symbol timeframe (fst r) (snd r))
                chunks) as Hnil.
  change (flat_map (fun r : range => kept _) chunks)
    with (chunk_data env symbol timeframe chunks) in Hnil.
  rewrite <- Hnil.
  destruct (chunk_data env symbol timeframe chunks); split; congruence.
Qed.

Lemma download_historical_data_requests_witness :
  exists res chunks evs,
    Bars.calculate_chunks (Bars.chunks_fuel 0 (minutes 25) + 0) 0 (minutes 25) 10
      = Some chunks /\
    Bars.download_historical_data (Bars.chunks_fuel 0 (minutes 25) + 0)
      silent_env insertion_sorter "EURUSD" Bars.TIMEFRAME_M1 0
      (Some (minutes 25)) 10 [] = (Return res, [] ++ evs) /\
    rate_requests evs = chunks /\
    files_written evs = [] /\
    (forall o, session_after silent_env o evs = o) /\
    (res = None <->
     flat_map (fun r => rows_of (copy_rates_range silent_env "EURUSD"
                                   Bars.TIMEFRAME_M1 (fst r) (snd r))) chunks = []).
Proof.
  apply (download_historical_data_requests silent_env insertion_sorter "EURUSD"
           Bars.TIMEFRAME_M1 0 (minutes 25) 10 0 []). lia.
Defined.

(** X7: [main] asks for the ten years (3650 days) up to now, at most
    100000 bars a chunk.  When the terminal cannot be initialised it does
    nothing else: no request, no file, no shutdown.  Otherwise it sends the
    chunks of the plan, writes [EURUSD_M10_1year.csv] with the sorted rows
    without repeated times when there are rows and no file when there are
    none, and ends with [mt5.shutdown()]. *)
Theorem main_behaviour (env : environment) (pd : sort_algorithm) (tr : trace)
    (k : nat) :
  let start_date := now env (List.length tr) - days 3650 in
  let end_date := now env (Datatypes.S (List.length tr)) in
  exists chunks evs,
    Bars.calculate_chunks (Bars.chunks_fuel start_date end_date + k)
      start_date end_date 100000 = Some chunks /\
    Bars.main (Bars.chunks_fuel start_date end_date + k) env pd tr =
      (Return tt, tr ++ evs) /\
    if mt5_initialize env then
      let rows := flat_map (fun r => rows_of (copy_rates_range env "EURUSD"
                                                Bars.TIMEFRAME_M1 (fst r) (snd r)))
                    chunks in
      rate_requests evs = chunks /\
      files_written evs =
        match rows with
        | [] => []
        | _ :: _ => [("EURUSD_M10_1year.csv"%string,
                      drop_duplicates (sort_values pd rows))]
        end /\
      exists before, evs = Initialize :: before ++ [Shutdown]
    else evs = [Initialize].
Proof.
  intros start_date end_date.
  assert (H0 : 0 <= 100000) by lia.
  destruct (calculate_chunks_returns start_date end_date 100000 k H0)
    as [chunks Hplan].
  exists chunks.
  rewrite (main_run _ env pd tr chunks Hplan).
  destruct (mt5_initialize env); simpl negb; cbv iota.
  - eexists. split; [exact Hplan|]. split; [reflexivity|]. cbv zeta.
    match goal with
    | |- context [match flat_map ?f chunks with _ => _ end] =>
        set (rows := flat_map f chunks)
    end.
    assert (Hcat : List.concat (chunk_data env "EURUSD" Bars.TIMEFRAME_M1 chunks)
                   = rows)
      by apply (concat_flat_map_kept
                  (fun r => copy_rates_range env "EURUSD" Bars.TIMEFRAME_M1
                              (fst r) (snd r))).
    assert (Hnil : chunk_data env "EURUSD" Bars.TIMEFRAME_M1 chunks = [] <->
                   rows = [])
      by apply (flat_map_kept_nil
                  (fun r => copy_rates_range env "EURUSD" Bars.TIMEFRAME_M1
                              (fst r) (snd r))).
    clearbody rows. rewrite <- Hcat.
    destruct (chunk_data env "EURUSD" Bars.TIMEFRAME_M1 chunks) as [|d data] eqn:Ed.
    + split.
      { unfold rate_requests. simpl. rewrite flat_map_app. simpl.
        rewrite app_nil_r. apply rate_requests_chunk_events. }
      split.
      { simpl. rewrite files_written_app, files_written_chunk_events.
        reflexivity. }
      eexists. simpl. reflexivity.
    + split.
      { unfold rate_requests. simpl. rewrite flat_map_app. simpl.
        rewrite app_nil_r. apply rate_requests_chunk_events. }
      split.
      { simpl app at 1. simpl files_written at 1.
        rewrite files_written_app, files_written_chunk_events.
        unfold Bars.combine.
        destruct (List.concat (d :: data)) as [|x rows'] eqn:Ec; [|reflexivity].
        symmetry in Hcat. apply Hnil in Hcat. discriminate. }
      exists (chunk_events "EURUSD" Bars.TIMEFRAME_M1 chunks ++
              [ToCsv "EURUSD_M10_1year.csv" (Bars.combine pd (d :: data))]).
      simpl. rewrite <- app_assoc. reflexivity.
  - exists [Initialize]. repeat split; assumption.
Qed.

(** * More of the tick pipeline *)

(** ** Connecting *)

(** X8: [initialize_mt5] of the tick pipeline returns [True] exactly when
    both [mt5.initialize()] and [mt5.symbol_select] succeed, and its result
    says whether the session is open afterwards: when the symbol cannot be
    selected the session that was just opened is shut down again.  It asks
    for no data and writes no file. *)
Theorem initialize_mt5_session (env : environment) (w : Ticks.world) :
  exists ok evs,
    Ticks.initialize_mt5 env w = (Return ok, logged w evs) /\
    ok = mt5_initialize env &&
         mt5_symbol_select env (Ticks.symbol (Ticks.self w)) /\
    session_after env false evs = ok /\
    tick_requests evs = [] /\
    files_written evs = [].
Proof.
  rewrite initialize_mt5_run. cbv zeta.
  destruct (mt5_initialize env) eqn:Ei; simpl negb; cbv iota.
  - destruct (mt5_symbol_select env _) eqn:Es; simpl negb; cbv iota;
      eexists _, _; (split; [reflexivity|]); simpl; rewrite ?Ei; auto.
  - eexists _, _. split; [reflexivity|]. simpl. rewrite ?Ei. auto.
Qed.

(** ** The whole range first *)

(** X9: when the session opens and the request for the whole range answers
    with rows, [download_by_date_range] stores them and returns [True]
    without asking for any batch, whatever the fuel: the only request is the
    whole range, [all_ticks] is the answer, [downloaded_ticks] its length,
    and the session is shut down. *)
Theorem whole_range_first (fuel : nat) (env : environment) (w : Ticks.world)
    (t : row) (ticks : list row) :
  let o := Ticks.self w in
  mt5_initialize env = true ->
  mt5_symbol_select env (Ticks.symbol o) = true ->
  copy_ticks_range env (Ticks.symbol o) (Ticks.start_date o) (Ticks.end_date o)
    = Rows (t :: ticks) ->
  exists w' evs,
    Ticks.download_by_date_range fuel env w = (Return true, w') /\
    Ticks.io w' = Ticks.io w ++ evs /\
    tick_requests evs = [(Ticks.start_date o, Ticks.end_date o)] /\
    Ticks.all_ticks (Ticks.self w') = Some (t :: ticks) /\
    Ticks.downloaded_ticks (Ticks.self w') =
      Z.of_nat (List.length (t :: ticks)) /\
    session_after env false evs = false.
Proof.
  intros o Hi Hs Hr. subst o. unfold Ticks.download_by_date_range.
  unfold bind at 1. rewrite initialize_mt5_run. cbv zeta.
  rewrite Hi, Hs. cbv beta iota delta [negb].
  unfold try_finally, try_except.
  unfold bind at 1. unfold Ticks.get_self at 1.
  unfold bind at 1. cbv beta iota.
  rewrite get_ticks_by_date_range_run. unfold logged.
  cbn [Ticks.self Ticks.io]. rewrite Hr.
  unfold bind, Ticks.set_all_ticks, Ticks.set_downloaded_ticks, ret, Ticks.emit.
  cbn -[Z.of_nat List.length].
  eexists _, _. split; [reflexivity|].
  split; [cbn; rewrite <- !app_assoc; reflexivity|].
  cbn -[Z.of_nat List.length]. rewrite ?Hi. repeat split.
Qed.

Lemma whole_range_first_witness :
  exists w' evs,
    Ticks.download_by_date_range 0 (history_env [boundary_tick] (days 2))
      (two_day_world (history_env [boundary_tick] (days 2))) = (Return true, w') /\
    Ticks.io w' = [] ++ evs /\
    tick_requests evs = [(0, days 2)] /\
    Ticks.all_ticks (Ticks.self w') = Some [boundary_tick] /\
    Ticks.downloaded_ticks (Ticks.self w') = Z.of_nat (List.length [boundary_tick]) /\
    session_after (history_env [boundary_tick] (days 2)) false evs = false.
Proof.
  apply (whole_range_first 0 (history_env [boundary_tick] (days 2))
           (two_day_world (history_env [boundary_tick] (days 2)))
           boundary_tick []); reflexivity.
Defined.

(** ** Counting *)

Lemma count_rows_concat data :
  count_rows data = Z.of_nat (List.length (List.concat data)).
Proof.
  induction data as [|d data IH]; simpl; [reflexivity|].
  rewrite length_app, Nat2Z.inj_add, IH. reflexivity.
Qed.

Lemma concat_nonempty (data : list (list row)) :
  Forall (fun l => l <> []) data -> data <> [] -> List.concat data <> [].
Proof.
  intros HF Hne. destruct data as [|d data]; [congruence|].
  inversion HF as [|? ? Hd _]; subst. simpl.
  destruct d; [congruence|discriminate].
Qed.

Lemma initializations_app tr1 tr2 :
  initializations (tr1 ++ tr2) = (initializations tr1 + initializations tr2)%nat.
Proof. unfold initializations. now rewrite filter_app, length_app. Qed.

Lemma initializations_batch_events symbol rs :
  initializations (batch_events symbol rs) = 0%nat.
Proof.
  unfold initializations.
  induction rs as [|[a b] rs IH]; simpl; [reflexivity|exact IH].
Qed.

(** The loop asks for one batch per day of the range, rounded up. *)
Lemma batch_plan_count start_date fuel : forall ce rs,
  batch_plan fuel start_date ce = Some rs ->
  Z.of_nat (List.length rs) = Z.max 0 ((ce - start_date + day - 1) / day).
Proof.
  assert (Hp : 0 < day) by (unfold day; lia).
  assert (Hnone : forall ce, ce <= start_date ->
            0 = Z.max 0 ((ce - start_date + day - 1) / day)).
  { intros ce Hge. pose proof (div_below (ce - start_date + day - 1) _ Hp). lia. }
  induction fuel as [|fuel IH]; intros ce rs H.
  - destruct (Z.lt_ge_cases start_date ce) as [Hlt|Hge].
    + simpl in H.
      assert (E : (ce >? start_date) = true) by (apply Z.gtb_lt; lia).
      rewrite E in H. discriminate.
    + rewrite batch_plan_done in H by lia. inversion H; subst rs.
      simpl. apply Hnone. lia.
  - destruct (Z.lt_ge_cases start_date ce) as [Hlt|Hge].
    + rewrite batch_plan_step in H by assumption.
      destruct (Z.max start_date (ce - day) <=? start_date) eqn:E.
      * apply Z.leb_le in E. inversion H; subst rs. simpl List.length.
        rewrite (div_first (ce - start_date) _ Hp) by lia. reflexivity.
      * apply Z.leb_gt in E.
        destruct (batch_plan fuel start_date _) as [rs'|] eqn:Erec; [|discriminate].
        simpl in H. inversion H; subst rs. apply IH in Erec.
        simpl List.length. rewrite Nat2Z.inj_succ, Erec.
        rewrite (Z.max_r start_date (ce - day)) by lia.
        replace (ce - day - start_date + day - 1) with (ce - start_date - 1) by lia.
        replace (ce - start_date + day - 1) with (ce - start_date - 1 + day) by lia.
        rewrite div_add_one by assumption.
        assert (0 <= (ce - start_date - 1) / day) by (apply Z.div_pos; lia).
        lia.
    + rewrite batch_plan_done in H by lia. inversion H; subst rs.
      simpl. apply Hnone. lia.
Qed.

(** X10: the batch loop asks for as many batches as there are days in the
    range, rounded up, and for none when the end date is not after the start
    date. *)
Theorem batch_count (env : environment) (w : Ticks.world) (k : nat) :
  exists ok w' evs,
    Ticks.download_in_batches
      (Ticks.batches_fuel (Ticks.start_date (Ticks.self w))
         (Ticks.end_date (Ticks.self w)) + k) env w = (Return ok, w') /\
    Ticks.io w' = Ticks.io w ++ evs /\
    Z.of_nat (List.length (tick_requests evs)) =
    Z.max 0 ((Ticks.end_date (Ticks.self w) - Ticks.start_date (Ticks.self w)
              + days 1 - 1) / days 1).
Proof.
  destruct (batch_plan_returns (Ticks.start_date (Ticks.self w))
              (Ticks.end_date (Ticks.self w)) k) as [rs Hplan].
  pose proof (batch_plan_count _ _ _ _ Hplan) as Hcount.
  pose proof (download_in_batches_run env _ w rs Hplan) as Hrun.
  cbv zeta in Hrun. change (days 1) with day.
  destruct (batch_data env (Ticks.symbol (Ticks.self w)) rs);
    (eexists _, _, (batch_events (Ticks.symbol (Ticks.self w)) rs);
     split; [exact Hrun|]; split; [reflexivity|];
     rewrite tick_requests_batch_events; exact Hcount).
Qed.

(** X11: when the end date is not after the start date the batch loop does
    nothing, whatever the fuel: no request, [False], and the downloader as
    it was. *)
Theorem empty_range_no_batches (fuel : nat) (env : environment)
    (w : Ticks.world) :
  Ticks.end_date (Ticks.self w) <= Ticks.start_date (Ticks.self w) ->
  Ticks.download_in_batches fuel env w = (Return false, w).
Proof.
  intros Hle. unfold Ticks.download_in_batches.
  unfold bind at 1. unfold Ticks.get_self at 1.
  unfold bind. rewrite batches_loop_done by exact Hle. reflexivity.
Qed.

Lemma empty_range_no_batches_witness :
  Ticks.download_in_batches 0 silent_env
    {| Ticks.self :=
         Ticks.new_TickDownloader silent_env [] "EURUSD" (days 2) (Some (days 2))
           Ticks.DEFAULT_MAX_TICKS_PER_BATCH;
       Ticks.io := [] |} =
  (Return false,
   {| Ticks.self :=
        Ticks.new_TickDownloader silent_env [] "EURUSD" (days 2) (Some (days 2))
          Ticks.DEFAULT_MAX_TICKS_PER_BATCH;
      Ticks.io := [] |}).
Proof.
  apply (empty_range_no_batches 0 silent_env). simpl. lia.
Defined.

(** ** What a download leaves in the downloader *)

Lemma batch_data_nonempty env symbol rs :
  Forall (fun l => l <> []) (batch_data env symbol rs).
Proof.
  apply (flat_map_kept_nonempty
           (fun r => copy_ticks_range env symbol (fst r) (snd r))).
Qed.

(** Everything the later results need to know about one run of
    [download_by_date_range]. *)
Lemma download_by_date_range_summary env fuel w :
  (Z.to_nat ((Ticks.end_date (Ticks.self w) - Ticks.start_date (Ticks.self w))
             / day) < fuel)%nat ->
  exists ok o' evs,
    Ticks.download_by_date_range fuel env w =
      (Return ok, {| Ticks.self := o'; Ticks.io := Ticks.io w ++ evs |}) /\
    session_after env false evs = false /\
    initializations evs = 1%nat /\
    files_written evs = [] /\
    Ticks.symbol o' = Ticks.symbol (Ticks.self w) /\
    (ok = true ->
     exists ticks,
       ticks <> [] /\ Ticks.all_ticks o' = Some ticks /\
       (Ticks.downloaded_ticks o' = Z.of_nat (List.length ticks) \/
        Ticks.downloaded_ticks o' =
          Ticks.downloaded_ticks (Ticks.self w) + Z.of_nat (List.length ticks))) /\
    (ok = false -> o' = Ticks.self w).
Proof.
  intros Hfuel.
  destruct (batch_plan_terminates _ _ _ Hfuel) as [rs Hplan].
  rewrite (download_by_date_range_run env fuel w rs Hplan). cbv zeta.
  destruct (mt5_initialize env) eqn:Ei; simpl negb; cbv iota.
  - destruct (mt5_symbol_select env _) eqn:Es; simpl negb; cbv iota.
    + destruct (kept (copy_ticks_range env _ _ _)) as [|l ls] eqn:Ek.
      * pose proof (batch_data_nonempty env (Ticks.symbol (Ticks.self w)) rs) as Hne.
        destruct (batch_data env (Ticks.symbol (Ticks.self w)) rs) as [|d data] eqn:Ed.
        -- eexists false, _, _. split; [reflexivity|].
           split; [session_tidy; reflexivity|].
           split; [rewrite !initializations_app, initializations_batch_events;
                   reflexivity|].
           split; [files_tidy; reflexivity|].
           split; [reflexivity|].
           split; [discriminate|]. intros _. simpl.
           rewrite Z.add_0_r. apply with_downloaded_ticks_same.
        -- eexists true, _, _. split; [reflexivity|].
           split; [session_tidy; reflexivity|].
           split; [rewrite !initializations_app, initializations_batch_events;
                   reflexivity|].
           split; [files_tidy; reflexivity|].
           split; [reflexivity|].
           split; [|discriminate]. intros _.
           exists (List.concat (d :: data)).
           split; [apply concat_nonempty; [exact Hne|discriminate]|].
           split; [reflexivity|]. right.
           cbn [Ticks.downloaded_ticks with_all_ticks with_downloaded_ticks].
           now rewrite count_rows_concat.
      * assert (Hl : l <> []).
        { pose proof (kept_nonempty (copy_ticks_range env (Ticks.symbol (Ticks.self w))
                        (Ticks.start_date (Ticks.self w))
                        (Ticks.end_date (Ticks.self w)))) as HF.
          rewrite Ek in HF. now inversion HF. }
        eexists true, _, _. split; [reflexivity|].
        split; [simpl; reflexivity|].
        split; [reflexivity|]. split; [reflexivity|]. split; [reflexivity|].
        split; [|discriminate]. intros _. exists l.
        split; [exact Hl|]. split; [reflexivity|]. left. reflexivity.
    + eexists false, _, _. unfold logged. split; [reflexivity|].
      split; [simpl; reflexivity|].
      split; [reflexivity|]. split; [reflexivity|]. split; [reflexivity|].
      split; [discriminate|reflexivity].
  - eexists false, _, _. unfold logged. split; [reflexivity|].
    split; [simpl; exact Ei|].
    split; [reflexivity|]. split; [reflexivity|]. split; [reflexivity|].
    split; [discriminate|reflexivity].
Qed.

(** X12: on a new downloader [download_by_date_range] returns [True]
    exactly when it stored ticks; then [all_ticks] is not empty and
    [downloaded_ticks] is its length.  When it returns [False] the
    downloader is as it was created: [all_ticks] is [None] and
    [downloaded_ticks] is 0. *)
Theorem downloaded_ticks_counts_all_ticks (env : environment) (tr : trace)
    (symbol : string) (start_date : Z) (end_date : option Z)
    (max_ticks_per_batch : Z) (k : nat) :
  let o := Ticks.new_TickDownloader env tr symbol start_date end_date
             max_ticks_per_batch in
  exists ok w',
    Ticks.download_by_date_range
      (Ticks.batches_fuel (Ticks.start_date o) (Ticks.end_date o) + k) env
      {| Ticks.self := o; Ticks.io := tr |} = (Return ok, w') /\
    (if ok then
       exists ticks,
         ticks <> [] /\ Ticks.all_ticks (Ticks.self w') = Some ticks /\
         Ticks.downloaded_ticks (Ticks.self w') = Z.of_nat (List.length ticks)
     else Ticks.self w' = o).
Proof.
  intros o.
  destruct (download_by_date_range_summary env
              (Ticks.batches_fuel (Ticks.start_date o) (Ticks.end_date o) + k)
              {| Ticks.self := o; Ticks.io := tr |})
    as (ok & o' & evs & Hrun & _ & _ & _ & _ & Htrue & Hfalse).
  { unfold Ticks.batches_fuel. simpl Ticks.self. lia. }
  exists ok, {| Ticks.self := o'; Ticks.io := tr ++ evs |}.
  split; [exact Hrun|].
  destruct ok.
  - destruct (Htrue eq_refl) as (ticks & Hne & Hall & Hcount).
    exists ticks. split; [exact Hne|]. split; [exact Hall|].
    simpl Ticks.self in *. destruct Hcount as [H|H]; [exact H|].
    rewrite H. reflexivity.
  - exact (Hfalse eq_refl).
Qed.

(** ** Saving *)

(** X13: [save_ticks_to_csv] never changes the downloader.  It hands a file
    to [to_csv] exactly when [all_ticks] holds at least one tick; a file
    name that was given is used as it is; and a name is returned only for a
    file that was handed over, whose write did not raise and which exists
    afterwards. *)
Theorem save_ticks_to_csv_behaviour (env : environment) (pd : sort_algorithm)
    (filename : option string) (w : Ticks.world) :
  exists res evs,
    Ticks.save_ticks_to_csv env pd filename w = (Return res, logged w evs) /\
    (evs = [] <->
     Ticks.all_ticks (Ticks.self w) = None \/
     Ticks.all_ticks (Ticks.self w) = Some []) /\
    (evs <> [] -> exists f rows, evs = [ToCsv f rows]) /\
    (forall f rows given,
        In (f, rows) (files_written evs) -> filename = Some given -> f = given) /\
    (forall f,
        res = Some f ->
        exists rows, evs = [ToCsv f rows] /\
                     to_csv env f rows = WriteOk /\ path_exists env f = true).
Proof.
  rewrite save_ticks_to_csv_run.
  destruct (Ticks.all_ticks (Ticks.self w)) as [[|t ticks]|].
  - exists None, []. split; [unfold logged; rewrite app_nil_r; now destruct w|].
    split; [tauto|]. split; [congruence|].
    split; [intros f rows given []|discriminate].
  - cbv zeta. eexists _, _. split; [reflexivity|].
    split; [split; [discriminate|intros [H|H]; discriminate]|].
    split; [intros _; eauto|].
    split.
    + intros f rows given [Heq|[]] Hgiven. inversion Heq; subst.
      reflexivity.
    + intros f Hres.
      destruct (to_csv env _ _) eqn:Ew; [|discriminate].
      destruct (path_exists env _) eqn:Ep; [|discriminate].
      inversion Hres; subst f. eauto.
  - exists None, []. split; [unfold logged; rewrite app_nil_r; now destruct w|].
    split; [tauto|]. split; [congruence|].
    split; [intros f rows given []|discriminate].
Qed.

(** ** From a request to a file *)

(** One call of [download_ticks_by_date], for the results below. *)
Lemma download_ticks_by_date_summary env pd fuel symbol start_date end_date
    output_file tr :
  (Z.to_nat ((match end_date with
              | Some e => e
              | None => now env (List.length tr)
              end - start_date) / day) < fuel)%nat ->
  exists res w evs,
    Ticks.download_ticks_by_date fuel env pd symbol start_date end_date
      output_file tr = (Return res, w) /\
    Ticks.io w = tr ++ evs /\
    session_after env false evs = false /\
    initializations evs = 1%nat /\
    (files_written evs = [] /\ res = None \/
     exists ticks,
       Ticks.all_ticks (Ticks.self w) = Some ticks /\ ticks <> [] /\
       let df := sort_values pd ticks in
       let f := match output_file with
                | Some f => f
                | None => Ticks.auto_filename symbol df
                end in
       files_written evs = [(f, df)] /\
       (res = None \/
        res = Some f /\ f <> ""%string /\
        to_csv env f df = WriteOk /\ path_exists env f = true)).
Proof.
  intros Hfuel. unfold Ticks.download_ticks_by_date.
  set (w0 := {| Ticks.self := Ticks.new_TickDownloader env tr symbol start_date
                                end_date Ticks.DEFAULT_MAX_TICKS_PER_BATCH;
                Ticks.io := tr |}).
  destruct (download_by_date_range_summary env fuel w0 Hfuel)
    as (ok & o' & evs & Hrun & Hs & Hi & Hf & Hsym & Htrue & _).
  unfold bind at 1. rewrite Hrun. simpl Ticks.io.
  destruct ok.
  - destruct (Htrue eq_refl) as (ticks & Hne & Hall & _).
    unfold bind at 1. rewrite save_ticks_to_csv_run.
    cbn [Ticks.self Ticks.io]. rewrite Hall.
    destruct ticks as [|t ticks]; [congruence|]. cbv zeta.
    rewrite Hsym. change (Ticks.symbol (Ticks.self w0)) with symbol.
    set (df := sort_values pd (t :: ticks)).
    set (f := match output_file with
              | Some f => f
              | None => Ticks.auto_filename symbol df
              end).
    match goal with
    | |- exists res w evs', ?lhs = _ /\ _ =>
        assert (Hl : exists res0,
                  lhs = (Return res0,
                         logged {| Ticks.self := o'; Ticks.io := tr ++ evs |}
                           [ToCsv f df]) /\
                  (res0 = None \/
                   res0 = Some f /\ f <> ""%string /\
                   to_csv env f df = WriteOk /\ path_exists env f = true))
    end.
    { destruct (to_csv env f df) eqn:Ew; [destruct (path_exists env f) eqn:Ep|];
        cbv beta iota; try (exists None; split; [reflexivity|now left]).
      destruct (f =? "")%string eqn:En.
      - exists None. split; [reflexivity|now left].
      - exists (Some f). split; [reflexivity|]. right.
        apply String.eqb_neq in En. auto. }
    destruct Hl as (res0 & Hl & Hres0). rewrite Hl.
    exists res0, (logged {| Ticks.self := o'; Ticks.io := tr ++ evs |} [ToCsv f df]),
      (evs ++ [ToCsv f df]).
    split; [reflexivity|].
    split; [simpl; now rewrite app_assoc|].
    split; [rewrite session_after_app, Hs; reflexivity|].
    split; [rewrite initializations_app, Hi; reflexivity|].
    right. exists (t :: ticks).
    split; [exact Hall|]. split; [exact Hne|]. cbv zeta.
    split; [rewrite files_written_app, Hf; reflexivity|exact Hres0].
  - eexists None, _, evs. split; [reflexivity|].
    split; [reflexivity|]. split; [exact Hs|]. split; [exact Hi|].
    left. split; [exact Hf|reflexivity].
Qed.

(** X14: [download_ticks_by_date] returns; it opens the session once and
    hands at most one file to [to_csv].  When it returns a name, that name
    is not empty, it is the file name that was given if one was, and the
    file was handed over with the stored ticks in sorted order, its write
    did not raise and it exists. *)
Theorem download_ticks_by_date_result (env : environment) (pd : sort_algorithm)
    (symbol : string) (start_date : Z) (end_date : option Z)
    (output_file : option string) (tr : trace) (k : nat) :
  exists res w evs,
    Ticks.download_ticks_by_date
      (Ticks.batches_fuel start_date
         match end_date with
         | Some e => e
         | None => now env (List.length tr)
         end + k)
      env pd symbol start_date end_date output_file tr = (Return res, w) /\
    Ticks.io w = tr ++ evs /\
    initializations evs = 1%nat /\
    (List.length (files_written evs) <= 1)%nat /\
    (forall f,
        res = Some f ->
        f <> ""%string /\
        exists ticks,
          Ticks.all_ticks (Ticks.self w) = Some ticks /\
          files_written evs = [(f, sort_values pd ticks)] /\
          to_csv env f (sort_values pd ticks) = WriteOk /\
          path_exists env f = true) /\
    (forall f given, res = Some f -> output_file = Some given -> f = given).
Proof.
  destruct (download_ticks_by_date_summary env pd
              (Ticks.batches_fuel start_date
                 match end_date with
                 | Some e => e
                 | None => now env (List.length tr)
                 end + k)
              symbol start_date end_date output_file tr)
    as (res & w & evs & Hrun & Hio & _ & Hi & Hcases).
  { unfold Ticks.batches_fuel. lia. }
  exists res, w, evs. split; [exact Hrun|]. split; [exact Hio|].
  split; [exact Hi|].
  destruct Hcases as [[Hf Hres]|(ticks & Hall & Hne & Hf & Hres)].
  - rewrite Hf. split; [simpl; lia|]. subst res.
    split; intros; discriminate.
  - cbv zeta in Hf, Hres. rewrite Hf. split; [simpl; lia|].
    destruct Hres as [Hres|(Hres & Hn & Hw & Hp)]; subst res.
    + split; intros; discriminate.
    + split.
      * intros f Hf'. inversion Hf'; subst f. split; [exact Hn|].
        exists ticks. auto.
      * intros f given Hf' Hg. inversion Hf'; subst f. now rewrite Hg.
Qed.

(** ** Several periods *)

(** X15: given fuel enough for each period, [download_multiple_periods]
    goes through every period of its list, whatever happens in the others:
    it returns, it has opened the session once per period and left it
    closed, and the files it handed to [to_csv], at most one per period,
    are named [<SYMBOL>_<name>.csv] after periods of the list. *)
Theorem download_multiple_periods_runs (env : environment)
    (pd : sort_algorithm) (SYMBOL : string) (fuel : nat)
    (periods : list (Z * Z * string)) (tr : trace) :
  Forall (fun p => (Z.to_nat ((snd (fst p) - fst (fst p)) / day) < fuel)%nat)
    periods ->
  exists evs,
    Ticks.download_multiple_periods fuel env pd SYMBOL periods tr =
      (Return tt, tr ++ evs) /\
    initializations evs = List.length periods /\
    session_after env false evs = false /\
    (List.length (files_written evs) <= List.length periods)%nat /\
    incl (map fst (files_written evs))
      (map (fun p => (SYMBOL ++ "_" ++ snd p ++ ".csv")%string) periods).
Proof.
  intros HF. revert tr.
  induction HF as [|[[s e] name] periods Hp _ IH]; intros tr.
  - exists []. simpl. rewrite app_nil_r. repeat split; auto.
    intros x [].
  - simpl in Hp. cbn [Ticks.download_multiple_periods]. cbv zeta.
    destruct (download_ticks_by_date_summary env pd fuel SYMBOL s (Some e)
                (Some (SYMBOL ++ "_" ++ name ++ ".csv")%string) tr Hp)
      as (res & w & evs1 & Hrun & Hio & Hs & Hi & Hcases).
    rewrite Hrun, Hio.
    destruct (IH ((tr ++ evs1) ++ [Sleep])) as (evs2 & Hrest & Hi2 & Hs2 & Hl2 & Hin2).
    exists (evs1 ++ [Sleep] ++ evs2).
    split; [rewrite Hrest; now rewrite <- !app_assoc|].
    split; [rewrite !initializations_app, Hi, Hi2; reflexivity|].
    split; [rewrite !session_after_app, Hs; simpl; exact Hs2|].
    rewrite !files_written_app. simpl (files_written [Sleep]). simpl app.
    assert (Hone : files_written evs1 = [] \/
                   exists rows, files_written evs1 =
                                [((SYMBOL ++ "_" ++ name ++ ".csv")%string, rows)]).
    { destruct Hcases as [[Hf _]|(ticks & _ & _ & Hf & _)]; [now left|right].
      cbv zeta in Hf. eauto. }
    destruct Hone as [Hf|[rows Hf]]; rewrite Hf; simpl.
    + split; [lia|]. now apply incl_tl.
    + split; [lia|]. apply incl_cons; [now left|now apply incl_tl].
Qed.

Lemma download_multiple_periods_runs_witness :
  exists evs,
    Ticks.download_multiple_periods 3 (history_env [boundary_tick] (days 1))
      insertion_sorter "EURUSD"
      [(0, days 2, "ENERO"%string); (days 2, days 3, "FEBRERO"%string)] [] =
      (Return tt, [] ++ evs) /\
    initializations evs = 2%nat /\
    session_after (history_env [boundary_tick] (days 1)) false evs = false /\
    (List.length (files_written evs) <= 2)%nat /\
    incl (map fst (files_written evs))
      ["EURUSD_ENERO.csv"%string; "EURUSD_FEBRERO.csv"%string].
Proof.
  apply (download_multiple_periods_runs (history_env [boundary_tick] (days 1))
           insertion_sorter "EURUSD" 3
           [(0, days 2, "ENERO"%string); (days 2, days 3, "FEBRERO"%string)] []).
  repeat constructor.
Defined.

(** * The instants the bar plan asks for *)

Section RequestedInstants.

Variables (e d : Z).
Hypothesis d_nonneg : 0 <= d.

Let p := d + minute.

(** An instant is in a chunk of the loop exactly when its offset from
    [current_start], counted in steps of [d] plus one minute, falls in the
    first [d] of a step that begins before [e]. *)
Definition requested (cs t : Z) : Prop :=
  cs <= t <= e /\ (t - cs) mod p <= d /\ (t - cs) / p * p < e - cs.

Lemma chunks_loop_covered fuel : forall cs rs t,
  Bars.chunks_loop fuel cs e d [] = Some rs ->
  (covered t rs <-> requested cs t).
Proof.
  assert (Hp : 0 < p) by (unfold p, minute; lia).
  assert (Hlow : forall x, 0 <= x < p -> x mod p = x /\ x / p = 0).
  { intros x Hx. split; [apply Z.mod_small|apply Z.div_small]; lia. }
  assert (Hup : forall x, (x + p) mod p = x mod p /\ (x + p) / p = x / p + 1).
  { intros x. split.
    - replace (x + p) with (x + 1 * p) by lia. apply Z.mod_add. lia.
    - apply div_add_one. exact Hp. }
  induction fuel as [|fuel IH]; intros cs rs t H.
  - simpl in H. destruct (cs <? e) eqn:E; [discriminate|].
    apply Z.ltb_ge in E. inversion H; subst rs.
    split; [intros Hc; inversion Hc|].
    unfold requested. intros (Ht & _ & Hlt).
    assert (0 <= (t - cs) / p) by (apply Z.div_pos; lia). nia.
  - destruct (Z.lt_ge_cases cs e) as [Hlt|Hge].
    + destruct (chunks_loop_head _ _ _ _ _ d_nonneg Hlt H) as (rest & -> & Hrest).
      simpl pred in Hrest. change (minutes 1) with minute in Hrest.
      rewrite covered_cons. unfold in_range. simpl fst. simpl snd.
      destruct (Z.lt_ge_cases (Z.min (cs + d) e + minute) e) as [Hnext|Hstop].
      * assert (Ece : Z.min (cs + d) e = cs + d) by (unfold minute in *; lia).
        rewrite Ece in *.
        rewrite (IH _ _ t Hrest). unfold requested. fold p.
        replace (cs + d + minute) with (cs + p) by (unfold p; lia).
        destruct (Z.lt_ge_cases (t - cs) p) as [Hin|Hout].
        -- destruct (Z.lt_ge_cases t cs) as [Hneg|Hpos].
           ++ split; [intros [?|(? & _)]|intros (? & _)];
                unfold p, minute in *; lia.
           ++ destruct (Hlow (t - cs)) as [Hm Hq]; [lia|].
              rewrite Hm, Hq.
              split; [intros [?|(? & _)]|intros (? & ? & ?); left];
                unfold p, minute in *; lia.
        -- destruct (Hup (t - (cs + p))) as [Hm Hq].
           replace (t - (cs + p) + p) with (t - cs) in Hm, Hq by lia.
           rewrite Hm, Hq.
           split.
           ++ intros [?|(? & ? & ?)]; [unfold p, minute in *; lia|].
              split; [unfold p, minute in *; lia|]. split; [assumption|].
              unfold p, minute in *. lia.
           ++ intros (? & ? & ?). right.
              split; [unfold p, minute in *; lia|]. split; [assumption|].
              unfold p, minute in *. lia.
      * rewrite chunks_loop_done in Hrest by lia. inversion Hrest; subst rest.
        assert (Hnil : covered t [] <-> False)
          by (split; [apply covered_nil|tauto]).
        rewrite Hnil. unfold requested.
        destruct (Z.lt_ge_cases t cs) as [Hneg|Hpos];
          [split; [intros [?|[]]; lia|intros (? & _); lia]|].
        destruct (Z.lt_ge_cases (t - cs) p) as [Hin|Hout].
        -- destruct (Hlow (t - cs)) as [Hm Hq]; [lia|].
           rewrite Hm, Hq. unfold p, minute in *.
           split; [intros [?|[]]|intros (? & ? & ?); left]; lia.
        -- split; [intros [?|[]]; unfold p, minute in *; lia|].
           intros (Ht & _ & Hq). exfalso.
           assert (1 <= (t - cs) / p) by (apply Z.div_le_lower_bound; lia).
           unfold p, minute in *. nia.
    + rewrite chunks_loop_done in H by assumption. inversion H; subst rs.
      split; [intros Hc; inversion Hc|].
      unfold requested. intros (Ht & _ & Hq).
      assert (0 <= (t - cs) / p) by (apply Z.div_pos; lia). nia.
Qed.

End RequestedInstants.

(** X16: when the range is split (more whole minutes than a maximum that is
    not negative), the instants the plan asks for are exactly these: the
    instants of [start_date, end_date] whose offset from [start_date], taken
    in steps of [int(max_bars * 0.9) + 1] minutes, lies in the first
    [int(max_bars * 0.9)] minutes of a step that begins before [end_date].
    The last minute of every step is asked of no chunk, and neither is
    [end_date] when a step would begin there. *)
Theorem requested_instants (start_date end_date max_bars : Z) (k : nat) (t : Z) :
  0 <= max_bars ->
  max_bars < Bars.total_minutes start_date end_date ->
  let window := minutes (Bars.chunk_minutes max_bars) in
  let step := window + minutes 1 in
  exists rs,
    Bars.calculate_chunks (Bars.chunks_fuel start_date end_date + k)
      start_date end_date max_bars = Some rs /\
    (covered t rs <->
     start_date <= t <= end_date /\
     (t - start_date) mod step <= window /\
     (t - start_date) / step * step < end_date - start_date).
Proof.
  intros HM Hsplit window step.
  destruct (calculate_chunks_returns start_date end_date max_bars k HM)
    as [rs Hrs].
  exists rs. split; [exact Hrs|].
  rewrite calculate_chunks_large in Hrs by exact Hsplit.
  exact (chunks_loop_covered end_date window
           (minutes_nonneg _ (chunk_minutes_nonneg _ HM)) _ _ _ t Hrs).
Qed.

Lemma requested_instants_witness :
  exists rs,
    Bars.calculate_chunks (Bars.chunks_fuel 0 (minutes 20) + 0) 0 (minutes 20) 10
      = Some rs /\
    (covered (minutes 20) rs <->
     0 <= minutes 20 <= minutes 20 /\
     (minutes 20 - 0) mod (minutes (Bars.chunk_minutes 10) + minutes 1)
       <= minutes (Bars.chunk_minutes 10) /\
     (minutes 20 - 0) / (minutes (Bars.chunk_minutes 10) + minutes 1)
       * (minutes (Bars.chunk_minutes 10) + minutes 1) < minutes 20 - 0).
Proof.
  apply (requested_instants 0 (minutes 20) 10 0 (minutes 20)).
  - lia.
  - vm_compute. reflexivity.
Defined.

(** X17: [save_to_csv] of the bar pipeline hands the frame to [to_csv]
    under the name it was given, once, and always returns: [True] when the
    write went through, [False] when it raised. *)
Theorem save_to_csv_result (env : environment) (df : list row)
    (filename : string) (tr : trace) :
  exists ok,
    Bars.save_to_csv env df filename tr = (Return ok, tr ++ [ToCsv filename df]) /\
    (ok = true <-> to_csv env filename df = WriteOk).
Proof.
  rewrite save_to_csv_run.
  destruct (to_csv env filename df); eexists; (split; [reflexivity|]);
    split; congruence.
Qed.
